(** * Knowledge-base generator: crawl control and content classification

    A shallow embedding of [src/source.py] (class [KnowledgeBaseGenerator])
    and the properties of its crawl-control engine.

    Conventions of the embedding.
    - Python [str] is [string]; texts are read as byte strings, so [lower],
      [strip] and the regular expressions are the ASCII ones.
    - Python [dict] is an association list in insertion order ([od_set]
      keeps the position of a key that is already present), because
      [remove_duplicate_content] depends on the iteration order.
    - Python [set] of urls is a [gset string]; the deny-list
      [avoid_page_types], which the classifier iterates, is a list whose
      order is the iteration order of the set.
    - The external collaborators (HTTP transport, HTML parser, robots.txt,
      clock, [urllib.parse], [hashlib.md5]) are parameters: a [World]
      record, a [UrlLib] class and a hash function. *)

From Stdlib Require Import ZArith Ascii.
From stdpp Require Import prelude strings gmap pretty.

Local Open Scope Z_scope.
Local Open Scope nat_scope.

(** ** Python string primitives *)

Module PyStr.

Definition code (c : ascii) : nat := Ascii.nat_of_ascii c.

Definition in_range (lo hi : nat) (c : ascii) : bool :=
  (lo <=? code c) && (code c <=? hi).

Definition is_upper (c : ascii) : bool := in_range 65 90 c.
Definition is_lower (c : ascii) : bool := in_range 97 122 c.
Definition is_digit (c : ascii) : bool := in_range 48 57 c.
Definition is_alpha (c : ascii) : bool := is_upper c || is_lower c.

(** [str.isspace] on the ASCII range: tab, LF, VT, FF, CR, the four
    separators 0x1c-0x1f and the space. *)
Definition is_space (c : ascii) : bool :=
  in_range 9 13 c || in_range 28 32 c.

(** The regular expression class [\w]. *)
Definition is_word (c : ascii) : bool :=
  is_alpha c || is_digit c || (code c =? 95).

Definition lower_ascii (c : ascii) : ascii :=
  if is_upper c then Ascii.ascii_of_nat (code c + 32) else c.

(** [s.lower()] *)
Fixpoint lower (s : string) : string :=
  match s with
  | EmptyString => EmptyString
  | String c s' => String (lower_ascii c) (lower s')
  end.

Definition is_empty (s : string) : bool :=
  match s with EmptyString => true | _ => false end.

(** [s.startswith(p)] *)
Fixpoint startswith (p s : string) : bool :=
  match p, s with
  | EmptyString, _ => true
  | String a p', String b s' => if Ascii.eqb a b then startswith p' s' else false
  | String _ _, EmptyString => false
  end.

(** [needle in hay] *)
Fixpoint contains (needle hay : string) : bool :=
  startswith needle hay ||
  match hay with
  | EmptyString => false
  | String _ hay' => contains needle hay'
  end.

(** [s.endswith(p)] *)
Fixpoint endswith (p s : string) : bool :=
  String.eqb p s ||
  match s with
  | EmptyString => false
  | String _ s' => endswith p s'
  end.

Fixpoint lstrip_by (f : ascii -> bool) (s : string) : string :=
  match s with
  | EmptyString => EmptyString
  | String c s' => if f c then lstrip_by f s' else s
  end.

Fixpoint rstrip_by (f : ascii -> bool) (s : string) : string :=
  match s with
  | EmptyString => EmptyString
  | String c s' =>
      let r := rstrip_by f s' in
      if is_empty r && f c then EmptyString else String c r
  end.

Definition strip_by (f : ascii -> bool) (s : string) : string :=
  rstrip_by f (lstrip_by f s).

(** [s.strip()] *)
Definition strip (s : string) : string := strip_by is_space s.

(** [s.strip("/")] *)
Definition strip_slash (s : string) : string := strip_by (Ascii.eqb "/"%char) s.

(** [s.split(sep, 1)] on a separator character: the text before the first
    [sep] and, when there is one, the text after it. *)
Fixpoint split_once (sep : ascii) (s : string) : string * option string :=
  match s with
  | EmptyString => (EmptyString, None)
  | String c s' =>
      if Ascii.eqb c sep then (EmptyString, Some s')
      else let '(a, b) := split_once sep s' in (String c a, b)
  end.

(** [s.split(sep)[0]] *)
Definition before (sep : ascii) (s : string) : string := fst (split_once sep s).

(** [s.split(sep)] on a separator character. *)
Fixpoint split (sep : ascii) (s : string) : list string :=
  match s with
  | EmptyString => [EmptyString]
  | String c s' =>
      if Ascii.eqb c sep then EmptyString :: split sep s'
      else match split sep s' with
           | [] => [String c EmptyString]
           | p :: ps => String c p :: ps
           end
  end.

(** [sep.join(parts)] *)
Fixpoint join (sep : string) (parts : list string) : string :=
  match parts with
  | [] => EmptyString
  | [p] => p
  | p :: ps => p +:+ sep +:+ join sep ps
  end.

(** [s.split(sub)[0]] for a separator string: the text before the first
    occurrence of [sub] ([s] itself when there is none). *)
Fixpoint before_str (sub s : string) : string :=
  if startswith sub s then EmptyString
  else match s with
       | EmptyString => EmptyString
       | String c s' => String c (before_str sub s')
       end.

(** Deleting non-overlapping matches from left to right, as [re.sub(p, '', s)]
    and [s.replace(old, '')] do. [match_len s] is the length of the match of
    the pattern that starts at the head of [s], if there is one (never [0]
    for the patterns used here); [skip] counts the characters of the current
    match that are still to be dropped. *)
Fixpoint delete_matches (match_len : string -> option nat) (skip : nat)
    (s : string) : string :=
  match s with
  | EmptyString => EmptyString
  | String c s' =>
      match skip with
      | S k => delete_matches match_len k s'
      | O =>
          match match_len s with
          | Some (S k) => delete_matches match_len k s'
          | _ => String c (delete_matches match_len 0 s')
          end
      end
  end.

Definition literal_len (old s : string) : option nat :=
  if startswith old s then Some (String.length old) else None.

(** [s.replace(old, "")] and [re.sub(old, '', s)] for a literal [old]. *)
Definition remove_all (old s : string) : string :=
  delete_matches (literal_len old) 0 s.

(** [re.sub(r'\s+', ' ', s)] *)
Fixpoint collapse_spaces (s : string) : string :=
  match s with
  | EmptyString => EmptyString
  | String c s' =>
      if is_space c then
        match s' with
        | String d _ =>
            if is_space d then collapse_spaces s'
            else String " "%char (collapse_spaces s')
        | EmptyString => String " "%char EmptyString
        end
      else String c (collapse_spaces s')
  end.

(** [re.search('(a1|a2|...)', s)] for literal alternatives. *)
Definition search_any (alts : list string) (s : string) : bool :=
  existsb (fun a => contains a s) alts.

(** [re.match('^(a1|a2|...)', s)] for literal alternatives. *)
Definition match_any (alts : list string) (s : string) : bool :=
  existsb (fun a => startswith a s) alts.

(** [re.match('^(a1|a2|...)$', s)] for literal alternatives, on a text with
    no line break (the texts it is applied to are stripped). *)
Definition fullmatch_any (alts : list string) (s : string) : bool :=
  existsb (fun a => String.eqb a s) alts.

(** The word boundary [\b] between a previous character (if any) and the
    rest of the text. *)
Definition head_is_word (s : string) : bool :=
  match s with
  | EmptyString => false
  | String c _ => is_word c
  end.

Definition boundary (prev_is_word : bool) (rest : string) : bool :=
  negb (Bool.eqb prev_is_word (head_is_word rest)).

(** The text after the prefix [p] of [s], when [p] is a prefix. *)
Fixpoint after_prefix (p s : string) : option string :=
  match p, s with
  | EmptyString, _ => Some s
  | String a p', String b s' => if Ascii.eqb a b then after_prefix p' s' else None
  | String _ _, EmptyString => None
  end.

Definition last_is_word (term : string) (prev_is_word : bool) : bool :=
  match String.rev term with
  | EmptyString => prev_is_word
  | String c _ => is_word c
  end.

(** Does [\b term s? \b] match at the head of [s], the character before
    being a word character or not? *)
Definition word_at (term : string) (prev_is_word : bool) (s : string) : bool :=
  match after_prefix term s with
  | None => false
  | Some rest =>
      boundary prev_is_word s &&
      (boundary (last_is_word term prev_is_word) rest ||
       match rest with
       | String c rest' => Ascii.eqb c "s" && boundary true rest'
       | EmptyString => false
       end)
  end.

Fixpoint word_search_from (term : string) (prev_is_word : bool) (s : string) : bool :=
  word_at term prev_is_word s ||
  match s with
  | EmptyString => false
  | String c s' => word_search_from term (is_word c) s'
  end.

(** [re.search(rf'\b{term}s?\b', s)] *)
Definition word_search (term s : string) : bool := word_search_from term false s.

End PyStr.

(** ** Python dictionaries: association lists in insertion order *)

Module OrderedDict.

Section Dict.
Context {V : Type}.

(** [d.get(k)] *)
Fixpoint od_get (k : string) (d : list (string * V)) : option V :=
  match d with
  | [] => None
  | (k', v) :: d' => if String.eqb k k' then Some v else od_get k d'
  end.

(** [k in d] *)
Definition od_mem (k : string) (d : list (string * V)) : bool :=
  match od_get k d with Some _ => true | None => false end.

(** [d[k] = v]: a key that is present keeps its position, a new key goes
    last. *)
Fixpoint od_set (k : string) (v : V) (d : list (string * V)) : list (string * V) :=
  match d with
  | [] => [(k, v)]
  | (k', v') :: d' =>
      if String.eqb k k' then (k, v) :: d' else (k', v') :: od_set k v d'
  end.

(** [del d[k]] for a key that may be absent. *)
Fixpoint od_del (k : string) (d : list (string * V)) : list (string * V) :=
  match d with
  | [] => []
  | (k', v') :: d' =>
      if String.eqb k k' then d' else (k', v') :: od_del k d'
  end.

(** [d.keys()] *)
Definition od_keys (d : list (string * V)) : list string := d.*1.

(** [{k: v for k, v in d.items() if keep(k)}] *)
Definition od_filter_keys (keep : string -> bool) (d : list (string * V)) :
    list (string * V) :=
  List.filter (fun kv => keep (fst kv)) d.

End Dict.

End OrderedDict.

Export OrderedDict.

(** ** The interface of [urllib.parse] *)

Module Urllib.

(** The 6-tuple of [urlparse]. *)
Record ParseResult := mkParseResult {
  scheme : string;
  netloc : string;
  path : string;
  params : string;
  query : string;
  fragment : string
}.

(** The functions of [urllib.parse] that the generator calls.  [parse_qs]
    yields a dictionary from a key to the list of its values; [urlencode] is
    called with [doseq=True]. *)
Class UrlLib := {
  urlparse : string -> ParseResult;
  urlunparse : ParseResult -> string;
  parse_qs : string -> list (string * list string);
  urlencode : list (string * list string) -> string;
  urljoin : string -> string -> string
}.

End Urllib.

Export (hints) Urllib.

(** ** The data model of the knowledge base *)

(** One [ul] or [ol] element as the extractor reads it. *)
Record ListElem := {
  parent_name : option string;   (* [list_elem.parent.name], if it has a parent *)
  classes : list string;         (* [list_elem.get('class', [])] *)
  items : list string            (* [item.get_text()] of its [li] elements *)
}.

(** The links of a page, or the fault ([str(e)]) raised while they are read
    and resolved. *)
Inductive LinksOutcome :=
  | LinkFault (msg : string)
  | Links (hrefs : list string).

(** The parsed document ([BeautifulSoup]) through the queries the generator
    makes on it.  The tree itself, the choice of the main content element
    (the selectors of [site_specific_content_extraction] and the generic
    containers) and the removal of navigation and advertisement elements
    belong to the HTML parser; the record holds what each query returns at
    the point where the source makes it. *)
Record Soup := {
  (* before extraction, on the whole document *)
  all_p : list string;           (* [p.get_text()] for [soup.find_all('p')] *)
  all_lists : nat;               (* [len(soup.find_all(['ul', 'ol']))] *)
  article_markup : bool;         (* [soup.find('article')] or an Article item type *)
  class_tokens : list string;    (* the class names carried by some element *)
  title_string : option string;  (* [soup.find('title').string], if any *)
  meta_desc : option string;     (* content of the description meta tag, if any *)
  (* in the main content element, after the noise has been removed *)
  main_headings : list (string * list string);
                                 (* [("hN", texts)] for each level with a tag *)
  main_p : list string;          (* [p.get_text()] of its [p] elements *)
  main_ul : list ListElem;
  main_ol : list ListElem;
  (* after extraction, on the whole document *)
  anchors : LinksOutcome         (* [link['href']] for [soup.find_all('a', href=True)];
                                    a fault is one raised while the links are
                                    read and resolved *)
}.

Record ListRecord := {
  list_type : string;
  list_items : list string
}.

Record ContentRecord := {
  title : string;
  meta_description : string;
  headings : list (string * list string);
  paragraphs : list string;
  lists : list ListRecord;
  content_url : option string
}.

Record PageRecord := {
  page_type : string;
  content : ContentRecord;
  depth : nat;
  crawled_at : string
}.

Record DomainStats := {
  domain_pages_crawled : nat;
  by_type : list (string * nat)
}.

Record DomainRecord := {
  base_url : string;
  pages : list (string * PageRecord);
  domain_stats : DomainStats
}.

Record ErrorEntry := {
  error_url : string;
  error_msg : string;
  error_status_code : option Z;
  error_exception : option string
}.

Record RunStats := {
  pages_crawled : nat;
  pages_skipped : nat;
  errors : nat
}.

Record MetaStatistics := {
  total_domains : nat;
  total_pages : nat;
  meta_pages_crawled : nat;
  meta_pages_skipped : nat;
  meta_errors : nat
}.

Record Metadata := {
  generator_name : string;
  generated_at : string;
  statistics : MetaStatistics;
  metadata_errors : list ErrorEntry
}.

(** The constructor arguments that steer the crawl, and the order in which
    the interpreter iterates the set [avoid_page_types] (a Python [set] of
    strings has no specified order; it is fixed for one process). *)
Record Config := {
  max_pages_per_domain : Z;
  respect_robots : bool;
  content_only : bool;
  avoid_iteration : list string
}.

(** The mutable fields of a [KnowledgeBaseGenerator].  [metadata] is the
    value of the key ["_metadata"] of [knowledge_base], which [add_metadata]
    writes after the crawl and which is no domain record; [fetched] is the
    trace of the urls passed to [requests.get], oldest first. *)
Record Generator := {
  knowledge_base : list (string * DomainRecord);
  metadata : option Metadata;
  visited_urls : gset string;
  robot_parsers : list (string * (string -> bool));
  error_urls : list ErrorEntry;
  stats : RunStats;
  fetched : list string
}.

(** ** The external collaborators *)

Inductive ParseOutcome :=
  | ParseFault (msg : string)       (* a fault while parsing, classifying or extracting *)
  | Parsed (soup : Soup).

Record Response := {
  status_code : Z;
  content_type : string;            (* [response.headers.get('Content-Type', '')] *)
  body : ParseOutcome               (* [BeautifulSoup(response.text, 'html.parser')] *)
}.

Inductive FetchOutcome :=
  | FetchFault (msg : string)       (* [requests.get] raises *)
  | Fetched (r : Response).

(** The world answers by the url and by the number of requests made so far,
    so the same url may answer differently at different times. *)
Record World := {
  http_get : nat -> string -> FetchOutcome;
  robots_read : nat -> string -> option (string -> bool);
                                    (* [None]: reading robots.txt raises *)
  clock : nat -> string             (* [time.strftime(...)] *)
}.

(** ** The generator: pure operations *)

Definition content_page_types : list string :=
  ["article"; "blog"; "news"; "resource"; "guide"; "faq";
   "research"; "publication"; "study"; "report"].

Definition avoid_page_types : list string :=
  ["login"; "register"; "signup"; "signin"; "account";
   "cart"; "checkout"; "contact"; "about"; "team"; "privacy";
   "terms"; "policy"; "legal"; "copyright"; "search"].

(** [x in a_set_of_strings] *)
Definition mem (x : string) (l : list string) : bool :=
  existsb (String.eqb x) l.

Definition tracking_params : list string :=
  ["utm_source"; "utm_medium"; "utm_campaign"; "utm_term"; "utm_content";
   "fbclid"; "gclid"; "msclkid"; "ref"; "source"; "intcmp"; "cmp"; "mc_cid";
   "mc_eid"; "sb_referer_host"; "_hsenc"; "_hsmi"; "_ga"; "form"; "lang"].

Section Urls.
Context {lib : Urllib.UrlLib}.

Definition get_domain (url : string) : string :=
  Urllib.netloc (Urllib.urlparse url).

Definition normalize_url (url base : string) : string :=
  let url := PyStr.before "#" url in
  if negb (PyStr.startswith "http://" url || PyStr.startswith "https://" url)
  then Urllib.urljoin base url
  else url.

(** The url rebuilt from the parsed one with a new query and no fragment. *)
Definition rebuild (p : Urllib.ParseResult) (q : string) : Urllib.ParseResult :=
  Urllib.mkParseResult (Urllib.scheme p) (Urllib.netloc p) (Urllib.path p)
    (Urllib.params p) q "".

Definition keep_pg (k : string) : bool := String.eqb k "pg".

Definition keep_untracked (k : string) : bool :=
  negb (mem (PyStr.lower k) tracking_params).

Definition clean_url (url : string) : string :=
  let parsed_url := Urllib.urlparse url in
  if String.eqb (Urllib.netloc parsed_url) "www.alz.org" then
    Urllib.urlunparse (rebuild parsed_url "")
  else if String.eqb (Urllib.netloc parsed_url) "www.webmd.com" then
    let query_params := Urllib.parse_qs (Urllib.query parsed_url) in
    let filtered_params := od_filter_keys keep_pg query_params in
    Urllib.urlunparse (rebuild parsed_url (Urllib.urlencode filtered_params))
  else
    let query_params := Urllib.parse_qs (Urllib.query parsed_url) in
    let filtered_params := od_filter_keys keep_untracked query_params in
    Urllib.urlunparse (rebuild parsed_url (Urllib.urlencode filtered_params)).

Definition is_internal_link (url base_domain : string) : bool :=
  let url_domain := get_domain url in
  String.eqb url_domain base_domain
  || String.eqb url_domain ("www." +:+ base_domain)
  || String.eqb ("www." +:+ url_domain) base_domain.

End Urls.

(** [re.search(r'(a1|a2|...)s?/', path, re.I)] *)
Definition search_section (alts : list string) (path : string) : bool :=
  existsb (fun a => PyStr.contains (a +:+ "/") (PyStr.lower path)
                    || PyStr.contains (a +:+ "s/") (PyStr.lower path)) alts.

(** More than 5 paragraphs with more than 1000 characters of text. *)
Definition text_length (ps : list string) : nat :=
  foldr (fun p n => String.length p + n) 0 ps.

Definition many_paragraphs (soup : Soup) : bool :=
  (5 <? length (all_p soup)) && (1000 <? text_length (all_p soup)).

Definition content_classes : list string :=
  ["content"; "article"; "post"; "blog"; "entry"; "main-content"].

(** [soup.find(class_=re.compile(content_class, re.I))] for some class of
    [content_classes]. *)
Definition has_content_class (soup : Soup) : bool :=
  existsb (fun content_class =>
             existsb (fun tok => PyStr.contains content_class (PyStr.lower tok))
                     (class_tokens soup))
          content_classes.

(** The first term, in the iteration order [order] of the deny-list, that
    matches the path as a word; tried only when some term occurs in it. *)
Definition avoid_match (order : list string) (path : string) : option string :=
  if existsb (fun avoid => PyStr.contains avoid (PyStr.lower path)) order
  then List.find (fun avoid => PyStr.word_search avoid (PyStr.lower path)) order
  else None.

Definition classify_page (order : list string) (url base_url : string)
    (soup : option Soup) : string :=
  let path := PyStr.strip_slash (PyStr.remove_all base_url url) in
  if PyStr.is_empty path then "homepage" else
  match avoid_match order path with
  | Some avoid => avoid
  | None =>
    if search_section ["article"; "post"; "blog"] path then "article"
    else if search_section ["news"; "press"; "release"] path then "news"
    else if search_section ["resource"; "guide"; "handbook"; "help"] path then "resource"
    else if PyStr.search_any ["faq"; "question"; "answer"] (PyStr.lower path) then "faq"
    else if search_section ["research"; "publication"; "study"; "report"] path then "research"
    else
      let by_content :=
        match soup with
        | Some soup =>
            many_paragraphs soup || article_markup soup || has_content_class soup
        | None => false
        end in
      if by_content then "article"
      else if PyStr.contains "/" path then PyStr.before "/" path
      else "other"
  end.

Definition is_content_rich_page (page_type : string) (soup : option Soup) : bool :=
  if mem (PyStr.lower page_type) content_page_types then true
  else if mem (PyStr.lower page_type) avoid_page_types then false
  else
    match soup with
    | Some soup =>
        if many_paragraphs soup then true
        else if 2 <? all_lists soup then true
        else String.eqb page_type "homepage"
    | None => String.eqb page_type "homepage"
    end.

(** *** Extraction *)

Definition site_indicators : list string :=
  [" - AARP"; " | WebMD"; " | Mayo Clinic"; " | NIH"; " | CDC"].

Definition clean_title (title_text : string) : string :=
  foldl (fun t indicator =>
           if PyStr.contains indicator t
           then PyStr.strip (PyStr.before_str indicator t) else t)
        (PyStr.strip title_text) site_indicators.

Definition nav_headings : list string :=
  ["menu"; "navigation"; "search"; "related"; "popular"; "more"].

Definition keep_heading (tag_text : string) : option string :=
  let heading_text := PyStr.strip tag_text in
  if (3 <? String.length heading_text)
     && negb (PyStr.fullmatch_any nav_headings (PyStr.lower heading_text))
  then Some heading_text else None.

(** The length of the match of [%\{[^}]+\}%] at the head of the text. *)
Fixpoint placeholder_body (s : string) (n : nat) : option nat :=
  match s with
  | EmptyString => None
  | String c s' =>
      if Ascii.eqb c "}" then
        if negb (n =? 0) && PyStr.startswith "%" s' then Some (n + 2) else None
      else placeholder_body s' (S n)
  end.

Definition placeholder_len (s : string) : option nat :=
  match PyStr.after_prefix "%{" s with
  | Some s' =>
      match placeholder_body s' 0 with
      | Some n => Some (2 + n)
      | None => None
      end
  | None => None
  end.

(** [re.sub(r'%\{[^}]+\}%', '', text)] *)
Definition remove_placeholders (text : string) : string :=
  PyStr.delete_matches placeholder_len 0 text.

Definition advert_marker : string := "ARTICLE CONTINUES AFTER ADVERTISEMENT".

Definition boilerplate : list string :=
  ["login"; "sign in"; "subscribe"; "newsletter"; "privacy policy"; "terms"].

Definition leaving : list string :=
  ["you are now leaving"; "already a member"].

(** The test that a paragraph passes before it is cleaned. *)
Definition paragraph_ok (text : string) (extracted_texts : gset string) : bool :=
  negb (PyStr.is_empty text)
  && (20 <? String.length text)
  && negb (PyStr.contains "%{" text)
  && negb (PyStr.search_any boilerplate (PyStr.lower text))
  && negb (PyStr.match_any leaving (PyStr.lower text))
  && negb (bool_decide (text ∈ extracted_texts)).

Definition clean_paragraph (text : string) : string :=
  PyStr.remove_all advert_marker (remove_placeholders text).

(** One turn of the loop over the [p] elements: the paragraphs kept so far
    and the set [extracted_texts]. *)
Definition paragraph_step (acc : list string * gset string) (p_text : string) :
    list string * gset string :=
  let '(kept, extracted_texts) := acc in
  let text := PyStr.strip p_text in
  if paragraph_ok text extracted_texts then
    let text := clean_paragraph text in
    if negb (PyStr.is_empty (PyStr.strip text))
       && negb (bool_decide (PyStr.lower (PyStr.strip text) ∈ extracted_texts))
    then (kept ++ [PyStr.strip text],
          {[PyStr.lower (PyStr.strip text)]} ∪ extracted_texts)
    else acc
  else acc.

Definition extract_paragraphs (p_texts : list string) : list string :=
  fst (foldl paragraph_step ([], ∅) p_texts).

Definition nav_parents : list string := ["nav"; "header"; "footer"; "aside"].

Definition keep_item (item_text : string) : option string :=
  let text := PyStr.strip item_text in
  if negb (PyStr.is_empty text)
     && (5 <? String.length text)
     && negb (PyStr.contains "%{" text)
     && negb (PyStr.search_any ["login"; "sign in"; "subscribe"; "newsletter"]
                (PyStr.lower text))
  then
    let text := remove_placeholders text in
    if negb (PyStr.is_empty (PyStr.strip text)) then Some (PyStr.strip text) else None
  else None.

Definition extract_list (type : string) (list_elem : ListElem) : option ListRecord :=
  if match parent_name list_elem with
     | Some name => mem name nav_parents
     | None => false
     end then None
  else if existsb (fun c => PyStr.contains "menu" (PyStr.lower c)
                            || PyStr.contains "nav" (PyStr.lower c))
            (classes list_elem) then None
  else
    let list_items := omap keep_item (items list_elem) in
    if negb (bool_decide (list_items = []))
       && negb (forallb (fun item => String.length item <? 20) list_items)
    then Some {| list_type := type; list_items := list_items |}
    else None.

Definition extract_text_with_structure (soup : Soup) (url : string) : ContentRecord :=
  {| title := match title_string soup with
              | Some t => clean_title t
              | None => ""
              end;
     meta_description := match meta_desc soup with
                         | Some d => PyStr.strip d
                         | None => ""
                         end;
     headings := map (fun '(level, texts) => (level, omap keep_heading texts))
                     (main_headings soup);
     paragraphs := extract_paragraphs (main_p soup);
     lists := omap (extract_list "ul") (main_ul soup)
              ++ omap (extract_list "ol") (main_ol soup);
     content_url := if PyStr.is_empty url then None else Some url |}.

(** ** The generator: state and crawl control *)

Definition set_knowledge_base (kb : list (string * DomainRecord)) (g : Generator) : Generator :=
  {| knowledge_base := kb; metadata := metadata g; visited_urls := visited_urls g;
     robot_parsers := robot_parsers g; error_urls := error_urls g;
     stats := stats g; fetched := fetched g |}.

Definition set_stats (s : RunStats) (g : Generator) : Generator :=
  {| knowledge_base := knowledge_base g; metadata := metadata g;
     visited_urls := visited_urls g; robot_parsers := robot_parsers g;
     error_urls := error_urls g; stats := s; fetched := fetched g |}.

(** [self.stats["pages_skipped"] += 1] *)
Definition skip_page (g : Generator) : Generator :=
  set_stats {| pages_crawled := pages_crawled (stats g);
               pages_skipped := S (pages_skipped (stats g));
               errors := errors (stats g) |} g.

(** [self.error_urls.append(entry); self.stats["errors"] += 1] *)
Definition record_error (entry : ErrorEntry) (g : Generator) : Generator :=
  {| knowledge_base := knowledge_base g; metadata := metadata g;
     visited_urls := visited_urls g; robot_parsers := robot_parsers g;
     error_urls := error_urls g ++ [entry];
     stats := {| pages_crawled := pages_crawled (stats g);
                 pages_skipped := pages_skipped (stats g);
                 errors := S (errors (stats g)) |};
     fetched := fetched g |}.

Definition status_error (url : string) (code : Z) : ErrorEntry :=
  {| error_url := url;
     error_msg := "Failed to fetch " +:+ url +:+ ": Status code " +:+ pretty code;
     error_status_code := Some code;
     error_exception := None |}.

Definition exception_error (url e : string) : ErrorEntry :=
  {| error_url := url;
     error_msg := "Error crawling " +:+ url +:+ ": " +:+ e;
     error_status_code := None;
     error_exception := Some e |}.

(** [self.visited_urls.add(url)] *)
Definition mark_visited (url : string) (g : Generator) : Generator :=
  {| knowledge_base := knowledge_base g; metadata := metadata g;
     visited_urls := {[url]} ∪ visited_urls g; robot_parsers := robot_parsers g;
     error_urls := error_urls g; stats := stats g; fetched := fetched g |}.

(** The request [requests.get(url, ...)] leaves the generator. *)
Definition log_request (url : string) (g : Generator) : Generator :=
  {| knowledge_base := knowledge_base g; metadata := metadata g;
     visited_urls := visited_urls g; robot_parsers := robot_parsers g;
     error_urls := error_urls g; stats := stats g; fetched := fetched g ++ [url] |}.

Definition empty_stats : DomainStats :=
  {| domain_pages_crawled := 0; by_type := [] |}.

(** The record of a domain seen for the first time. *)
Definition ensure_domain (domain base_url : string) (g : Generator) : Generator :=
  if od_mem domain (knowledge_base g) then g
  else set_knowledge_base
         (od_set domain {| base_url := base_url; pages := []; domain_stats := empty_stats |}
                 (knowledge_base g)) g.

(** [by_type[page_type] += 1], the key starting at [0] when it is new. *)
Definition bump_type (page_type : string) (by_type : list (string * nat)) :
    list (string * nat) :=
  od_set page_type (S (default 0 (od_get page_type by_type))) by_type.

(** Lines 604-618: the page goes into [pages] and the three counters move. *)
Definition store_record (url : string) (page : PageRecord) (r : DomainRecord) : DomainRecord :=
  {| base_url := base_url r;
     pages := od_set url page (pages r);
     domain_stats :=
       {| domain_pages_crawled := S (domain_pages_crawled (domain_stats r));
          by_type := bump_type (page_type page) (by_type (domain_stats r)) |} |}.

Definition store_page (domain url : string) (page : PageRecord) (g : Generator) : Generator :=
  match od_get domain (knowledge_base g) with
  | Some r =>
      set_stats {| pages_crawled := S (pages_crawled (stats g));
                   pages_skipped := pages_skipped (stats g);
                   errors := errors (stats g) |}
        (set_knowledge_base (od_set domain (store_record url page r) (knowledge_base g)) g)
  | None => g
  end.

Definition is_content_type (page : PageRecord) : bool :=
  mem (PyStr.lower (page_type page)) content_page_types.

Definition content_pages_count (r : DomainRecord) : nat :=
  length (List.filter (fun kv => is_content_type (snd kv)) (pages r)).

Section Crawl.
Context {lib : Urllib.UrlLib} (cfg : Config) (W : World).

Definition should_crawl_domain (domain : string) (g : Generator) : bool :=
  match od_get domain (knowledge_base g) with
  | None => true
  | Some r =>
      let domain_pages_count := length (pages r) in
      if (max_pages_per_domain cfg <=? Z.of_nat (content_pages_count r))%Z then false
      else if (max_pages_per_domain cfg * 3 <=? Z.of_nat domain_pages_count)%Z then false
      else true
  end.

(** The answer and the generator afterwards (the parser cache, and the skip
    counter when the answer is no). *)
Definition is_allowed_by_robots (url : string) (g : Generator) : bool * Generator :=
  if negb (respect_robots cfg) then (true, g) else
  let parsed_url := Urllib.urlparse url in
  let domain := Urllib.scheme parsed_url +:+ "://" +:+ Urllib.netloc parsed_url in
  let cached :=
    match od_get domain (robot_parsers g) with
    | Some parser => Some (parser, g)
    | None =>
        match robots_read W (length (fetched g)) (domain +:+ "/robots.txt") with
        | Some parser =>
            Some (parser,
                  {| knowledge_base := knowledge_base g; metadata := metadata g;
                     visited_urls := visited_urls g;
                     robot_parsers := od_set domain parser (robot_parsers g);
                     error_urls := error_urls g; stats := stats g;
                     fetched := fetched g |})
        | None => None
        end
    end in
  match cached with
  | None => (true, g)
  | Some (parser, g) =>
      if parser url then (true, g) else (false, skip_page g)
  end.

(** Where an internal link goes: to the front of the priority list, to its
    end, or to the other links. *)
Inductive LinkClass := Front | Priority | Other.

Definition has_any (patterns : list string) (s : string) : bool :=
  existsb (fun pattern => PyStr.contains pattern s) patterns.

Definition priority_if (b : bool) : LinkClass := if b then Priority else Other.

Definition link_class (base_domain lower_href : string) : LinkClass :=
  if String.eqb base_domain "www.caregiveraction.org" then
    if PyStr.contains "/toolbox/" lower_href then Front
    else priority_if (has_any ["/corporate-partners/"; "/caregiver-story/"; "/guide/";
                               "/blueprint-"; "/hipaa-"; "/stroke";
                               "/traumatic-brain-injury/"; "/ptsd/";
                               "/lighting-your-way/"] lower_href)
  else if String.eqb base_domain "www.asaging.org" then Priority
  else if String.eqb base_domain "www.webmd.com" then
    priority_if (has_any ["/a-to-z-guides/"; "/diet/news/"; "/guide/"] lower_href)
  else if String.eqb base_domain "www.aarp.org" then
    priority_if (PyStr.contains "/caregiving/" lower_href)
  else if String.eqb base_domain "www.nia.nih.gov" then
    priority_if (PyStr.contains "/research/" lower_href)
  else if String.eqb base_domain "www.alz.org" then
    priority_if (has_any ["/blog/"; "/help-support/"] lower_href)
  else if String.eqb base_domain "www.ncoa.org" then
    priority_if (PyStr.contains "/older-adults/" lower_href
                 || PyStr.contains "/caregivers/" lower_href)
  else if String.eqb base_domain "www.seniorliving.org" then
    priority_if (has_any ["/care/"; "/health/"; "/finance/"] lower_href)
  else
    priority_if (has_any ["article"; "post"; "blog"; "news"; "resource"] lower_href).

(** One turn of the loop over the links of a page (lines 651-730). *)
Definition link_step (url base_domain : string) (visited : gset string)
    (acc : list string * list string) (href : string) : list string * list string :=
  let '(content_links, other_links) := acc in
  let href := PyStr.strip href in
  if PyStr.is_empty href
     || PyStr.startswith "javascript:" href
     || PyStr.startswith "mailto:" href
     || PyStr.startswith "tel:" href then acc
  else
    let next_url := normalize_url href url in
    if bool_decide (next_url ∈ visited) then acc
    else if is_internal_link next_url base_domain then
      match link_class base_domain (PyStr.lower next_url) with
      | Front => (next_url :: content_links, other_links)
      | Priority => (content_links ++ [next_url], other_links)
      | Other => (content_links, other_links ++ [next_url])
      end
    else acc.

Definition partition_links (url base_domain : string) (visited : gset string)
    (hrefs : list string) : list string * list string :=
  foldl (link_step url base_domain visited) ([], []) hrefs.

(** The page record that line 604 stores. *)
Definition page_record (url base_url : string) (depth now : nat) (soup : Soup) : PageRecord :=
  {| page_type := classify_page (avoid_iteration cfg) url base_url (Some soup);
     content := extract_text_with_structure soup url;
     depth := depth;
     crawled_at := clock W now |}.

(** Lines 574-730, once the document is parsed: classification, the
    richness filter, extraction, the second quota check, the store, the
    third quota check and the partition of the links. *)
Definition handle_document (url base_url base_domain : string) (depth now : nat)
    (soup : Soup) (g : Generator) : Generator * option (list string * list string) :=
  let page_type := classify_page (avoid_iteration cfg) url base_url (Some soup) in
  if content_only cfg
     && negb (is_content_rich_page page_type (Some soup))
     && negb (String.eqb page_type "homepage") then (skip_page g, None)
  else
  let domain := get_domain base_url in
  let g := ensure_domain domain base_url g in
  if negb (should_crawl_domain domain g) then (skip_page g, None) else
  let g := store_page domain url (page_record url base_url depth now soup) g in
  if negb (should_crawl_domain domain g) then (g, None) else
  match anchors soup with
  | LinkFault e => (record_error (exception_error url e) g, None)
  | Links hrefs =>
      (g, Some (partition_links url base_domain (visited_urls g) hrefs))
  end.

(** Lines 558-572: what the answer to the request leads to. *)
Definition handle_response (url base_url base_domain : string) (depth now : nat)
    (answer : FetchOutcome) (g : Generator) :
    Generator * option (list string * list string) :=
  match answer with
  | FetchFault e => (record_error (exception_error url e) g, None)
  | Fetched response =>
    if negb (status_code response =? 200)%Z then
      (record_error (status_error url (status_code response)) g, None)
    else if negb (PyStr.contains "text/html" (PyStr.lower (content_type response))) then
      (skip_page g, None)
    else
    match body response with
    | ParseFault e => (record_error (exception_error url e) g, None)
    | Parsed soup => handle_document url base_url base_domain depth now soup g
    end
  end.

(** The generator when the request for [url] leaves: the robots gate has
    answered, the url is marked as visited, the request is on the trace. *)
Definition requested (url : string) (g : Generator) : Generator :=
  log_request url (mark_visited url (snd (is_allowed_by_robots url g))).

(** The body of [crawl_page] up to the two loops that recurse (lines
    519-730): the generator afterwards and, when the page was stored and the
    domain may still be crawled, the priority links and the other links. *)
Definition visit_page (url base_url base_domain : string) (depth : nat)
    (g : Generator) : Generator * option (list string * list string) :=
  let clean_url := clean_url url in
  if bool_decide (clean_url ∈ visited_urls g) then (g, None) else
  let url := clean_url in
  let domain := get_domain url in
  if negb (should_crawl_domain domain g) then (skip_page g, None) else
  if negb (fst (is_allowed_by_robots url g)) then
    (snd (is_allowed_by_robots url g), None)
  else
  (* the url is marked; try: *)
  let now := length (fetched g) in
  handle_response url base_url base_domain depth now (http_get W now url)
    (requested url g).

(** [for x in xs: if guard(): body(x)] in the option monad of the fuel. *)
Fixpoint for_each (guard : Generator -> bool)
    (body : string -> Generator -> option Generator)
    (xs : list string) (g : Generator) : option Generator :=
  match xs with
  | [] => Some g
  | x :: xs' =>
      if guard g then
        match body x g with
        | Some g' => for_each guard body xs' g'
        | None => None
        end
      else for_each guard body xs' g
  end.

(** [crawl_page]; [fuel] bounds the depth of the recursion, [None] is a run
    cut short by it. *)
Fixpoint crawl_page (fuel : nat) (url base_url base_domain : string) (depth : nat)
    (g : Generator) : option Generator :=
  match fuel with
  | O => None
  | S fuel' =>
      match visit_page url base_url base_domain depth g with
      | (g, None) => Some g
      | (g, Some (content_links, other_links)) =>
          let domain := get_domain base_url in
          let recurse next_url :=
            crawl_page fuel' next_url base_url base_domain (depth + 1) in
          match for_each (should_crawl_domain domain) recurse content_links g with
          | Some g => for_each (should_crawl_domain domain) recurse other_links g
          | None => None
          end
      end
  end.

(** The depth of recursion that no run exceeds: every level stores a page of
    the domain, which holds fewer than [3 * max_pages_per_domain]. *)
Definition enough_fuel : nat := S (Z.to_nat (max_pages_per_domain cfg * 3)).

Definition reset_domain_stats (base_domain : string) (g : Generator) : Generator :=
  match od_get base_domain (knowledge_base g) with
  | Some r =>
      set_knowledge_base
        (od_set base_domain
           {| base_url := base_url r; pages := pages r; domain_stats := empty_stats |}
           (knowledge_base g)) g
  | None => g
  end.

Definition seed_url (url : string) : string :=
  if PyStr.endswith "/" url then url else url +:+ "/".

Definition seed_base_url (url : string) : string :=
  let parsed_url := Urllib.urlparse (seed_url url) in
  Urllib.scheme parsed_url +:+ "://" +:+ Urllib.netloc parsed_url.

Definition crawl_website (url : string) (g : Generator) : option Generator :=
  let url := seed_url url in
  let parsed_url := Urllib.urlparse url in
  let base_url := Urllib.scheme parsed_url +:+ "://" +:+ Urllib.netloc parsed_url in
  let base_domain := get_domain url in
  let g := reset_domain_stats base_domain g in
  crawl_page enough_fuel url base_url base_domain 0 g.


End Crawl.

(** ** The deduplication pass and the metadata *)

Definition set_paragraphs (ps : list string) (page : PageRecord) : PageRecord :=
  {| page_type := page_type page;
     content := {| title := title (content page);
                   meta_description := meta_description (content page);
                   headings := headings (content page);
                   paragraphs := ps;
                   lists := lists (content page);
                   content_url := content_url (content page) |};
     depth := depth page;
     crawled_at := crawled_at page |}.

Definition set_pages (ps : list (string * PageRecord)) (r : DomainRecord) : DomainRecord :=
  {| base_url := base_url r; pages := ps; domain_stats := domain_stats r |}.

Section Dedup.
(** [hashlib.md5(text.encode()).hexdigest()] *)
Context (md5 : string -> string).

Definition normalized_text (paragraph : string) : string :=
  PyStr.strip (PyStr.collapse_spaces (PyStr.lower paragraph)).

Definition text_hash (paragraph : string) : string :=
  md5 (normalized_text paragraph).

(** The state of the pass: [paragraph_hashes] (hash to the url of its owner)
    and [duplicates_removed]. *)
Definition DedupState : Type := list (string * string) * nat.

(** One turn of the loop over the paragraphs of the page [url]. *)
Definition dedup_paragraph (url : string) (acc : DedupState * list string)
    (paragraph : string) : DedupState * list string :=
  let '((paragraph_hashes, duplicates_removed), unique_paragraphs) := acc in
  let text_hash := text_hash paragraph in
  match od_get text_hash paragraph_hashes with
  | None =>
      ((od_set text_hash url paragraph_hashes, duplicates_removed),
       unique_paragraphs ++ [paragraph])
  | Some owner =>
      if negb (String.eqb owner url)
      then ((paragraph_hashes, duplicates_removed), unique_paragraphs ++ [paragraph])
      else ((paragraph_hashes, S duplicates_removed), unique_paragraphs)
  end.

Definition dedup_paragraphs (url : string) (st : DedupState) (ps : list string) :
    DedupState * list string :=
  foldl (dedup_paragraph url) (st, []) ps.

(** The loop over the pages of one domain. *)
Fixpoint dedup_pages (st : DedupState) (ps : list (string * PageRecord)) :
    DedupState * list (string * PageRecord) :=
  match ps with
  | [] => (st, [])
  | (url, page_data) :: ps' =>
      let '(st, unique_paragraphs) :=
        dedup_paragraphs url st (paragraphs (content page_data)) in
      let '(st, ps'') := dedup_pages st ps' in
      (st, (url, set_paragraphs unique_paragraphs page_data) :: ps'')
  end.

(** The loop over the domains; the key ["_metadata"] is passed over. *)
Fixpoint dedup_domains (st : DedupState) (kb : list (string * DomainRecord)) :
    DedupState * list (string * DomainRecord) :=
  match kb with
  | [] => (st, [])
  | (domain, domain_data) :: kb' =>
      if String.eqb domain "_metadata" then
        let '(st, kb'') := dedup_domains st kb' in
        (st, (domain, domain_data) :: kb'')
      else
        let '(st, ps) := dedup_pages st (pages domain_data) in
        let '(st, kb'') := dedup_domains st kb' in
        (st, (domain, set_pages ps domain_data) :: kb'')
  end.

Definition remove_duplicate_content (g : Generator) : Generator :=
  set_knowledge_base (snd (dedup_domains ([], 0) (knowledge_base g))) g.

End Dedup.

Definition has_metadata_key (g : Generator) : bool :=
  match metadata g with
  | Some _ => true
  | None => od_mem "_metadata" (knowledge_base g)
  end.

(** [len(self.knowledge_base)] *)
Definition knowledge_base_len (g : Generator) : nat :=
  length (knowledge_base g) + match metadata g with Some _ => 1 | None => 0 end.

Definition add_metadata (W : World) (g : Generator) : Generator :=
  let m :=
    {| generator_name := "KnowledgeBaseGenerator";
       generated_at := clock W (length (fetched g));
       statistics :=
         {| total_domains := knowledge_base_len g - (if has_metadata_key g then 1 else 0);
            total_pages := foldr (fun kv n => length (pages (snd kv)) + n) 0
                                 (knowledge_base g);
            meta_pages_crawled := pages_crawled (stats g);
            meta_pages_skipped := pages_skipped (stats g);
            meta_errors := errors (stats g) |};
       metadata_errors := take 100 (error_urls g) |} in
  {| knowledge_base := od_del "_metadata" (knowledge_base g);
     metadata := Some m;
     visited_urls := visited_urls g; robot_parsers := robot_parsers g;
     error_urls := error_urls g; stats := stats g; fetched := fetched g |}.

(** A generator as [__init__] leaves it. *)
Definition new_generator : Generator :=
  {| knowledge_base := []; metadata := None; visited_urls := ∅;
     robot_parsers := []; error_urls := [];
     stats := {| pages_crawled := 0; pages_skipped := 0; errors := 0 |};
     fetched := [] |}.

Section Run.
Context {lib : Urllib.UrlLib} (cfg : Config) (W : World) (md5 : string -> string).

(** The loop of [crawl_websites] over the seeds. *)
Fixpoint crawl_seeds (urls : list string) (g : Generator) : option Generator :=
  match urls with
  | [] => Some g
  | url :: urls' =>
      match crawl_website cfg W url g with
      | Some g' => crawl_seeds urls' g'
      | None => None
      end
  end.


(** The generators that a run can be in between two page visits: a new one,
    and the one after a page visit, after a whole call of [crawl_page], after
    the reset at the start of [crawl_website], and after [crawl_website]. *)
Inductive reachable : Generator -> Prop :=
  | reach_new : reachable new_generator
  | reach_visit url base_url base_domain depth g :
      reachable g ->
      reachable (fst (visit_page cfg W url base_url base_domain depth g))
  | reach_reset base_domain g :
      reachable g ->
      reachable (reset_domain_stats base_domain g)
  | reach_page fuel url base_url base_domain depth g g' :
      reachable g ->
      crawl_page cfg W fuel url base_url base_domain depth g = Some g' ->
      reachable g'
  | reach_site url g g' :
      reachable g ->
      crawl_website cfg W url g = Some g' ->
      reachable g'.

End Run.

(** ** A model of [urllib.parse]

    The functions follow CPython 3.11's [urllib/parse.py] on byte strings.
    Left out: the validation of bracketed hosts and of NFKC-unstable netlocs
    (on which [urlsplit] raises [ValueError]) and the UTF-8 decoding of
    percent escapes (an escape stands for its byte, which is exact when the
    escapes of a query spell valid UTF-8). *)

Module PyUrllib.

Import PyStr.

Definition uses_relative : list string :=
  [""; "ftp"; "http"; "gopher"; "nntp"; "imap"; "wais"; "file"; "https"; "shttp";
   "mms"; "prospero"; "rtsp"; "rtspu"; "sftp"; "svn"; "svn+ssh"; "ws"; "wss"].

Definition uses_netloc : list string :=
  [""; "ftp"; "http"; "gopher"; "nntp"; "telnet"; "imap"; "wais"; "file"; "mms";
   "https"; "shttp"; "snews"; "prospero"; "rtsp"; "rtspu"; "rsync"; "svn";
   "svn+ssh"; "sftp"; "nfs"; "git"; "git+ssh"; "ws"; "wss"].

Definition uses_params : list string :=
  [""; "ftp"; "hdl"; "prospero"; "http"; "imap"; "https"; "shttp"; "rtsp";
   "rtspu"; "sip"; "sips"; "mms"; "sftp"; "tel"].

Definition is_char (c d : ascii) : bool := Ascii.eqb c d.

Definition is_scheme_char (c : ascii) : bool :=
  is_alpha c || is_digit c || is_char c "+" || is_char c "-" || is_char c ".".

(** The characters of [_WHATWG_C0_CONTROL_OR_SPACE]. *)
Definition is_c0_or_space (c : ascii) : bool := code c <=? 32.

(** The characters of [_UNSAFE_URL_BYTES_TO_REMOVE]: tab, CR and LF. *)
Definition is_unsafe (c : ascii) : bool :=
  (code c =? 9) || (code c =? 13) || (code c =? 10).

Fixpoint remove_chars (f : ascii -> bool) (s : string) : string :=
  match s with
  | EmptyString => EmptyString
  | String c s' => if f c then remove_chars f s' else String c (remove_chars f s')
  end.

(** The first lines of [urlsplit]: leading controls and spaces are stripped,
    tabs and line breaks are removed everywhere. *)
Definition sanitize (url : string) : string :=
  remove_chars is_unsafe (lstrip_by is_c0_or_space url).

(** The text before the first colon, when it is made of scheme characters,
    and the text after that colon. *)
Fixpoint scheme_prefix (s : string) : option (string * string) :=
  match s with
  | EmptyString => None
  | String c s' =>
      if is_char c ":" then Some (EmptyString, s')
      else if is_scheme_char c then
        match scheme_prefix s' with
        | Some (a, rest) => Some (String c a, rest)
        | None => None
        end
      else None
  end.

Definition split_scheme (default url : string) : string * string :=
  match url with
  | String c _ =>
      if is_alpha c then
        match scheme_prefix url with
        | Some (a, rest) => (lower a, rest)
        | None => (default, url)
        end
      else (default, url)
  | EmptyString => (default, url)
  end.

(** The text before the first character that satisfies [stop], and the rest. *)
Fixpoint span_until (stop : ascii -> bool) (s : string) : string * string :=
  match s with
  | EmptyString => (EmptyString, EmptyString)
  | String c s' =>
      if stop c then (EmptyString, s)
      else let '(a, b) := span_until stop s' in (String c a, b)
  end.

Definition is_netloc_delim (c : ascii) : bool :=
  is_char c "/" || is_char c "?" || is_char c "#".

Definition split_netloc (url : string) : string * string :=
  match after_prefix "//" url with
  | Some rest => span_until is_netloc_delim rest
  | None => (EmptyString, url)
  end.

Definition split_at (sep : ascii) (s : string) : string * string :=
  let '(a, b) := split_once sep s in (a, default EmptyString b).

(** The text up to the last slash (with it) and the last segment. *)
Fixpoint split_last_segment (s : string) : string * string :=
  match s with
  | EmptyString => (EmptyString, EmptyString)
  | String c s' =>
      if contains "/" s' then
        let '(d, l) := split_last_segment s' in (String c d, l)
      else if is_char c "/" then (String c EmptyString, s')
      else (EmptyString, s)
  end.

(** [_splitparams] *)
Definition split_params (url : string) : string * string :=
  let '(dir, seg) := split_last_segment url in
  match split_once ";" seg with
  | (a, Some b) => (dir +:+ a, b)
  | (_, None) => (url, EmptyString)
  end.

(** [urlparse(url, default)] *)
Definition urlparse_with (default url : string) : Urllib.ParseResult :=
  let '(scheme, url) := split_scheme default (sanitize url) in
  let '(netloc, url) := split_netloc url in
  let '(url, fragment) := split_at "#" url in
  let '(url, query) := split_at "?" url in
  let '(path, params) :=
    if mem scheme uses_params && contains ";" url then split_params url
    else (url, EmptyString) in
  Urllib.mkParseResult scheme netloc path params query fragment.

Definition urlparse (url : string) : Urllib.ParseResult := urlparse_with "" url.

Definition urlunsplit (scheme netloc url query fragment : string) : string :=
  let url :=
    if negb (is_empty netloc)
       || (negb (is_empty scheme) && mem scheme uses_netloc
           && negb (startswith "//" url))
    then
      "//" +:+ netloc +:+
      (if negb (is_empty url) && negb (startswith "/" url) then "/" +:+ url else url)
    else url in
  let url := if negb (is_empty scheme) then scheme +:+ ":" +:+ url else url in
  let url := if negb (is_empty query) then url +:+ "?" +:+ query else url in
  if negb (is_empty fragment) then url +:+ "#" +:+ fragment else url.

Definition urlunparse (p : Urllib.ParseResult) : string :=
  let url :=
    if negb (is_empty (Urllib.params p))
    then Urllib.path p +:+ ";" +:+ Urllib.params p
    else Urllib.path p in
  urlunsplit (Urllib.scheme p) (Urllib.netloc p) url (Urllib.query p)
    (Urllib.fragment p).

(** *** Percent-encoding *)

Definition hex_digit (n : nat) : ascii :=
  if n <? 10 then Ascii.ascii_of_nat (48 + n) else Ascii.ascii_of_nat (55 + n).

Definition hex_value (c : ascii) : option nat :=
  if is_digit c then Some (code c - 48)
  else if in_range 65 70 c then Some (code c - 55)
  else if in_range 97 102 c then Some (code c - 87)
  else None.

Definition is_always_safe (c : ascii) : bool :=
  is_alpha c || is_digit c || is_char c "_" || is_char c "." || is_char c "-"
  || is_char c "~".

(** [quote_plus(s)] with no extra safe characters. *)
Fixpoint quote_plus (s : string) : string :=
  match s with
  | EmptyString => EmptyString
  | String c s' =>
      if is_always_safe c then String c (quote_plus s')
      else if is_char c " " then String "+" (quote_plus s')
      else String "%" (String (hex_digit (code c / 16))
                         (String (hex_digit (code c mod 16)) (quote_plus s')))
  end.

(** [unquote(s.replace('+', ' '))] *)
Fixpoint unquote_plus (s : string) : string :=
  match s with
  | EmptyString => EmptyString
  | String c s' =>
      if is_char c "+" then String " " (unquote_plus s')
      else if is_char c "%" then
        match s' with
        | String h (String l s'') =>
            match hex_value h, hex_value l with
            | Some a, Some b =>
                String (Ascii.ascii_of_nat (16 * a + b)) (unquote_plus s'')
            | _, _ => String c (unquote_plus s')
            end
        | _ => String c (unquote_plus s')
        end
      else String c (unquote_plus s')
  end.

(** [parse_qsl]: the pairs with a value that is not blank. *)
Definition parse_pair (name_value : string) : option (string * string) :=
  match split_once "=" name_value with
  | (name, Some value) =>
      if is_empty value then None else Some (unquote_plus name, unquote_plus value)
  | (_, None) => None
  end.

Definition parse_qsl (qs : string) : list (string * string) :=
  omap parse_pair (split "&" qs).

(** [parsed_result[name].append(value)], the list starting empty. *)
Definition add_value (d : list (string * list string)) (nv : string * string) :
    list (string * list string) :=
  od_set (fst nv) (default [] (od_get (fst nv) d) ++ [snd nv]) d.

Definition parse_qs (qs : string) : list (string * list string) :=
  foldl add_value [] (parse_qsl qs).

(** [urlencode(d, doseq=True)] *)
Definition urlencode (d : list (string * list string)) : string :=
  join "&" (flat_map (fun kv => map (fun v => quote_plus (fst kv) +:+ "=" +:+ quote_plus v)
                                    (snd kv)) d).

(** *** [urljoin] *)

(** [segments[1:-1] = filter(None, segments[1:-1])] *)
Definition drop_empty_middle (segments : list string) : list string :=
  match segments with
  | [] => []
  | first :: rest =>
      first :: List.filter (fun seg => negb (is_empty seg)) (removelast rest)
            ++ match last rest with Some l => [l] | None => [] end
  end.

Definition resolve_step (resolved_path : list string) (seg : string) : list string :=
  if String.eqb seg ".." then removelast resolved_path
  else if String.eqb seg "." then resolved_path
  else resolved_path ++ [seg].

Definition urljoin (base url : string) : string :=
  if is_empty base then url else
  if is_empty url then base else
  let b := urlparse base in
  let u := urlparse_with (Urllib.scheme b) url in
  let scheme := Urllib.scheme u in
  if negb (String.eqb scheme (Urllib.scheme b)) || negb (mem scheme uses_relative)
  then url else
  if mem scheme uses_netloc && negb (is_empty (Urllib.netloc u)) then urlunparse u else
  let netloc := if mem scheme uses_netloc then Urllib.netloc b else Urllib.netloc u in
  if is_empty (Urllib.path u) && is_empty (Urllib.params u) then
    urlunparse (Urllib.mkParseResult scheme netloc (Urllib.path b) (Urllib.params b)
                  (if is_empty (Urllib.query u) then Urllib.query b else Urllib.query u)
                  (Urllib.fragment u))
  else
    let base_parts := split "/" (Urllib.path b) in
    let base_parts :=
      if negb (is_empty (default EmptyString (last base_parts)))
      then removelast base_parts else base_parts in
    let segments :=
      if startswith "/" (Urllib.path u) then split "/" (Urllib.path u)
      else drop_empty_middle (base_parts ++ split "/" (Urllib.path u)) in
    let resolved_path := foldl resolve_step [] segments in
    let resolved_path :=
      if mem (default EmptyString (last segments)) ["."; ".."]
      then resolved_path ++ [EmptyString] else resolved_path in
    let joined := join "/" resolved_path in
    urlunparse (Urllib.mkParseResult scheme netloc
                  (if is_empty joined then "/" else joined)
                  (Urllib.params u) (Urllib.query u) (Urllib.fragment u)).

#[export] Instance lib : Urllib.UrlLib := {
  Urllib.urlparse := urlparse;
  Urllib.urlunparse := urlunparse;
  Urllib.parse_qs := parse_qs;
  Urllib.urlencode := urlencode;
  Urllib.urljoin := urljoin
}.

End PyUrllib.

(** ** The invariants of a crawl *)

(** The urls that are a key of some domain's [pages], domain by domain. *)
Definition stored_urls (g : Generator) : list string :=
  knowledge_base g ≫= (fun kv => od_keys (pages (snd kv))).

(** What holds of every generator that a crawl can produce. *)
Record Inv (cfg : Config) (g : Generator) : Prop := {
  inv_errors : errors (stats g) = length (error_urls g);
  inv_fetched_visited : forall url, url ∈ fetched g -> url ∈ visited_urls g;
  inv_fetched_once : NoDup (fetched g);
  inv_stored_visited : forall url, url ∈ stored_urls g -> url ∈ visited_urls g;
  inv_stored_once : NoDup (stored_urls g);
  inv_domains_once : NoDup (od_keys (knowledge_base g));
  inv_quota : forall domain r,
      od_get domain (knowledge_base g) = Some r ->
      (Z.of_nat (content_pages_count r) <= Z.max 0 (max_pages_per_domain cfg))%Z /\
      (Z.of_nat (length (pages r)) <= Z.max 0 (max_pages_per_domain cfg * 3))%Z
}.

(** The same while the page [url] is being processed: it is marked and
    requested, and not stored yet. *)
Definition InvAt (cfg : Config) (url : string) (g : Generator) : Prop :=
  Inv cfg g /\ url ∈ visited_urls g /\ url ∉ stored_urls g.



(** ** How an outcome is counted *)



(** ** Pages and type counters of a domain *)

(** [knowledge_base[domain]["pages"]], empty for a domain that is absent. *)
Definition pages_of (domain : string) (g : Generator) : list (string * PageRecord) :=
  match od_get domain (knowledge_base g) with
  | Some r => pages r
  | None => []
  end.

(** [knowledge_base[domain]["stats"]["by_type"].get(t, 0)] *)
Definition by_type_count (t domain : string) (g : Generator) : nat :=
  match od_get domain (knowledge_base g) with
  | Some r => default 0 (od_get t (by_type (domain_stats r)))
  | None => 0
  end.

(** How often [t] occurs among the types of the pages. *)
Definition type_count (t : string) (ps : list (string * PageRecord)) : nat :=
  length (List.filter (fun kv => String.eqb (page_type (snd kv)) t) ps).

(** The pages of type [t] that [by_type] does not count stay as many: the
    sum on the left is the sum on the right. *)
Definition same_untracked (g g' : Generator) : Prop :=
  forall domain t,
    type_count t (pages_of domain g') + by_type_count t domain g
    = type_count t (pages_of domain g) + by_type_count t domain g'.


(** ** The deduplication pass in the words of the specification *)

Section DedupSpec.
Context (md5 : string -> string).

(** A page as the pass reads it: its url and its paragraphs. *)
Definition page_view (kv : string * PageRecord) : string * list string :=
  (fst kv, paragraphs (content (snd kv))).

(** The pages in the order in which the pass visits them; the key
    ["_metadata"] is no domain. *)
Definition visited_pages (kb : list (string * DomainRecord)) :
    list (string * list string) :=
  kb ≫= (fun kv => if String.eqb (fst kv) "_metadata" then []
                   else page_view <$> pages (snd kv)).

(** Some paragraph of [ps] has the hash [h]. *)
Definition has_hash (h : string) (ps : list string) : bool :=
  existsb (fun p => String.eqb (text_hash md5 p) h) ps.

(** The owner of a hash: the first page, in the order of the pass, that has
    a paragraph with this hash. *)
Definition owner (all : list (string * list string)) (h : string) : option string :=
  fst <$> List.find (fun page => has_hash h (snd page)) all.

(** The paragraphs of the page [url] after the pass: a paragraph is dropped
    when [url] owns its hash and an earlier paragraph of the page has the
    same hash, and retained otherwise.  [earlier] are the paragraphs of the
    page before [ps]. *)
Fixpoint retained (all : list (string * list string)) (url : string)
    (earlier ps : list string) : list string :=
  match ps with
  | [] => []
  | p :: ps' =>
      if bool_decide (owner all (text_hash md5 p) = Some url)
         && has_hash (text_hash md5 p) earlier
      then retained all url (earlier ++ [p]) ps'
      else p :: retained all url (earlier ++ [p]) ps'
  end.

(** What [paragraph_hashes] holds while the page [url] is read: the owners
    known before the page ([before]), and [url] for the hashes met on the
    page so far that had no owner. *)
Definition reading (before : string -> option string) (url : string)
    (earlier : list string) (hashes : list (string * string)) : Prop :=
  forall h,
    od_get h hashes
    = match before h with
      | Some o => Some o
      | None => if has_hash h earlier then Some url else None
      end.

Definition retained_pages (all : list (string * list string))
    (ps : list (string * PageRecord)) : list (string * PageRecord) :=
  map (fun kv => (fst kv,
                  set_paragraphs
                    (retained all (fst kv) [] (paragraphs (content (snd kv))))
                    (snd kv))) ps.

(** The knowledge base after the pass. *)
Definition retained_knowledge_base (kb : list (string * DomainRecord)) :
    list (string * DomainRecord) :=
  map (fun kv => if String.eqb (fst kv) "_metadata" then kv
                 else (fst kv,
                       set_pages (retained_pages (visited_pages kb) (pages (snd kv)))
                                 (snd kv))) kb.

End DedupSpec.

(** ** A small site

    The seed [https://example.org/toolbox/] under a quota of two content
    pages.  The seed page links to [/toolbox/a] and to [/about]; the page
    [/toolbox/a] carries the links [more]; every other url answers as [rest]
    says. *)

Module Scenario.

Definition html (soup : Soup) : FetchOutcome :=
  Fetched {| status_code := 200;
             content_type := "text/html; charset=utf-8";
             body := Parsed soup |}.

(** A document with an [article] element and the given links. *)
Definition article_soup (hrefs : list string) : Soup :=
  {| all_p := ["Caring for a relative is hard work."];
     all_lists := 0;
     article_markup := true;
     class_tokens := [];
     title_string := Some "Caregiver toolbox";
     meta_desc := None;
     main_headings := [];
     main_p := ["Caring for a relative is hard work."];
     main_ul := []; main_ol := [];
     anchors := Links hrefs |}.

(** A document without article markup and with [n] lists. *)
Definition plain_soup (n : nat) (hrefs : list string) : Soup :=
  {| all_p := []; all_lists := n; article_markup := false; class_tokens := [];
     title_string := None; meta_desc := None; main_headings := [];
     main_p := []; main_ul := []; main_ol := [];
     anchors := Links hrefs |}.

Definition seed : string := "https://example.org/toolbox/".
Definition toolbox_a : string := "https://example.org/toolbox/a".
Definition about : string := "https://example.org/about".

Definition cfg : Config :=
  {| max_pages_per_domain := 2; respect_robots := false; content_only := true;
     avoid_iteration := avoid_page_types |}.

Definition site (seed_page page_a : Soup) (rest : nat -> string -> FetchOutcome) : World :=
  {| http_get := fun n url =>
       if String.eqb url seed then html seed_page
       else if String.eqb url toolbox_a then html page_a
       else rest n url;
     robots_read := fun _ _ => None;
     clock := fun _ => "2024-01-01 00:00:00" |}.

Definition not_found : nat -> string -> FetchOutcome :=
  fun _ _ => Fetched {| status_code := 404; content_type := "text/html";
                        body := ParseFault "no body" |}.

(** The site of the end-to-end scenario. *)
Definition world (more : list string) (rest : nat -> string -> FetchOutcome) : World :=
  site (article_soup ["/toolbox/a"; "/about"]) (article_soup more) rest.

(** The generator after [crawl_seeds] on a new one ([urls] is the list of
    seeds), and the record it holds for a domain. *)
Definition run (W : World) (urls : list string) : Generator :=
  default new_generator (crawl_seeds (lib := PyUrllib.lib) cfg W urls new_generator).

Definition record_of (domain : string) (g : Generator) : DomainRecord :=
  default {| base_url := ""; pages := []; domain_stats := empty_stats |}
          (od_get domain (knowledge_base g)).

Definition quiet : World := world [] not_found.

(** A seed page with eight links: three that answer 404 and five that answer
    with a PDF. *)
Definition faulty : World :=
  site (article_soup ["/e1"; "/e2"; "/e3"; "/s1"; "/s2"; "/s3"; "/s4"; "/s5"])
       (article_soup [])
       (fun _ url =>
          if PyStr.contains "org/e" url
          then Fetched {| status_code := 404; content_type := "text/html";
                          body := ParseFault "no body" |}
          else Fetched {| status_code := 200; content_type := "application/pdf";
                          body := ParseFault "not parsed" |}).

(** The same site when [/toolbox/a] is a page with three lists and no
    article markup, and [/about] is a page of its own. *)
Definition sparse : World :=
  site (article_soup ["/toolbox/a"; "/about"]) (plain_soup 3 [])
       (fun n url => if String.eqb url about then html (plain_soup 0 [])
                     else not_found n url).

(** The url, depth and type of the pages stored under a domain. *)
Definition stored (domain : string) (g : Generator) : list (string * nat * string) :=
  map (fun kv => (fst kv, depth (snd kv), page_type (snd kv))) (pages_of domain g).

(** Two seeds of one domain: the toolbox page and the blog page, neither
    with a link. *)
Definition blog : string := "https://example.org/blog/".

Definition two_sections : World :=
  site (article_soup []) (article_soup [])
       (fun n url => if String.eqb url blog then html (article_soup [])
                     else not_found n url).

(** A link into the same site under its [www.] name. *)
Definition www_link : string := "https://www.example.org/toolbox/b".

End Scenario.

(** ** Two pages with a shared paragraph *)

Module Shared.

Definition page (ps : list string) : PageRecord :=
  {| page_type := "article";
     content := {| title := "t"; meta_description := EmptyString; headings := [];
                   paragraphs := ps; lists := []; content_url := None |};
     depth := 0;
     crawled_at := "2024-01-01T00:00:00" |}.

Definition domain (ps : list (string * PageRecord)) : DomainRecord :=
  {| base_url := "https://example.org";
     pages := ps;
     domain_stats := {| domain_pages_crawled := length ps; by_type := [] |} |}.

(** Page A holds the paragraph twice (up to case and spacing), page B once. *)
Definition before : Generator :=
  set_knowledge_base
    [("example.org",
      domain [("https://example.org/a",
               page ["Caregiving is hard"; "An introduction"; "caregiving  IS hard"]);
              ("https://example.org/b",
               page ["caregiving is hard"; "Caregiving is hard"])])]
    new_generator.

Definition after : list (string * DomainRecord) :=
  [("example.org",
    domain [("https://example.org/a",
             page ["Caregiving is hard"; "An introduction"]);
            ("https://example.org/b",
             page ["caregiving is hard"; "Caregiving is hard"])])].

(** The same url as the key of a page in two domains. *)
Definition twice : Generator :=
  set_knowledge_base
    [("example.org", domain [("https://example.org/a", page ["Caregiving is hard"])]);
     ("example.com", domain [("https://example.org/a", page ["Caregiving is hard"])])]
    new_generator.

End Shared.

(** ** The shape of a parsed url *)

(** Every character of [s] satisfies [f]. *)
Fixpoint all_chars (f : ascii -> bool) (s : string) : bool :=
  match s with
  | EmptyString => true
  | String c s' => f c && all_chars f s'
  end.

(** [s] is empty or its first character satisfies [f]. *)
Definition head_or_empty (f : ascii -> bool) (s : string) : bool :=
  match s with
  | EmptyString => true
  | String c _ => f c
  end.

Definition is_not (sep c : ascii) : bool := negb (Ascii.eqb c sep).

Definition is_safe (c : ascii) : bool := negb (PyUrllib.is_unsafe c).

Definition is_path_char (c : ascii) : bool :=
  is_not "?" c && is_not "#" c.

Definition is_netloc_char (c : ascii) : bool := negb (PyUrllib.is_netloc_delim c).

(** The characters of the output of [urlencode]. *)
Definition is_query_char (c : ascii) : bool :=
  PyUrllib.is_always_safe c || PyUrllib.is_char c "+" || PyUrllib.is_char c "%"
  || PyUrllib.is_char c "=" || PyUrllib.is_char c "&".

(** The characters of the output of [quote_plus]. *)
Definition is_quoted_char (c : ascii) : bool :=
  PyUrllib.is_always_safe c || PyUrllib.is_char c "+" || PyUrllib.is_char c "%".

(** One [name=value] of [urlencode]. *)
Definition encode_pair (nv : string * string) : string :=
  PyUrllib.quote_plus (fst nv) +:+ "=" +:+ PyUrllib.quote_plus (snd nv).

(** A scheme as [urlsplit] returns it when it finds one. *)
Definition is_scheme (sc : string) : bool :=
  match sc with
  | EmptyString => false
  | String c _ => PyStr.is_alpha c
  end
  && all_chars (fun c => PyUrllib.is_scheme_char c && negb (PyStr.is_upper c)) sc.

(** [path] or [path;params], as [urlunparse] joins them. *)
Definition with_params (path params : string) : string :=
  if negb (PyStr.is_empty params) then path +:+ ";" +:+ params else path.

(** The tail that [urlunsplit] appends for the query. *)
Definition query_tail (q : string) : string :=
  if negb (PyStr.is_empty q) then "?" +:+ q else EmptyString.

(** What holds of the six components that [urlparse] returns, for every
    argument. *)
Record ParsedOk (p : Urllib.ParseResult) : Prop := {
  ok_scheme : Urllib.scheme p = EmptyString \/ is_scheme (Urllib.scheme p) = true;
  ok_netloc : all_chars is_netloc_char (Urllib.netloc p) = true;
  ok_path : all_chars is_path_char (Urllib.path p) = true;
  ok_params : all_chars is_path_char (Urllib.params p) = true;
  ok_params_flat : all_chars (is_not "/") (Urllib.params p) = true;
  ok_safe_netloc : all_chars is_safe (Urllib.netloc p) = true;
  ok_safe_path : all_chars is_safe (Urllib.path p) = true;
  ok_safe_params : all_chars is_safe (Urllib.params p) = true;
  ok_rooted :
    Urllib.netloc p <> EmptyString ->
    head_or_empty (PyUrllib.is_char "/") (Urllib.path p) = true /\
    (Urllib.path p = EmptyString -> Urllib.params p = EmptyString);
  ok_split :
    if mem (Urllib.scheme p) PyUrllib.uses_params
    then PyStr.contains ";" (snd (PyUrllib.split_last_segment (Urllib.path p))) = false
    else Urllib.params p = EmptyString;
  ok_relative :
    Urllib.scheme p = EmptyString -> Urllib.netloc p = EmptyString ->
    forall t,
      head_or_empty (PyUrllib.is_char "?") t = true ->
      PyUrllib.split_scheme EmptyString
        (with_params (Urllib.path p) (Urllib.params p) +:+ t)
      = (EmptyString, with_params (Urllib.path p) (Urllib.params p) +:+ t) /\
      head_or_empty (fun c => negb (PyUrllib.is_c0_or_space c))
        (with_params (Urllib.path p) (Urllib.params p) +:+ t) = true
}.

(** The characters that can follow the path and the parameters in a url. *)
Definition is_tail_mark (c : ascii) : bool :=
  PyUrllib.is_char c ";" || PyUrllib.is_char c "?" || PyUrllib.is_char c "#".

(** The three parts of the text that [urlunsplit] builds: the scheme with
    its colon, the netloc slot (written when there is a netloc, or when the
    scheme uses one and the path does not start with two slashes), and the
    path, which gets a leading slash when it follows a netloc slot. *)
Definition scheme_colon (sc : string) : string :=
  if negb (PyStr.is_empty sc) then sc +:+ ":" else EmptyString.

Definition writes_netloc (sc nl url : string) : bool :=
  negb (PyStr.is_empty nl)
  || (negb (PyStr.is_empty sc) && mem sc PyUrllib.uses_netloc
      && negb (PyStr.startswith "//" url)).

Definition needs_slash (url : string) : bool :=
  negb (PyStr.is_empty url) && negb (PyStr.startswith "/" url).

Definition rooted (url : string) : string :=
  if needs_slash url then "/" +:+ url else url.

(** A parsed url with no netloc and a path that starts with two slashes:
    [urlunparse] writes such a path where [urlparse] reads a netloc. *)
Definition path_reads_as_netloc (p : Urllib.ParseResult) : bool :=
  PyStr.is_empty (Urllib.netloc p) && PyStr.startswith "//" (Urllib.path p).

(** A dictionary as [parse_qs] returns it: no key twice, no empty list of
    values, no blank value. *)
Definition QueryDict (d : list (string * list string)) : Prop :=
  NoDup (od_keys d) /\
  Forall (fun kv => snd kv <> [] /\ Forall (fun v => v <> EmptyString) (snd kv)) d.

(** The pairs of a dictionary in the order in which [urlencode] writes them. *)
Definition pairs_of (d : list (string * list string)) : list (string * string) :=
  flat_map (fun kv => map (fun v => (fst kv, v)) (snd kv)) d.

(** ** What [clean_url] keeps *)

(** The query that [clean_url] writes for a parsed url. *)
Definition cleaned_query (p : Urllib.ParseResult) : string :=
  if String.eqb (Urllib.netloc p) "www.alz.org" then EmptyString
  else if String.eqb (Urllib.netloc p) "www.webmd.com" then
    PyUrllib.urlencode (od_filter_keys keep_pg (PyUrllib.parse_qs (Urllib.query p)))
  else
    PyUrllib.urlencode (od_filter_keys keep_untracked (PyUrllib.parse_qs (Urllib.query p))).


(** The path that is read back from the url that [urlunparse] builds: a
    path that follows a netloc slot starts with a slash. *)
Definition cleaned_path (p : Urllib.ParseResult) : string :=
  if writes_netloc (Urllib.scheme p) (Urllib.netloc p)
       (with_params (Urllib.path p) (Urllib.params p))
     && needs_slash (with_params (Urllib.path p) (Urllib.params p))
  then String "/" (Urllib.path p)
  else Urllib.path p.

(** ** [site_specific_link_filtering] (lines 193-270) *)

(** One turn of the loop over the links: [acc] is [(content_links,
    other_links)]. *)
Definition filter_step (base_domain : string) (acc : list string * list string)
    (href : string) : list string * list string :=
  let '(content_links, other_links) := acc in
  let href := PyStr.strip href in
  if PyStr.is_empty href
     || PyStr.startswith "javascript:" href
     || PyStr.startswith "mailto:" href
     || PyStr.startswith "tel:" href then acc
  else
    match link_class base_domain (PyStr.lower href) with
    | Front => (href :: content_links, other_links)
    | Priority => (content_links ++ [href], other_links)
    | Other => (content_links, other_links ++ [href])
    end.

(** [links] holds [link['href']] of every link. *)
Definition site_specific_link_filtering (links : list string) (base_domain : string) :
    list string * list string :=
  foldl (filter_step base_domain) ([], []) links.

(** *** The order in which links are followed *)

(** The href of a link as the two loops keep it: stripped, and dropped when
    it is empty or starts with [javascript:], [mailto:] or [tel:]. *)
Definition kept_href (href : string) : option string :=
  let href := PyStr.strip href in
  if PyStr.is_empty href
     || PyStr.startswith "javascript:" href
     || PyStr.startswith "mailto:" href
     || PyStr.startswith "tel:" href then None
  else Some href.

Definition has_class (c : LinkClass) (base_domain link : string) : bool :=
  match link_class base_domain (PyStr.lower link), c with
  | Front, Front | Priority, Priority | Other, Other => true
  | _, _ => false
  end.

(** The two lists that the loops build from the links they keep: the links
    of the first rank, last one first, then the priority links, and the
    other links. *)
Definition link_order (base_domain : string) (links : list string) :
    list string * list string :=
  (reverse (List.filter (has_class Front base_domain) links)
   ++ List.filter (has_class Priority base_domain) links,
   List.filter (has_class Other base_domain) links).

Definition place_link (base_domain link : string) (acc : list string * list string) :
    list string * list string :=
  match link_class base_domain (PyStr.lower link) with
  | Front => (link :: fst acc, snd acc)
  | Priority => (fst acc ++ [link], snd acc)
  | Other => (fst acc, snd acc ++ [link])
  end.

Section Candidates.
Context {lib : Urllib.UrlLib}.

(** The url that the loop of [crawl_page] keeps for a link of the page
    [url]: the href resolved against the page, when it is not visited yet
    and internal to the base domain. *)
Definition link_candidate (url base_domain : string) (visited : gset string)
    (href : string) : option string :=
  match kept_href href with
  | None => None
  | Some href =>
      let next_url := normalize_url href url in
      if bool_decide (next_url ∈ visited) then None
      else if is_internal_link next_url base_domain then Some next_url
      else None
  end.

End Candidates.

(** ** [generate_categories] (lines 877-899) *)

(** [categorical]: for a domain and a page type, the pages as
    [{"url": ..., "title": ...}], in the order in which they were appended.
    Both levels are [defaultdict]s: a key appears when it is first read. *)
Definition Categories : Type := list (string * list (string * list (string * string))).

(** [categorical[domain][page_type].append({"url": url, "title": title})] *)
Definition add_category (domain page_type url title : string) (categorical : Categories) :
    Categories :=
  let by_type := default [] (od_get domain categorical) in
  let entries := default [] (od_get page_type by_type) in
  od_set domain (od_set page_type (entries ++ [(url, title)]) by_type) categorical.

Definition categorize_page (domain : string) (categorical : Categories)
    (kv : string * PageRecord) : Categories :=
  add_category domain (page_type (snd kv)) (fst kv) (title (content (snd kv))) categorical.

Definition categorize_domain (categorical : Categories) (kv : string * DomainRecord) :
    Categories :=
  if String.eqb (fst kv) "_metadata" then categorical
  else foldl (categorize_page (fst kv)) categorical (pages (snd kv)).

(** The value that [generate_categories] dumps into the categories file. *)
Definition generate_categories (g : Generator) : Categories :=
  foldl categorize_domain [] (knowledge_base g).

(** [categorical[domain][page_type]], empty when a key is absent. *)
Definition category (domain page_type : string) (categorical : Categories) :
    list (string * string) :=
  default [] (od_get page_type (default [] (od_get domain categorical))).

(** The pages of the type [t] as the entries of a category. *)
Definition entries_of_type (t : string) (ps : list (string * PageRecord)) :
    list (string * string) :=
  map (fun kv => (fst kv, title (content (snd kv))))
      (List.filter (fun kv => String.eqb (page_type (snd kv)) t) ps).

(** ** What the knowledge base holds *)

Section Stored.
Context {lib : Urllib.UrlLib} (cfg : Config) (W : World).

(** A page under its key: the record that [crawl_page] builds for that url
    from some document, which has passed the filter of the content-only
    mode. *)
Definition stored_page_ok (kv : string * PageRecord) : Prop :=
  exists base_url depth now soup,
    snd kv = page_record cfg W (fst kv) base_url depth now soup /\
    (content_only cfg = true ->
     is_content_rich_page (page_type (snd kv)) (Some soup) = true \/
     page_type (snd kv) = "homepage").

(** A domain under its key: the netloc of its base url, with pages as
    above. *)
Definition stored_domain_ok (kv : string * DomainRecord) : Prop :=
  fst kv = get_domain (base_url (snd kv)) /\ Forall stored_page_ok (pages (snd kv)).

(** Every domain of the knowledge base is as above. *)
Definition well_stored (g : Generator) : Prop :=
  Forall stored_domain_ok (knowledge_base g).

End Stored.

(** The page stored under a url of a domain (an empty article when there is
    none). *)
Definition stored_page (domain url : string) (g : Generator) : PageRecord :=
  default (Shared.page []) (od_get url (pages (Scenario.record_of domain g))).

(** ** What the extractor keeps of headings and lists *)




(** ** The count of the deduplication pass *)

(** The number of paragraphs of all pages of all domains. *)
Definition total_paragraphs (kb : list (string * DomainRecord)) : nat :=
  foldr (fun kv n =>
           foldr (fun page m => length (paragraphs (content (snd page))) + m) 0
                 (pages (snd kv)) + n)
        0 kb.

(** [duplicates_removed] as [remove_duplicate_content] prints it. *)
Definition duplicates_removed (md5 : string -> string) (g : Generator) : nat :=
  snd (fst (dedup_domains md5 ([], 0) (knowledge_base g))).

(** A page as the pass reads it, after the pass. *)
Definition left_of (md5 : string -> string) (all : list (string * list string))
    (page : string * list string) : string * list string :=
  (fst page, retained md5 all (fst page) [] (snd page)).

(** ** [main] (lines 900-981) *)

(** The namespace that [argparse] returns.  [--output] and [--delay] reach
    the write of the files and [time.sleep] only, which are left out. *)
Module Args.
Record t := {
  max_pages : Z;
  ignore_robots : bool;
  respect_robots : bool;
  sites : option (list string);      (* [None] without [--sites] *)
  content_only : bool;
  all_pages : bool
}.
End Args.





(** ** The [robots.txt] gate *)

Section RobotsSpec.
Context {lib : Urllib.UrlLib} (W : World).

(** The [robots_url] that [is_allowed_by_robots] reads for [url]. *)
Definition robots_txt_of (url : string) : string :=
  let parsed_url := Urllib.urlparse url in
  (Urllib.scheme parsed_url +:+ "://" +:+ Urllib.netloc parsed_url) +:+ "/robots.txt".

(** The [robots.txt] of the site of [url], when it can be read, lets the
    crawler fetch [url]. *)
Definition permitted (url : string) : Prop :=
  forall parser, robots_read W 0 (robots_txt_of url) = Some parser -> parser url = true.

(** The parsers in the cache are the ones that the sites give. *)
Definition cache_sound (g : Generator) : Prop :=
  forall domain parser,
    od_get domain (robot_parsers g) = Some parser ->
    robots_read W 0 (domain +:+ "/robots.txt") = Some parser.

Definition polite (g : Generator) : Prop :=
  Forall permitted (fetched g) /\ cache_sound g.

End RobotsSpec.

(** The small site when its [robots.txt] forbids [/toolbox/a] and the
    crawler respects it. *)
Module Polite.

Definition cfg : Config :=
  {| max_pages_per_domain := 2; respect_robots := true; content_only := true;
     avoid_iteration := avoid_page_types |}.

Definition robots (url : string) : bool := negb (PyStr.contains "/toolbox/a" url).

Definition world : World :=
  {| http_get := http_get Scenario.quiet;
     robots_read := fun _ _ => Some robots;
     clock := clock Scenario.quiet |}.

Definition run : Generator :=
  default new_generator
          (crawl_seeds (lib := PyUrllib.lib) cfg world [Scenario.seed] new_generator).

End Polite.

(** The small site when the seed page links to [/toolbox/a#top]. *)
Module Fragment.

Definition world : World :=
  Scenario.site (Scenario.article_soup ["/toolbox/a#top"; "/toolbox/a#end"])
                (Scenario.article_soup []) Scenario.not_found.

End Fragment.

(** ** The counters of a domain *)

(** [sum(by_type.values())] *)
Definition by_type_total (r : DomainRecord) : nat :=
  foldr (fun kv n => snd kv + n) 0 (by_type (domain_stats r)).

(** The counter of the domain is the sum of the counters of its types, and
    the domain holds at least that many pages. *)
Definition counters_add_up (g : Generator) : Prop :=
  forall domain r,
    od_get domain (knowledge_base g) = Some r ->
    domain_pages_crawled (domain_stats r) = by_type_total r /\
    domain_pages_crawled (domain_stats r) <= length (pages r).

(** * Properties *)

(** ** Strings *)

Example lower_mixed : PyStr.lower "Sign IN-9" = "sign in-9".
Proof. reflexivity. Qed.

Example strip_both : PyStr.strip "  a b  " = "a b".
Proof. reflexivity. Qed.

Example remove_all_twice : PyStr.remove_all "ab" "xabyabab" = "xy".
Proof. reflexivity. Qed.

Example word_search_plural : PyStr.word_search "term" "legal/terms" = true.
Proof. reflexivity. Qed.

Example word_search_inside : PyStr.word_search "about" "roundabouts-x/aboutus" = false.
Proof. reflexivity. Qed.

(** ** Dictionaries *)

Section DictFacts.
Context {V : Type}.
Implicit Types (d : list (string * V)) (k : string) (v : V).

Lemma od_get_set_eq d k v : od_get k (od_set k v d) = Some v.
Proof.
  induction d as [|[k' v'] d IH]; simpl.
  - by rewrite String.eqb_refl.
  - destruct (String.eqb_spec k k') as [->|Hne]; simpl.
    + by rewrite String.eqb_refl.
    + destruct (String.eqb_spec k k'); [done | exact IH].
Qed.

Lemma od_get_set_ne d k k' v : k ≠ k' -> od_get k' (od_set k v d) = od_get k' d.
Proof.
  intros Hne. induction d as [|[k0 v0] d IH]; simpl.
  - destruct (String.eqb_spec k' k); [congruence | done].
  - destruct (String.eqb_spec k k0) as [->|Hk]; simpl.
    + destruct (String.eqb_spec k' k0); [congruence | done].
    + destruct (String.eqb_spec k' k0); [done | exact IH].
Qed.

Lemma od_get_None d k : od_get k d = None <-> k ∉ od_keys d.
Proof.
  unfold od_keys. induction d as [|[k' v'] d IH]; simpl.
  - split; [intros _; apply not_elem_of_nil | done].
  - rewrite not_elem_of_cons. destruct (String.eqb_spec k k') as [->|Hne].
    + split; [done | intros [? _]; done].
    + rewrite IH. tauto.
Qed.

Lemma od_get_Some_elem d k v : od_get k d = Some v -> (k, v) ∈ d.
Proof.
  induction d as [|[k' v'] d IH]; simpl; [done|].
  destruct (String.eqb_spec k k') as [->|Hne].
  - intros [= ->]. apply list_elem_of_here.
  - intros H. apply list_elem_of_further, IH, H.
Qed.

Lemma od_elem_get d k v : NoDup (od_keys d) -> (k, v) ∈ d -> od_get k d = Some v.
Proof.
  unfold od_keys. induction d as [|[k' v'] d IH]; simpl.
  - intros _ H. by apply elem_of_nil in H.
  - rewrite NoDup_cons. intros [Hk Hd] [[= -> ->]|Hin]%elem_of_cons.
    + by rewrite String.eqb_refl.
    + destruct (String.eqb_spec k k') as [->|Hne]; [|by apply IH].
      exfalso. apply Hk. apply list_elem_of_fmap. by exists (k', v).
Qed.

Lemma od_mem_true d k : od_mem k d = true <-> k ∈ od_keys d.
Proof.
  unfold od_mem. destruct (od_get k d) eqn:E.
  - split; [intros _ | done].
    destruct (decide (k ∈ od_keys d)) as [|Hn]; [done|].
    apply od_get_None in Hn. congruence.
  - split; [done|]. intros Hin. by apply od_get_None in E.
Qed.

(** The dictionary around a key that is present. *)
Lemma od_get_split d k v :
  od_get k d = Some v ->
  exists d1 d2, d = d1 ++ (k, v) :: d2 /\ (k ∉ od_keys d1) /\
    forall v', od_set k v' d = d1 ++ (k, v') :: d2.
Proof.
  induction d as [|[k' v0] d IH]; simpl; [done|].
  destruct (String.eqb_spec k k') as [->|Hne].
  - intros [= ->]. exists [], d. split; [done|]. split; [apply not_elem_of_nil|done].
  - intros H. destruct (IH H) as (d1 & d2 & -> & Hk & Hset).
    exists ((k', v0) :: d1), d2. split; [done|]. split.
    + unfold od_keys. simpl. rewrite not_elem_of_cons. done.
    + intros v'. simpl. by rewrite Hset.
Qed.

Lemma od_set_absent d k v : od_get k d = None -> od_set k v d = d ++ [(k, v)].
Proof.
  induction d as [|[k' v0] d IH]; simpl; [done|].
  destruct (String.eqb_spec k k'); [done|]. intros H. by rewrite IH.
Qed.

Lemma od_keys_set_present d k v :
  od_mem k d = true -> od_keys (od_set k v d) = od_keys d.
Proof.
  unfold od_mem. destruct (od_get k d) as [v0|] eqn:E; [intros _ | done].
  destruct (od_get_split _ _ _ E) as (d1 & d2 & -> & _ & Hset).
  rewrite Hset. unfold od_keys. by rewrite !fmap_app.
Qed.

Lemma od_keys_set_absent d k v :
  od_get k d = None -> od_keys (od_set k v d) = od_keys d ++ [k].
Proof. intros H. rewrite od_set_absent by done. unfold od_keys. by rewrite fmap_app. Qed.

Lemma od_set_keys_NoDup d k v : NoDup (od_keys d) -> NoDup (od_keys (od_set k v d)).
Proof.
  intros Hd. destruct (od_get k d) as [v0|] eqn:E.
  - rewrite od_keys_set_present; [done|]. unfold od_mem. by rewrite E.
  - rewrite od_keys_set_absent by done. apply NoDup_app. split; [done|]. split.
    + intros x Hx [->|[]%elem_of_nil]%elem_of_cons. by apply od_get_None in E.
    + apply NoDup_singleton.
Qed.


Lemma od_set_length_absent d k v :
  od_get k d = None -> length (od_set k v d) = S (length d).
Proof. intros H. rewrite od_set_absent by done. rewrite length_app. simpl. lia. Qed.

End DictFacts.

(** ** The shape of a page visit

    Whatever holds before a call of [crawl_page] and is kept by each of the
    updates the body makes holds after it.  [P] is the property between
    visits, [P' url] the property while [url] is processed (from the
    request to the store). *)

Section Closure.
Context {lib : Urllib.UrlLib} (cfg : Config) (W : World).
Context (P : Generator -> Prop) (P' : string -> Generator -> Prop).

Hypothesis keeps_skip : forall g, P g -> P (skip_page g).
Hypothesis keeps_robots : forall url g, P g -> P (snd (is_allowed_by_robots cfg W url g)).
Hypothesis keeps_request : forall url g,
  P g -> url ∉ visited_urls g -> P' url (log_request url (mark_visited url g)).
Hypothesis keeps_error : forall url e g, P' url g -> P (record_error e g).
Hypothesis keeps_skip_at : forall url g, P' url g -> P (skip_page g).
Hypothesis keeps_ensure : forall url domain base_url g,
  P' url g -> P' url (ensure_domain domain base_url g).
Hypothesis keeps_store : forall url domain page r g,
  P' url g ->
  od_get domain (knowledge_base g) = Some r ->
  should_crawl_domain cfg domain g = true ->
  P (store_page domain url page g).
Hypothesis keeps_late_error : forall e g, P g -> P (record_error e g).

Lemma robots_visited url g :
  visited_urls (snd (is_allowed_by_robots cfg W url g)) = visited_urls g.
Proof.
  unfold is_allowed_by_robots. destruct (respect_robots cfg); simpl; [|done].
  destruct (od_get _ (robot_parsers g)) as [parser|].
  - by destruct (parser url).
  - destruct (robots_read W _ _) as [parser|]; [|done]. by destruct (parser url).
Qed.

Lemma ensure_domain_present domain base_url g :
  od_mem domain (knowledge_base (ensure_domain domain base_url g)) = true.
Proof.
  unfold ensure_domain. destruct (od_mem domain (knowledge_base g)) eqn:E; [done|].
  simpl. unfold od_mem. by rewrite od_get_set_eq.
Qed.

Lemma handle_document_keeps url base_url base_domain depth now soup g :
  P' url g -> P (fst (handle_document cfg W url base_url base_domain depth now soup g)).
Proof.
  intros HP'. unfold handle_document.
  destruct (content_only cfg && _ && _); simpl; [by eauto|].
  pose proof (keeps_ensure url (get_domain base_url) base_url g HP') as HP3.
  pose proof (ensure_domain_present (get_domain base_url) base_url g) as Hmem.
  set (g3 := ensure_domain _ _ g) in *. clearbody g3.
  destruct (should_crawl_domain cfg (get_domain base_url) g3) eqn:Hgo; simpl; [|by eauto].
  unfold od_mem in Hmem.
  destruct (od_get (get_domain base_url) (knowledge_base g3)) as [r|] eqn:Hr; [|done].
  pose proof (keeps_store url (get_domain base_url)
                (page_record cfg W url base_url depth now soup) r g3 HP3 Hr Hgo) as HP4.
  set (g4 := store_page _ _ _ g3) in *. clearbody g4.
  destruct (should_crawl_domain cfg (get_domain base_url) g4); simpl; [|done].
  destruct (anchors soup); simpl; by auto.
Qed.

Lemma handle_response_keeps url base_url base_domain depth now answer g :
  P' url g -> P (fst (handle_response cfg W url base_url base_domain depth now answer g)).
Proof.
  intros HP'. unfold handle_response.
  destruct answer as [e|response]; simpl; [by eauto|].
  destruct (status_code response =? 200)%Z; simpl; [|by eauto].
  destruct (PyStr.contains _ _); simpl; [|by eauto].
  destruct (body response) as [e|soup]; simpl; [by eauto|].
  by apply handle_document_keeps.
Qed.

Lemma visit_page_keeps url base_url base_domain depth g :
  P g -> P (fst (visit_page cfg W url base_url base_domain depth g)).
Proof.
  intros HP. unfold visit_page.
  case_bool_decide as Hseen; [done|].
  destruct (should_crawl_domain cfg (get_domain (clean_url url)) g); simpl; [|by auto].
  destruct (fst (is_allowed_by_robots cfg W (clean_url url) g)); simpl; [|by auto].
  apply handle_response_keeps. unfold requested.
  apply keeps_request; [by apply keeps_robots | by rewrite robots_visited].
Qed.

Lemma for_each_keeps guard body xs g g' :
  (forall x g g', P g -> body x g = Some g' -> P g') ->
  P g -> for_each guard body xs g = Some g' -> P g'.
Proof.
  intros Hbody. revert g. induction xs as [|x xs IH]; simpl; intros g HP.
  - by intros [= <-].
  - destruct (guard g); [|by apply IH].
    destruct (body x g) as [g1|] eqn:E; [|done]. apply IH. by eapply Hbody.
Qed.

Lemma crawl_page_keeps fuel url base_url base_domain depth g g' :
  P g -> crawl_page cfg W fuel url base_url base_domain depth g = Some g' -> P g'.
Proof.
  revert url depth g g'. induction fuel as [|fuel IH]; simpl; intros url depth g g' HP; [done|].
  pose proof (visit_page_keeps url base_url base_domain depth g HP) as HP1.
  destruct (visit_page cfg W url base_url base_domain depth g) as [g1 [[cl ol]|]]; simpl in HP1.
  - assert (forall x g0 g0', P g0 ->
              crawl_page cfg W fuel x base_url base_domain (depth + 1) g0 = Some g0' ->
              P g0') as Hbody by (intros; eapply IH; eauto).
    destruct (for_each _ _ cl g1) as [g2|] eqn:E; [|done].
    intros H. eapply for_each_keeps; [exact Hbody| |exact H].
    eapply for_each_keeps; [exact Hbody| |exact E]. done.
  - by intros [= <-].
Qed.

End Closure.

(** ** The invariants hold throughout a crawl *)

Lemma stored_urls_around g domain r :
  od_get domain (knowledge_base g) = Some r ->
  exists a b, stored_urls g = a ++ od_keys (pages r) ++ b /\
    forall r', stored_urls (set_knowledge_base (od_set domain r' (knowledge_base g)) g)
               = a ++ od_keys (pages r') ++ b.
Proof.
  intros H. destruct (od_get_split _ _ _ H) as (d1 & d2 & Hkb & _ & Hset).
  exists (d1 ≫= (fun kv => od_keys (pages (snd kv)))),
         (d2 ≫= (fun kv => od_keys (pages (snd kv)))).
  unfold stored_urls. split.
  - rewrite Hkb. by rewrite bind_app, bind_cons.
  - intros r'. simpl. rewrite Hset. by rewrite bind_app, bind_cons.
Qed.

Lemma stored_urls_elem g url :
  url ∈ stored_urls g <->
  exists domain r, (domain, r) ∈ knowledge_base g /\ url ∈ od_keys (pages r).
Proof.
  unfold stored_urls. rewrite list_elem_of_bind. split.
  - intros ([d r] & Hu & Hin). by exists d, r.
  - intros (d & r & Hin & Hu). by exists (d, r).
Qed.

Lemma content_pages_count_le r : content_pages_count r <= length (pages r).
Proof. unfold content_pages_count. apply List.filter_length_le. Qed.

Lemma store_record_counts url page r :
  od_get url (pages r) = None ->
  length (pages (store_record url page r)) = S (length (pages r)) /\
  content_pages_count (store_record url page r)
  = content_pages_count r + (if is_content_type page then 1 else 0).
Proof.
  intros H. unfold content_pages_count. simpl. rewrite od_set_absent by done.
  rewrite length_app, List.filter_app, length_app. simpl.
  destruct (is_content_type page); simpl; lia.
Qed.

Lemma should_crawl_domain_true cfg domain g r :
  od_get domain (knowledge_base g) = Some r ->
  should_crawl_domain cfg domain g = true ->
  (Z.of_nat (content_pages_count r) < max_pages_per_domain cfg)%Z /\
  (Z.of_nat (length (pages r)) < max_pages_per_domain cfg * 3)%Z.
Proof.
  unfold should_crawl_domain. intros ->.
  destruct (Z.leb_spec (max_pages_per_domain cfg) (Z.of_nat (content_pages_count r)));
    [done|].
  destruct (Z.leb_spec (max_pages_per_domain cfg * 3) (Z.of_nat (length (pages r))));
    [done|]. done.
Qed.

Lemma Inv_new cfg : Inv cfg new_generator.
Proof.
  split; simpl; try done.
  - intros url H. by apply elem_of_nil in H.
  - apply NoDup_nil_2.
  - intros url H. by apply elem_of_nil in H.
  - apply NoDup_nil_2.
  - apply NoDup_nil_2.
Qed.

Lemma Inv_skip cfg g : Inv cfg g -> Inv cfg (skip_page g).
Proof. intros [? ? ? ? ? ? ?]. by split. Qed.

Lemma Inv_record_error cfg e g : Inv cfg g -> Inv cfg (record_error e g).
Proof.
  intros [He ? ? ? ? ? ?]. split; try done.
  simpl. rewrite length_app. simpl. lia.
Qed.

Section Invariant.
Context {lib : Urllib.UrlLib} (cfg : Config) (W : World).

Lemma Inv_robots url g : Inv cfg g -> Inv cfg (snd (is_allowed_by_robots cfg W url g)).
Proof.
  intros HI. unfold is_allowed_by_robots.
  destruct (respect_robots cfg); simpl; [|done].
  destruct (od_get _ (robot_parsers g)) as [parser|].
  - destruct (parser url); simpl; [done | by apply Inv_skip].
  - destruct (robots_read W _ _) as [parser|]; [|done].
    assert (Inv cfg {| knowledge_base := knowledge_base g; metadata := metadata g;
                       visited_urls := visited_urls g;
                       robot_parsers := od_set
                         (Urllib.scheme (Urllib.urlparse url) +:+ "://"
                          +:+ Urllib.netloc (Urllib.urlparse url)) parser (robot_parsers g);
                       error_urls := error_urls g; stats := stats g;
                       fetched := fetched g |}) as HI'
      by (destruct HI; by split).
    destruct (parser url); simpl; [done | by apply Inv_skip].
Qed.

Lemma Inv_request url g :
  Inv cfg g -> url ∉ visited_urls g ->
  InvAt cfg url (log_request url (mark_visited url g)).
Proof.
  intros [He Hfv Hf Hsv Hs Hd Hq] Hnew. split; [split|]; simpl; try done.
  - intros u [Hu|Hu]%elem_of_app.
    + apply elem_of_union_r. by apply Hfv.
    + apply list_elem_of_singleton in Hu. subst u.
      apply elem_of_union_l. by apply elem_of_singleton.
  - apply NoDup_app. split; [done|]. split; [|apply NoDup_singleton].
    intros u Hu ->%list_elem_of_singleton. apply Hnew. by apply Hfv.
  - intros u Hu. apply elem_of_union_r. by apply Hsv.
  - split; [apply elem_of_union_l; by apply elem_of_singleton|].
    intros Hin. apply Hnew. by apply Hsv.
Qed.

Lemma Inv_ensure url domain base_url g :
  InvAt cfg url g -> InvAt cfg url (ensure_domain domain base_url g).
Proof.
  intros HI. unfold ensure_domain.
  destruct (od_mem domain (knowledge_base g)) eqn:Hmem; [done|].
  assert (od_get domain (knowledge_base g) = None) as Hnone
    by (unfold od_mem in Hmem; by destruct (od_get domain (knowledge_base g))).
  destruct HI as ([He Hfv Hf Hsv Hs Hd Hq] & Hv & Hns).
  assert (stored_urls (set_knowledge_base
            (od_set domain {| base_url := base_url; pages := [];
                              domain_stats := empty_stats |} (knowledge_base g)) g)
          = stored_urls g) as Hsame.
  { unfold stored_urls. simpl. rewrite od_set_absent by done.
    rewrite bind_app. simpl. by rewrite !app_nil_r. }
  split; [split|]; simpl; try done.
  - intros u. rewrite Hsame. apply Hsv.
  - by rewrite Hsame.
  - by apply od_set_keys_NoDup.
  - intros d r. destruct (decide (domain = d)) as [->|Hne].
    + rewrite od_get_set_eq. intros [= <-]. unfold content_pages_count. simpl. lia.
    + rewrite od_get_set_ne by done. apply Hq.
  - by rewrite Hsame.
Qed.

Lemma Inv_store url domain page r g :
  InvAt cfg url g ->
  od_get domain (knowledge_base g) = Some r ->
  should_crawl_domain cfg domain g = true ->
  Inv cfg (store_page domain url page g).
Proof.
  intros ([He Hfv Hf Hsv Hs Hd Hq] & Hv & Hns) Hr Hgo.
  unfold store_page. rewrite Hr.
  destruct (stored_urls_around g domain r Hr) as (a & b & Hold & Hnew).
  assert (od_get url (pages r) = None) as Hfresh.
  { apply od_get_None. intros Hin. apply Hns. rewrite Hold.
    apply elem_of_app. right. apply elem_of_app. by left. }
  pose proof (Hnew (store_record url page r)) as Hst.
  simpl in Hst. rewrite od_keys_set_absent in Hst by done.
  split; simpl; try done.
  - intros u. change (stored_urls _) with
      (stored_urls (set_knowledge_base
         (od_set domain (store_record url page r) (knowledge_base g)) g)).
    rewrite Hst. rewrite !elem_of_app, list_elem_of_singleton.
    intros [?|[[?| ->]|?]]; [| |done|];
      apply Hsv; rewrite Hold, !elem_of_app; auto.
  - change (stored_urls _) with
      (stored_urls (set_knowledge_base
         (od_set domain (store_record url page r) (knowledge_base g)) g)).
    rewrite Hst. rewrite Hold in Hs, Hns.
    assert (a ++ (od_keys (pages r) ++ [url]) ++ b ≡ₚ url :: a ++ od_keys (pages r) ++ b)
      as -> by (rewrite <- !app_assoc; simpl; by rewrite <- !Permutation_middle).
    by apply NoDup_cons.
  - by apply od_set_keys_NoDup.
  - intros d r'. destruct (decide (domain = d)) as [->|Hne].
    + rewrite od_get_set_eq. intros [= <-].
      destruct (should_crawl_domain_true cfg d g r Hr Hgo) as [Hc Ht].
      destruct (store_record_counts url page r Hfresh) as [-> ->].
      destruct (is_content_type page); lia.
    + rewrite od_get_set_ne by done. apply Hq.
Qed.

Lemma Inv_crawl_page fuel url base_url base_domain depth g g' :
  Inv cfg g ->
  crawl_page cfg W fuel url base_url base_domain depth g = Some g' ->
  Inv cfg g'.
Proof.
  apply (crawl_page_keeps cfg W (Inv cfg) (InvAt cfg)).
  - apply Inv_skip.
  - apply Inv_robots.
  - apply Inv_request.
  - intros u e g0 [H _]. by apply Inv_record_error.
  - intros u g0 [H _]. by apply Inv_skip.
  - apply Inv_ensure.
  - apply Inv_store.
  - intros e g0. apply Inv_record_error.
Qed.

Lemma Inv_reset_domain_stats base_domain g :
  Inv cfg g -> Inv cfg (reset_domain_stats base_domain g).
Proof.
  intros HI. unfold reset_domain_stats.
  destruct (od_get base_domain (knowledge_base g)) as [r|] eqn:Hr; [|done].
  destruct (stored_urls_around g base_domain r Hr) as (a & b & Hold & Hnew).
  pose proof (Hnew {| base_url := base_url r; pages := pages r;
                      domain_stats := empty_stats |}) as Hst.
  simpl in Hst. rewrite <- Hold in Hst.
  destruct HI as [He Hfv Hf Hsv Hs Hd Hq]. split; simpl; try done.
  - intros u. rewrite Hst. apply Hsv.
  - by rewrite Hst.
  - by apply od_set_keys_NoDup.
  - intros d r'. destruct (decide (base_domain = d)) as [->|Hne].
    + rewrite od_get_set_eq. intros [= <-]. apply (Hq d r Hr).
    + rewrite od_get_set_ne by done. apply Hq.
Qed.

Lemma Inv_crawl_website url g g' :
  Inv cfg g -> crawl_website cfg W url g = Some g' -> Inv cfg g'.
Proof.
  intros HI. unfold crawl_website. apply Inv_crawl_page.
  by apply Inv_reset_domain_stats.
Qed.

Lemma Inv_visit_page url base_url base_domain depth g :
  Inv cfg g -> Inv cfg (fst (visit_page cfg W url base_url base_domain depth g)).
Proof.
  apply (visit_page_keeps cfg W (Inv cfg) (InvAt cfg)).
  - apply Inv_skip.
  - apply Inv_robots.
  - apply Inv_request.
  - intros u e g0 [H _]. by apply Inv_record_error.
  - intros u g0 [H _]. by apply Inv_skip.
  - apply Inv_ensure.
  - apply Inv_store.
  - intros e g0. apply Inv_record_error.
Qed.

Lemma Inv_reachable g : reachable cfg W g -> Inv cfg g.
Proof.
  induction 1.
  - apply Inv_new.
  - by apply Inv_visit_page.
  - by apply Inv_reset_domain_stats.
  - by eapply Inv_crawl_page.
  - by eapply Inv_crawl_website.
Qed.

End Invariant.

(** ** Every call of [crawl_page] returns

    The recursion goes one level deeper only after a page has been stored
    under the domain of [base_url], and only while that domain holds fewer
    than [3 * max_pages_per_domain] pages: [enough_fuel] levels suffice. *)

Section Termination.
Context {lib : Urllib.UrlLib} (cfg : Config) (W : World).










End Termination.

(** ** The quota of a domain *)

Section Quota.
Context {lib : Urllib.UrlLib} (cfg : Config) (W : World).

Lemma should_crawl_domain_absent domain g :
  od_get domain (knowledge_base g) = None -> should_crawl_domain cfg domain g = true.
Proof. unfold should_crawl_domain. by intros ->. Qed.

Lemma should_crawl_domain_full domain g r :
  od_get domain (knowledge_base g) = Some r ->
  (max_pages_per_domain cfg <= Z.of_nat (content_pages_count r))%Z \/
  (max_pages_per_domain cfg * 3 <= Z.of_nat (length (pages r)))%Z ->
  should_crawl_domain cfg domain g = false.
Proof.
  unfold should_crawl_domain. intros -> H.
  destruct (Z.leb_spec (max_pages_per_domain cfg) (Z.of_nat (content_pages_count r)));
    [done|].
  destruct (Z.leb_spec (max_pages_per_domain cfg * 3) (Z.of_nat (length (pages r))));
    [done|]. lia.
Qed.

(** C1.  With a quota [Q = max_pages_per_domain] that is not negative, at
    every point of every run (any sequence of calls of [crawl_page] and
    [crawl_website] on a new generator) every domain holds at most [Q] pages
    of a content type and at most [3 * Q] pages in all.  In any generator,
    [should_crawl_domain] is false for a domain that holds [Q] content pages
    or [3 * Q] pages, and true for a domain that is not in the knowledge
    base. *)
Theorem quota_never_exceeded :
  (0 <= max_pages_per_domain cfg)%Z ->
  (forall g domain r,
     reachable cfg W g ->
     od_get domain (knowledge_base g) = Some r ->
     (Z.of_nat (content_pages_count r) <= max_pages_per_domain cfg)%Z /\
     (Z.of_nat (length (pages r)) <= max_pages_per_domain cfg * 3)%Z) /\
  (forall g domain r,
     od_get domain (knowledge_base g) = Some r ->
     (max_pages_per_domain cfg <= Z.of_nat (content_pages_count r))%Z \/
     (max_pages_per_domain cfg * 3 <= Z.of_nat (length (pages r)))%Z ->
     should_crawl_domain cfg domain g = false) /\
  (forall g domain,
     od_get domain (knowledge_base g) = None ->
     should_crawl_domain cfg domain g = true).
Proof.
  intros HQ. split; [|split].
  - intros g domain r Hreach Hr.
    destruct (inv_quota cfg g (Inv_reachable cfg W g Hreach) domain r Hr) as [Hc Ht].
    lia.
  - intros g domain r. apply should_crawl_domain_full.
  - intros g domain. apply should_crawl_domain_absent.
Qed.

End Quota.

Lemma reachable_crawl_seeds `{lib : Urllib.UrlLib} cfg W urls g g' :
  reachable cfg W g -> crawl_seeds cfg W urls g = Some g' -> reachable cfg W g'.
Proof.
  revert g. induction urls as [|url urls IH]; simpl; intros g Hg.
  - by intros [= <-].
  - destruct (crawl_website cfg W url g) as [g1|] eqn:E; [|done].
    apply IH. by eapply reach_site.
Qed.

Lemma run_reachable W urls :
  crawl_seeds (lib := PyUrllib.lib) Scenario.cfg W urls new_generator
  = Some (Scenario.run W urls) ->
  reachable (lib := PyUrllib.lib) Scenario.cfg W (Scenario.run W urls).
Proof. apply reachable_crawl_seeds, reach_new. Qed.

(** The run of the small site stores two content pages under a quota of
    two. *)
Lemma quota_never_exceeded_witness :
  content_pages_count
    (Scenario.record_of "example.org" (Scenario.run Scenario.quiet [Scenario.seed])) = 2 /\
  (Z.of_nat (content_pages_count
     (Scenario.record_of "example.org" (Scenario.run Scenario.quiet [Scenario.seed]))) <= 2)%Z /\
  (Z.of_nat (length (pages
     (Scenario.record_of "example.org" (Scenario.run Scenario.quiet [Scenario.seed])))) <= 6)%Z.
Proof.
  split; [vm_compute; reflexivity|].
  apply (proj1 (quota_never_exceeded (lib := PyUrllib.lib) Scenario.cfg Scenario.quiet
                  ltac:(simpl; lia))
               (Scenario.run Scenario.quiet [Scenario.seed]) "example.org").
  - apply run_reachable. vm_compute; reflexivity.
  - vm_compute; reflexivity.
Defined.

(** ** No url is fetched twice *)

Section Visited.
Context {lib : Urllib.UrlLib} (cfg : Config) (W : World).

Lemma crawl_page_seen fuel url base_url base_domain depth g :
  clean_url url ∈ visited_urls g ->
  crawl_page cfg W (S fuel) url base_url base_domain depth g = Some g.
Proof.
  intros H. simpl. unfold visit_page. by rewrite bool_decide_eq_true_2.
Qed.

Lemma fetched_robots url g :
  fetched (snd (is_allowed_by_robots cfg W url g)) = fetched g.
Proof.
  unfold is_allowed_by_robots. destruct (respect_robots cfg); simpl; [|done].
  destruct (od_get _ (robot_parsers g)) as [parser|].
  - by destruct (parser url).
  - destruct (robots_read W _ _) as [parser|]; [|done]. by destruct (parser url).
Qed.

Lemma visited_ensure domain base_url g :
  visited_urls (ensure_domain domain base_url g) = visited_urls g /\
  fetched (ensure_domain domain base_url g) = fetched g.
Proof. unfold ensure_domain. by destruct (od_mem domain (knowledge_base g)). Qed.

Lemma visited_store domain url page g :
  visited_urls (store_page domain url page g) = visited_urls g /\
  fetched (store_page domain url page g) = fetched g.
Proof. unfold store_page. by destruct (od_get domain (knowledge_base g)). Qed.

Lemma fetched_handle_document url base_url base_domain depth now soup g :
  let g' := fst (handle_document cfg W url base_url base_domain depth now soup g) in
  fetched g' = fetched g /\ visited_urls g' = visited_urls g.
Proof.
  unfold handle_document.
  destruct (content_only cfg && _ && _); simpl; [done|].
  destruct (visited_ensure (get_domain base_url) base_url g) as [Hv3 Hf3].
  set (g3 := ensure_domain _ _ g) in *.
  destruct (should_crawl_domain cfg (get_domain base_url) g3); simpl; [|done].
  match goal with |- context [store_page ?d ?u ?p g3] =>
    destruct (visited_store d u p g3) as [Hv4 Hf4]; set (g4 := store_page d u p g3) in * end.
  destruct (should_crawl_domain cfg (get_domain base_url) g4); simpl;
    [|by rewrite Hv4, Hf4].
  destruct (anchors soup); simpl; by rewrite Hv4, Hf4.
Qed.

Lemma fetched_handle_response url base_url base_domain depth now answer g :
  let g' := fst (handle_response cfg W url base_url base_domain depth now answer g) in
  fetched g' = fetched g /\ visited_urls g' = visited_urls g.
Proof.
  unfold handle_response.
  destruct answer as [e|response]; simpl; [done|].
  destruct (status_code response =? 200)%Z; simpl; [|done].
  destruct (PyStr.contains _ _); simpl; [|done].
  destruct (body response) as [e|soup]; simpl; [done|].
  apply fetched_handle_document.
Qed.

(** A page visit issues at most one request, for the cleaned url, which was
    not visited before the visit and is marked when the request leaves. *)
Lemma visit_page_request url base_url base_domain depth g :
  let g' := fst (visit_page cfg W url base_url base_domain depth g) in
  (fetched g' = fetched g /\
   (clean_url url ∈ visited_urls g -> g' = g)) \/
  (fetched g' = fetched g ++ [clean_url url] /\
   (clean_url url ∉ visited_urls g) /\
   visited_urls g' = {[clean_url url]} ∪ visited_urls g).
Proof.
  unfold visit_page.
  case_bool_decide as Hseen; [by left|].
  destruct (should_crawl_domain cfg (get_domain (clean_url url)) g); simpl; [|by left].
  destruct (fst (is_allowed_by_robots cfg W (clean_url url) g)); simpl.
  - right.
    destruct (fetched_handle_response (clean_url url) base_url base_domain depth
                (length (fetched g)) (http_get W (length (fetched g)) (clean_url url))
                (requested cfg W (clean_url url) g)) as [-> ->].
    unfold requested. simpl. by rewrite fetched_robots, robots_visited.
  - left. by rewrite fetched_robots.
Qed.

(** C2.  At every point of every run no url occurs twice in the trace of
    the requests, every requested url is in the visited set, and no url is
    twice a key of a domain's [pages]; a call of [crawl_page] whose cleaned
    url is already visited returns the generator as it was; and a page visit
    requests the cleaned url only when it was not visited, the url being in
    the visited set from then on. *)
Theorem no_url_fetched_twice g :
  reachable cfg W g ->
  NoDup (fetched g) /\
  (forall url, url ∈ fetched g -> url ∈ visited_urls g) /\
  (forall domain r,
     od_get domain (knowledge_base g) = Some r -> NoDup (od_keys (pages r))) /\
  (forall fuel url base_url base_domain depth,
     clean_url url ∈ visited_urls g ->
     crawl_page cfg W (S fuel) url base_url base_domain depth g = Some g) /\
  (forall url base_url base_domain depth,
     let g' := fst (visit_page cfg W url base_url base_domain depth g) in
     fetched g' = fetched g \/
     (fetched g' = fetched g ++ [clean_url url] /\
      (clean_url url ∉ visited_urls g) /\
      clean_url url ∈ visited_urls g')).
Proof.
  intros Hreach. pose proof (Inv_reachable cfg W g Hreach) as HI.
  split; [apply (inv_fetched_once cfg g HI)|].
  split; [apply (inv_fetched_visited cfg g HI)|].
  split; [|split].
  - intros domain r Hr.
    destruct (stored_urls_around g domain r Hr) as (a & b & Hold & _).
    pose proof (inv_stored_once cfg g HI) as Hs. rewrite Hold in Hs.
    apply NoDup_app in Hs as (_ & _ & Hs). by apply NoDup_app in Hs as (Hs & _ & _).
  - intros. by apply crawl_page_seen.
  - intros url base_url base_domain depth g'.
    destruct (visit_page_request url base_url base_domain depth g)
      as [[Hf _]|(Hf & Hn & Hv)]; [by left|].
    right. split; [done|]. split; [done|]. fold g' in Hv. rewrite Hv.
    apply elem_of_union_l. by apply elem_of_singleton.
Qed.

End Visited.

(** The small site: two requests, to two different urls. *)
Lemma no_url_fetched_twice_witness :
  fetched (Scenario.run Scenario.quiet [Scenario.seed])
  = [Scenario.seed; Scenario.toolbox_a] /\
  NoDup (fetched (Scenario.run Scenario.quiet [Scenario.seed])).
Proof.
  split; [vm_compute; reflexivity|].
  refine (proj1 (no_url_fetched_twice (lib := PyUrllib.lib) Scenario.cfg Scenario.quiet
                   (Scenario.run Scenario.quiet [Scenario.seed]) _)).
  apply run_reachable. vm_compute; reflexivity.
Defined.

(** ** Skips and errors *)

Section Outcomes.
Context {lib : Urllib.UrlLib} (cfg : Config) (W : World).



Lemma stats_ensure domain base_url g :
  stats (ensure_domain domain base_url g) = stats g /\
  error_urls (ensure_domain domain base_url g) = error_urls g.
Proof. unfold ensure_domain. by destruct (od_mem domain (knowledge_base g)). Qed.





End Outcomes.


(** ** The quota check before the request *)

Section Prefetch.
Context {lib : Urllib.UrlLib} (cfg : Config) (W : World).

(** C10.  The quota check before the request looks up the netloc of the
    candidate url, while pages are stored under the netloc of [base_url].
    For a link that [is_internal_link] accepts and whose netloc is no key of
    the knowledge base (such as the [www.] name of the seed's domain), the
    check is true and, the url being new and robots permitting, the request
    is made, however many pages the domain of [base_url] holds. *)
Theorem prefetch_check_uses_link_domain url base_url base_domain depth g :
  is_internal_link (clean_url url) base_domain = true ->
  od_get (get_domain (clean_url url)) (knowledge_base g) = None ->
  (clean_url url ∉ visited_urls g) ->
  fst (is_allowed_by_robots cfg W (clean_url url) g) = true ->
  should_crawl_domain cfg (get_domain (clean_url url)) g = true /\
  fetched (fst (visit_page cfg W url base_url base_domain depth g))
  = fetched g ++ [clean_url url].
Proof.
  intros _ Habsent Hnew Hok.
  pose proof (should_crawl_domain_absent cfg _ g Habsent) as Hgo.
  split; [done|]. unfold visit_page.
  rewrite bool_decide_eq_false_2 by done. rewrite Hgo, Hok. simpl.
  destruct (fetched_handle_response cfg W (clean_url url) base_url base_domain depth
              (length (fetched g)) (http_get W (length (fetched g)) (clean_url url))
              (requested cfg W (clean_url url) g)) as [-> _].
  unfold requested. simpl. by rewrite fetched_robots.
Qed.

End Prefetch.

(** After the run of the small site the domain [example.org] is full, and a
    link to [www.example.org] is still requested. *)
Lemma prefetch_check_uses_link_domain_witness :
  should_crawl_domain Scenario.cfg "example.org"
    (Scenario.run Scenario.quiet [Scenario.seed]) = false /\
  is_internal_link (lib := PyUrllib.lib) Scenario.www_link "example.org" = true /\
  should_crawl_domain Scenario.cfg
    (get_domain (lib := PyUrllib.lib) (clean_url (lib := PyUrllib.lib) Scenario.www_link))
    (Scenario.run Scenario.quiet [Scenario.seed]) = true /\
  fetched (fst (visit_page (lib := PyUrllib.lib) Scenario.cfg Scenario.quiet
                  Scenario.www_link "https://example.org" "example.org" 1
                  (Scenario.run Scenario.quiet [Scenario.seed])))
  = fetched (Scenario.run Scenario.quiet [Scenario.seed])
    ++ [clean_url (lib := PyUrllib.lib) Scenario.www_link].
Proof.
  split; [vm_compute; reflexivity|]. split; [vm_compute; reflexivity|].
  apply (prefetch_check_uses_link_domain (lib := PyUrllib.lib) Scenario.cfg Scenario.quiet
           Scenario.www_link "https://example.org" "example.org" 1
           (Scenario.run Scenario.quiet [Scenario.seed])).
  - vm_compute; reflexivity.
  - vm_compute; reflexivity.
  - apply (bool_decide_eq_false_1 (clean_url (lib := PyUrllib.lib) Scenario.www_link
                            ∈ visited_urls (Scenario.run Scenario.quiet [Scenario.seed]))).
    vm_compute; reflexivity.
  - vm_compute; reflexivity.
Defined.

(** ** The type counters of a domain *)

Section ByType.
Context {lib : Urllib.UrlLib} (cfg : Config) (W : World).

Lemma same_untracked_kb g0 g g' :
  knowledge_base g' = knowledge_base g -> same_untracked g0 g -> same_untracked g0 g'.
Proof.
  intros Hkb H domain t. specialize (H domain t).
  unfold pages_of, by_type_count in *. by rewrite Hkb.
Qed.

Lemma knowledge_base_robots url g :
  knowledge_base (snd (is_allowed_by_robots cfg W url g)) = knowledge_base g.
Proof.
  unfold is_allowed_by_robots. destruct (respect_robots cfg); simpl; [|done].
  destruct (od_get _ (robot_parsers g)) as [parser|].
  - by destruct (parser url).
  - destruct (robots_read W _ _) as [parser|]; [|done]. by destruct (parser url).
Qed.

Lemma same_untracked_ensure g0 domain base_url g :
  same_untracked g0 g -> same_untracked g0 (ensure_domain domain base_url g).
Proof.
  intros H d t. specialize (H d t). unfold ensure_domain.
  destruct (od_mem domain (knowledge_base g)) eqn:Hmem; [done|].
  unfold od_mem in Hmem. unfold pages_of, by_type_count in *. simpl.
  destruct (decide (domain = d)) as [->|Hne].
  - rewrite od_get_set_eq. destruct (od_get d (knowledge_base g)); [done|]. exact H.
  - by rewrite od_get_set_ne.
Qed.

Lemma bump_type_get t t' by_type :
  default 0 (od_get t (bump_type t' by_type))
  = default 0 (od_get t by_type) + (if String.eqb t' t then 1 else 0).
Proof.
  unfold bump_type. destruct (String.eqb_spec t' t) as [->|Hne].
  - rewrite od_get_set_eq. simpl. lia.
  - rewrite od_get_set_ne by done. lia.
Qed.

Lemma same_untracked_store g0 url domain page r g :
  InvAt cfg url g ->
  od_get domain (knowledge_base g) = Some r ->
  same_untracked g0 g -> same_untracked g0 (store_page domain url page g).
Proof.
  intros (HI & _ & Hns) Hr H d t. specialize (H d t).
  unfold store_page. rewrite Hr. unfold pages_of, by_type_count in *. simpl.
  destruct (decide (domain = d)) as [->|Hne]; [|by rewrite od_get_set_ne].
  rewrite od_get_set_eq. rewrite Hr in H. simpl.
  assert (od_get url (pages r) = None) as Hfresh.
  { apply od_get_None. intros Hin. apply Hns, stored_urls_elem.
    exists d, r. split; [by apply od_get_Some_elem | done]. }
  rewrite od_set_absent by done. rewrite bump_type_get.
  unfold type_count in *. rewrite List.filter_app, length_app. simpl.
  destruct (String.eqb (page_type page) t); simpl; lia.
Qed.

Lemma same_untracked_crawl_page fuel url base_url base_domain depth g g' :
  Inv cfg g ->
  crawl_page cfg W fuel url base_url base_domain depth g = Some g' ->
  same_untracked g g'.
Proof.
  intros HI H.
  apply (crawl_page_keeps cfg W
           (fun g1 => Inv cfg g1 /\ same_untracked g g1)
           (fun u g1 => InvAt cfg u g1 /\ same_untracked g g1))
    with (g := g) in H; [by destruct H| | | | | | | | |].
  - intros g1 [? ?]. split; [by apply Inv_skip | by eapply same_untracked_kb].
  - intros u g1 [? ?]. split; [by apply Inv_robots|].
    eapply same_untracked_kb; [apply knowledge_base_robots | done].
  - intros u g1 [? ?] ?. split; [by apply Inv_request | by eapply same_untracked_kb].
  - intros u e g1 [[? _] ?]. split; [by apply Inv_record_error | by eapply same_untracked_kb].
  - intros u g1 [[? _] ?]. split; [by apply Inv_skip | by eapply same_untracked_kb].
  - intros u d b g1 [? ?]. split; [by apply Inv_ensure | by apply same_untracked_ensure].
  - intros u d page r g1 [? ?] Hr Hgo.
    split; [by eapply Inv_store | by eapply same_untracked_store].
  - intros e g1 [? ?]. split; [by apply Inv_record_error | by eapply same_untracked_kb].
  - split; [done|]. by intros d t.
Qed.

Lemma reset_domain_stats_effect base_domain g :
  (forall t, by_type_count t base_domain (reset_domain_stats base_domain g) = 0) /\
  (forall domain, pages_of domain (reset_domain_stats base_domain g) = pages_of domain g) /\
  (forall domain t, domain <> base_domain ->
     by_type_count t domain (reset_domain_stats base_domain g) = by_type_count t domain g).
Proof.
  unfold reset_domain_stats, by_type_count, pages_of.
  destruct (od_get base_domain (knowledge_base g)) as [r|] eqn:Hr.
  - simpl. split; [|split].
    + intros t. by rewrite od_get_set_eq.
    + intros d. destruct (decide (base_domain = d)) as [->|Hne].
      * by rewrite od_get_set_eq, Hr.
      * by rewrite od_get_set_ne.
    + intros d t Hne. by rewrite od_get_set_ne.
  - split; [|split]; [intros t; by rewrite Hr | done | done].
Qed.

(** C7, as amended.  [crawl_website] first resets the counters of the seed's
    domain and keeps its pages; from then on every store adds the page and
    one to the counter of its type together.  So after [crawl_website] the
    counter of each type is the number of pages of that type stored for the
    domain by this run (the pages now less the pages before), which is all
    of them when the domain had no page before; and for every other domain
    the pages that its counters do not count stay as many. *)
Theorem by_type_counts_pages_since_reset url g g' :
  reachable cfg W g ->
  crawl_website cfg W url g = Some g' ->
  (forall t,
     by_type_count t (get_domain (seed_url url)) g'
     + type_count t (pages_of (get_domain (seed_url url)) g)
     = type_count t (pages_of (get_domain (seed_url url)) g')) /\
  (pages_of (get_domain (seed_url url)) g = [] ->
   forall t,
     by_type_count t (get_domain (seed_url url)) g'
     = type_count t (pages_of (get_domain (seed_url url)) g')) /\
  (forall domain t,
     domain <> get_domain (seed_url url) ->
     type_count t (pages_of domain g') + by_type_count t domain g
     = type_count t (pages_of domain g) + by_type_count t domain g') /\
  (forall t,
     by_type_count t (get_domain (seed_url url))
       (reset_domain_stats (get_domain (seed_url url)) g) = 0).
Proof.
  intros Hreach Hrun. unfold crawl_website in Hrun.
  set (d0 := get_domain (seed_url url)) in *.
  destruct (reset_domain_stats_effect d0 g) as (Hzero & Hpages & Hother).
  apply same_untracked_crawl_page in Hrun;
    [|by apply Inv_reset_domain_stats, (Inv_reachable cfg W)].
  assert (forall t, by_type_count t d0 g' + type_count t (pages_of d0 g)
                    = type_count t (pages_of d0 g')) as Hmain.
  { intros t. specialize (Hrun d0 t). rewrite Hzero, Hpages in Hrun. lia. }
  split; [exact Hmain|]. split; [|split; [|exact Hzero]].
  - intros Hempty t. specialize (Hmain t). rewrite Hempty in Hmain.
    unfold type_count in Hmain at 1. simpl in Hmain. lia.
  - intros d t Hne. specialize (Hrun d t). by rewrite Hpages, Hother in Hrun.
Qed.

End ByType.

(** After a second seed of the same domain the counter of "article" is 1
    and the domain holds two pages of that type: the claim as stated fails. *)
Lemma by_type_disagrees_after_second_seed :
  by_type_count "article" "example.org"
    (Scenario.run Scenario.two_sections [Scenario.seed; Scenario.blog]) = 1 /\
  type_count "article"
    (pages_of "example.org"
       (Scenario.run Scenario.two_sections [Scenario.seed; Scenario.blog])) = 2.
Proof. split; vm_compute; reflexivity. Qed.

(** The second seed of the small site with two sections: one page before,
    two after, and a counter of one. *)
Lemma by_type_counts_pages_since_reset_witness :
  type_count "article"
    (pages_of "example.org" (Scenario.run Scenario.two_sections [Scenario.seed])) = 1 /\
  by_type_count "article" (get_domain (lib := PyUrllib.lib) (seed_url Scenario.blog))
    (Scenario.run Scenario.two_sections [Scenario.seed; Scenario.blog])
  + type_count "article"
      (pages_of (get_domain (lib := PyUrllib.lib) (seed_url Scenario.blog))
         (Scenario.run Scenario.two_sections [Scenario.seed]))
  = type_count "article"
      (pages_of (get_domain (lib := PyUrllib.lib) (seed_url Scenario.blog))
         (Scenario.run Scenario.two_sections [Scenario.seed; Scenario.blog])).
Proof.
  split; [vm_compute; reflexivity|].
  refine (proj1 (by_type_counts_pages_since_reset (lib := PyUrllib.lib) Scenario.cfg
                   Scenario.two_sections Scenario.blog
                   (Scenario.run Scenario.two_sections [Scenario.seed])
                   (Scenario.run Scenario.two_sections [Scenario.seed; Scenario.blog])
                   _ _) "article").
  - apply run_reachable. vm_compute; reflexivity.
  - vm_compute; reflexivity.
Defined.

(** ** The end-to-end scenario *)

Lemma for_each_closed guard body links g :
  guard g = false -> for_each guard body links g = Some g.
Proof. intros H. induction links as [|x xs IH]; simpl; [done|]. by rewrite H. Qed.

Lemma mem_elem x l : mem x l = true -> x ∈ l.
Proof.
  unfold mem. intros (y & Hy & ->%String.eqb_eq)%existsb_exists.
  by apply list_elem_of_In.
Qed.

Lemma avoid_type_not_rich page_type soup :
  mem (PyStr.lower page_type) avoid_page_types = true ->
  is_content_rich_page page_type soup = false /\ String.eqb page_type "homepage" = false.
Proof.
  intros H. unfold is_content_rich_page. rewrite H.
  assert (mem (PyStr.lower page_type) content_page_types = false) as ->.
  { apply mem_elem in H. unfold avoid_page_types in H.
    repeat (apply elem_of_cons in H as [->|H]; [vm_compute; reflexivity|]).
    by apply elem_of_nil in H. }
  split; [done|]. destruct (String.eqb_spec page_type "homepage") as [->|]; [|done].
  vm_compute in H. discriminate.
Qed.

(** C3, as amended.  In the scenario (seed [https://example.org/toolbox/],
    quota 2, content-only mode; the seed page and [/toolbox/a] carry article
    markup, so both are of the content type "article"; the seed page links to
    [/toolbox/a] and [/about], in this order) exactly two requests are made:
    [/toolbox/a] is fetched and stored at depth 1 and [/about] is not
    fetched, whatever links [/toolbox/a] carries and whatever the rest of
    the site answers.  What stops the crawl is the quota: once
    [should_crawl_domain] is false the loops over the links call nothing.
    A deny-list url is not recognised before it is fetched; in content-only
    mode a fetched page whose type is a deny-list term is skipped, never
    stored. *)
Theorem scenario_stops_at_quota :
  (forall more rest,
     crawl_website (lib := PyUrllib.lib) Scenario.cfg (Scenario.world more rest)
       Scenario.seed new_generator
     = Some (Scenario.run (Scenario.world more rest) [Scenario.seed]) /\
     fetched (Scenario.run (Scenario.world more rest) [Scenario.seed])
     = [Scenario.seed; Scenario.toolbox_a] /\
     Scenario.stored "example.org" (Scenario.run (Scenario.world more rest) [Scenario.seed])
     = [(Scenario.seed, 0, "article"); (Scenario.toolbox_a, 1, "article")] /\
     (Scenario.about ∉ fetched (Scenario.run (Scenario.world more rest) [Scenario.seed]))) /\
  (forall cfg domain body links g,
     should_crawl_domain cfg domain g = false ->
     for_each (should_crawl_domain cfg domain) body links g = Some g) /\
  (forall (lib : Urllib.UrlLib) cfg W url base_url base_domain depth now soup g,
     content_only cfg = true ->
     mem (PyStr.lower (classify_page (avoid_iteration cfg) url base_url (Some soup)))
         avoid_page_types = true ->
     handle_document cfg W url base_url base_domain depth now soup g
     = (skip_page g, None)).
Proof.
  split; [|split].
  - intros more rest.
    assert (fetched (Scenario.run (Scenario.world more rest) [Scenario.seed])
            = [Scenario.seed; Scenario.toolbox_a]) as Hf by (vm_compute; reflexivity).
    split; [vm_compute; reflexivity|]. split; [exact Hf|].
    split; [vm_compute; reflexivity|]. rewrite Hf.
    intros [H|[H|H%elem_of_nil]%elem_of_cons]%elem_of_cons; [| |done]; discriminate H.
  - intros cfg domain body links g. apply for_each_closed.
  - intros lib cfg W url base_url base_domain depth now soup g Hmode Havoid.
    unfold handle_document.
    destruct (avoid_type_not_rich _ (Some soup) Havoid) as [-> ->].
    by rewrite Hmode.
Qed.

(** The same scenario when [/toolbox/a] is rich in lists and of no content
    type: it is stored at depth 1, the quota is not reached, and [/about] is
    fetched.  And no document at the seed url is classified "resource". *)
Lemma scenario_fetches_about :
  fetched (Scenario.run Scenario.sparse [Scenario.seed])
  = [Scenario.seed; Scenario.toolbox_a; Scenario.about] /\
  Scenario.stored "example.org" (Scenario.run Scenario.sparse [Scenario.seed])
  = [(Scenario.seed, 0, "article"); (Scenario.toolbox_a, 1, "toolbox")] /\
  (forall soup,
     classify_page avoid_page_types Scenario.seed "https://example.org" soup
     <> "resource").
Proof.
  split; [vm_compute; reflexivity|]. split; [vm_compute; reflexivity|].
  intros soup. unfold classify_page.
  set (b := match soup with Some s => _ | None => false end). clearbody b.
  vm_compute. destruct b; discriminate.
Qed.

(** ** The classifier and the order of the deny-list *)










(** ** The paragraphs of a page *)

Section StripFacts.
Context (f : ascii -> bool).

Lemma rstrip_by_idem s : PyStr.rstrip_by f (PyStr.rstrip_by f s) = PyStr.rstrip_by f s.
Proof.
  induction s as [|c s IH]; simpl; [done|].
  destruct (PyStr.rstrip_by f s) as [|d r] eqn:E; simpl.
  - destruct (f c) eqn:Hc; simpl; [done|]. by rewrite Hc.
  - simpl in IH. rewrite IH. done.
Qed.

Lemma lstrip_by_head c s : f c = false -> PyStr.lstrip_by f (String c s) = String c s.
Proof. intros H. simpl. by rewrite H. Qed.

Lemma lstrip_by_shape s :
  PyStr.lstrip_by f s = EmptyString \/
  exists c r, PyStr.lstrip_by f s = String c r /\ f c = false.
Proof.
  induction s as [|c s IH]; simpl; [by left|].
  destruct (f c) eqn:Hc; [done|]. right. by exists c, s.
Qed.

Lemma rstrip_by_head c s :
  f c = false -> exists r, PyStr.rstrip_by f (String c s) = String c r.
Proof.
  intros Hc. simpl. rewrite Hc, andb_false_r. by eexists.
Qed.

Lemma strip_by_idem s : PyStr.strip_by f (PyStr.strip_by f s) = PyStr.strip_by f s.
Proof.
  unfold PyStr.strip_by.
  destruct (lstrip_by_shape s) as [->|(c & r & -> & Hc)]; [done|].
  destruct (rstrip_by_head c r Hc) as [r' Hr]. rewrite Hr.
  rewrite lstrip_by_head by done. rewrite <- Hr. apply rstrip_by_idem.
Qed.

End StripFacts.








(** ** The deduplication pass *)

Section DedupFacts.
Context (md5 : string -> string).

Lemma find_app {A} (f : A -> bool) (l1 l2 : list A) :
  List.find f (l1 ++ l2)
  = match List.find f l1 with Some x => Some x | None => List.find f l2 end.
Proof. induction l1 as [|x l1 IH]; simpl; [done|]. by destruct (f x). Qed.

Lemma owner_app l1 l2 h :
  owner md5 (l1 ++ l2) h
  = match owner md5 l1 h with Some o => Some o | None => owner md5 l2 h end.
Proof. unfold owner. rewrite find_app. by destruct (List.find _ l1). Qed.

Lemma owner_elem all h o : owner md5 all h = Some o -> o ∈ all.*1.
Proof.
  unfold owner. destruct (List.find _ all) as [[u ps]|] eqn:E; [|done].
  intros [= <-]. apply List.find_some in E as [Hin _].
  apply list_elem_of_fmap. exists (u, ps). split; [done | by apply list_elem_of_In].
Qed.

Lemma owner_cons url ps rest h :
  owner md5 ((url, ps) :: rest) h
  = if has_hash md5 h ps then Some url else owner md5 rest h.
Proof. unfold owner. simpl. by destruct (has_hash md5 h ps). Qed.

Lemma has_hash_snoc h earlier p :
  has_hash md5 h (earlier ++ [p])
  = has_hash md5 h earlier || String.eqb (text_hash md5 p) h.
Proof. unfold has_hash. rewrite existsb_app. simpl. by rewrite orb_false_r. Qed.

Lemma dedup_paragraphs_retained all before url ps :
  (forall h o, before h = Some o -> o <> url) ->
  (forall p, p ∈ ps ->
     owner md5 all (text_hash md5 p) = Some url <-> before (text_hash md5 p) = None) ->
  forall earlier hashes n acc,
    reading md5 before url earlier hashes ->
    exists hashes' n',
      foldl (dedup_paragraph md5 url) ((hashes, n), acc) ps
      = ((hashes', n'), acc ++ retained md5 all url earlier ps) /\
      reading md5 before url (earlier ++ ps) hashes'.
Proof.
  intros Hother. induction ps as [|p ps IH]; intros Hown earlier hashes n acc Hread.
  - exists hashes, n. simpl. by rewrite !app_nil_r.
  - assert (forall q, q ∈ ps ->
              owner md5 all (text_hash md5 q) = Some url <-> before (text_hash md5 q) = None)
      as Hown' by (intros q Hq; by apply Hown, list_elem_of_further).
    specialize (Hown p (list_elem_of_here _ _)).
    cbn [foldl retained]. unfold dedup_paragraph at 2.
    rewrite (Hread (text_hash md5 p)).
    destruct (before (text_hash md5 p)) as [o|] eqn:Hbefore.
    + (* owned by an earlier page *)
      destruct (String.eqb_spec o url) as [->|Hne]; [by destruct (Hother _ _ Hbefore)|].
      cbn [negb]. rewrite bool_decide_eq_false_2 by (rewrite Hown; done).
      cbn [andb].
      destruct (IH Hown' (earlier ++ [p]) hashes n (acc ++ [p])) as (H' & n' & Hrun & Hread').
      * intros h. rewrite (Hread h), has_hash_snoc.
        destruct (before h) eqn:Hb; [done|].
        destruct (String.eqb_spec (text_hash md5 p) h) as [<-|]; [congruence|].
        by rewrite orb_false_r.
      * exists H', n'. rewrite Hrun. rewrite <- !app_assoc in *. by split.
    + destruct (has_hash md5 (text_hash md5 p) earlier) eqn:Hearlier.
      * (* a repeat on the page that owns the hash *)
        rewrite String.eqb_refl. cbn [negb].
        rewrite bool_decide_eq_true_2 by (by apply Hown). cbn [andb].
        destruct (IH Hown' (earlier ++ [p]) hashes (S n) acc) as (H' & n' & Hrun & Hread').
        -- intros h. rewrite (Hread h), has_hash_snoc.
           destruct (before h) eqn:Hb; [done|].
           destruct (String.eqb_spec (text_hash md5 p) h) as [<-|];
             [by rewrite Hearlier | by rewrite orb_false_r].
        -- exists H', n'. rewrite Hrun. rewrite <- !app_assoc in *. by split.
      * (* the first paragraph with this hash *)
        rewrite andb_false_r.
        destruct (IH Hown' (earlier ++ [p]) (od_set (text_hash md5 p) url hashes) n
                    (acc ++ [p])) as (H' & n' & Hrun & Hread').
        -- intros h. rewrite has_hash_snoc.
           destruct (String.eqb_spec (text_hash md5 p) h) as [<-|Hne].
           ++ rewrite od_get_set_eq, Hbefore. by rewrite orb_true_r.
           ++ rewrite od_get_set_ne by done. rewrite (Hread h). by rewrite orb_false_r.
        -- exists H', n'. rewrite Hrun. rewrite <- !app_assoc in *. by split.
Qed.

Lemma dedup_pages_retained all ps :
  forall prev rest hashes n,
    all = prev ++ (page_view <$> ps) ++ rest ->
    NoDup all.*1 ->
    (forall h, od_get h hashes = owner md5 prev h) ->
    exists hashes' n',
      dedup_pages md5 (hashes, n) ps = ((hashes', n'), retained_pages md5 all ps) /\
      (forall h, od_get h hashes' = owner md5 (prev ++ (page_view <$> ps)) h).
Proof.
  induction ps as [|[url page] ps IH]; intros prev rest hashes n Hall Hnd Hprev.
  - exists hashes, n. simpl. by rewrite app_nil_r.
  - cbn [dedup_pages retained_pages map fst snd]. unfold dedup_paragraphs.
    assert (url ∉ prev.*1) as Hfresh.
    { rewrite Hall in Hnd. rewrite fmap_app in Hnd. apply NoDup_app in Hnd as (_ & Hd & _).
      intros Hin. apply (Hd url Hin). simpl. apply list_elem_of_here. }
    destruct (dedup_paragraphs_retained all (owner md5 prev) url
                (paragraphs (content page))) with (earlier := @nil string)
                (hashes := hashes) (n := n) (acc := @nil string)
      as (H1 & n1 & Hrun & Hread).
    + intros h o Ho ->. by apply owner_elem in Ho.
    + intros p Hp. rewrite Hall. rewrite owner_app.
      destruct (owner md5 prev (text_hash md5 p)) as [o|] eqn:Ho.
      * split; [|done]. intros [= ->]. by apply owner_elem in Ho.
      * split; [done|]. intros _.
        change ((page_view <$> (url, page) :: ps) ++ rest)
          with ((url, paragraphs (content page)) :: ((page_view <$> ps) ++ rest)).
        rewrite owner_cons.
        assert (has_hash md5 (text_hash md5 p) (paragraphs (content page)) = true) as ->;
          [|done].
        unfold has_hash. apply existsb_exists. exists p.
        split; [by apply list_elem_of_In | apply String.eqb_refl].
    + intros h. rewrite (Hprev h). by destruct (owner md5 prev h).
    + simpl in Hread.
      destruct (IH (prev ++ [page_view (url, page)]) rest H1 n1) as (H2 & n2 & Hrec & Hfin).
      * rewrite Hall. by rewrite <- app_assoc.
      * done.
      * intros h. rewrite (Hread h), owner_app.
        change [page_view (url, page)] with [(url, paragraphs (content page))].
        rewrite owner_cons. destruct (owner md5 prev h); [done|].
        by destruct (has_hash md5 h _).
      * exists H2, n2. unfold DedupState in *. rewrite Hrun, Hrec. split; [done|]. intros h. rewrite (Hfin h).
        by rewrite <- app_assoc.
Qed.

Lemma dedup_domains_retained all kb :
  forall prev rest hashes n,
    all = prev ++ visited_pages kb ++ rest ->
    NoDup all.*1 ->
    (forall h, od_get h hashes = owner md5 prev h) ->
    exists hashes' n',
      dedup_domains md5 (hashes, n) kb
      = ((hashes', n'),
         map (fun kv => if String.eqb (fst kv) "_metadata" then kv
                        else (fst kv, set_pages (retained_pages md5 all (pages (snd kv)))
                                                (snd kv))) kb) /\
      (forall h, od_get h hashes' = owner md5 (prev ++ visited_pages kb) h).
Proof.
  induction kb as [|[domain r] kb IH]; intros prev rest hashes n Hall Hnd Hprev.
  - exists hashes, n. split; [done|]. intros h. unfold visited_pages. simpl.
    by rewrite app_nil_r.
  - unfold visited_pages in Hall |- *. rewrite bind_cons in Hall |- *.
    fold (visited_pages kb) in Hall |- *.
    cbn [dedup_domains map fst snd] in *.
    destruct (String.eqb domain "_metadata") eqn:Hmeta.
    + simpl in Hall |- *.
      destruct (IH prev rest hashes n Hall Hnd Hprev) as (H1 & n1 & Hrec & Hfin).
      exists H1, n1. by rewrite Hrec.
    + destruct (dedup_pages_retained all (pages r) prev (visited_pages kb ++ rest) hashes n)
        as (H1 & n1 & Hrun & Hmid); [by rewrite Hall, <- app_assoc | done | done |].
      destruct (IH (prev ++ (page_view <$> pages r)) rest H1 n1) as (H2 & n2 & Hrec & Hfin).
      * rewrite Hall. by rewrite <- !app_assoc.
      * done.
      * done.
      * exists H2, n2. rewrite Hrun, Hrec. split; [done|]. intros h. rewrite (Hfin h).
        by rewrite <- app_assoc.
Qed.

(** C4.  When no url is a key of two pages (as in every generator that a
    crawl produces), the pass leaves every page with the paragraphs that the
    rule of the specification retains: the first page in the order of the
    pass with a paragraph of a given hash owns that hash; a later paragraph
    with the same hash on the owning page is dropped; a paragraph whose hash
    is owned by a different page is retained. *)
Theorem dedup_keeps_first_owner g :
  NoDup (visited_pages (knowledge_base g)).*1 ->
  knowledge_base (remove_duplicate_content md5 g)
  = retained_knowledge_base md5 (knowledge_base g).
Proof.
  intros Hnd. unfold remove_duplicate_content. simpl.
  destruct (dedup_domains_retained (visited_pages (knowledge_base g)) (knowledge_base g)
              [] [] [] 0) as (H' & n' & Hrun & _); [by rewrite app_nil_r | done | done |].
  by rewrite Hrun.
Qed.

End DedupFacts.

(** Every generator that satisfies the invariant of the crawl has no url as
    the key of two pages. *)
Lemma visited_pages_urls kb :
  sublist (visited_pages kb).*1 (kb ≫= (fun kv => od_keys (pages (snd kv)))).
Proof.
  induction kb as [|[domain r] kb IH]; [done|].
  unfold visited_pages. rewrite !bind_cons, fmap_app. fold (visited_pages kb).
  apply sublist_app; [|done]. simpl.
  destruct (String.eqb domain "_metadata"); [apply sublist_nil_l|].
  unfold od_keys. rewrite <- list_fmap_compose. done.
Qed.

Lemma Inv_pages_unique cfg g :
  Inv cfg g -> NoDup (visited_pages (knowledge_base g)).*1.
Proof.
  intros HI. eapply sublist_NoDup; [|apply visited_pages_urls].
  apply (inv_stored_once cfg g HI).
Qed.

Lemma dedup_keeps_first_owner_witness :
  NoDup (visited_pages (knowledge_base Shared.before)).*1 /\
  knowledge_base (remove_duplicate_content (fun s => s) Shared.before) = Shared.after.
Proof.
  assert (NoDup (visited_pages (knowledge_base Shared.before)).*1) as Hnd.
  { vm_compute. repeat constructor; rewrite ?list_elem_of_singleton; set_solver. }
  split; [exact Hnd|].
  rewrite (dedup_keeps_first_owner (fun s => s) Shared.before Hnd).
  vm_compute. reflexivity.
Defined.

(** ** [clean_url] on the model of [urllib.parse] *)

#[local] Arguments String.append !_ _ /.
#[local] Arguments Ascii.eqb !_ !_ /.

(** Rewriting with an equation after both sides are put in normal form. *)
Ltac srewrite H :=
  let E := fresh "E" in pose proof H as E; simpl in E; simpl; rewrite E; clear E.

(** ** Strings *)

Section StringFacts.
Implicit Types (s a b : string) (c : ascii) (f g : ascii -> bool).

Lemma append_empty_r s : s +:+ "" = s.
Proof. induction s as [|c s IH]; simpl; [done | by rewrite IH]. Qed.

Lemma append_assoc a b s : (a +:+ b) +:+ s = a +:+ b +:+ s.
Proof. induction a as [|c a IH]; simpl; [done | by rewrite IH]. Qed.

Lemma append_empty a b : a +:+ b = "" -> a = "" /\ b = "".
Proof. destruct a; simpl; [done | discriminate]. Qed.

Lemma is_empty_true s : PyStr.is_empty s = true <-> s = "".
Proof. destruct s; simpl; split; done. Qed.

Lemma is_empty_false s : PyStr.is_empty s = false <-> s <> "".
Proof. destruct s; simpl; split; done. Qed.

Lemma all_chars_app f a b :
  all_chars f (a +:+ b) = all_chars f a && all_chars f b.
Proof. induction a as [|c a IH]; simpl; [done|]. by rewrite IH, andb_assoc. Qed.

Lemma all_chars_weaken f g s :
  (forall c, f c = true -> g c = true) ->
  all_chars f s = true -> all_chars g s = true.
Proof.
  intros Hfg. induction s as [|c s IH]; simpl; [done|].
  intros [Hc Hs]%andb_true_iff. by rewrite (Hfg c Hc), IH.
Qed.

Lemma all_chars_head f s : all_chars f s = true -> head_or_empty f s = true.
Proof. destruct s; simpl; [done|]. by intros [? _]%andb_true_iff. Qed.

Lemma head_or_empty_app f a b :
  head_or_empty f a = true -> head_or_empty f b = true ->
  head_or_empty f (a +:+ b) = true.
Proof. by destruct a. Qed.

Lemma head_or_empty_weaken f g s :
  (forall c, f c = true -> g c = true) ->
  head_or_empty f s = true -> head_or_empty g s = true.
Proof. intros Hfg. destruct s; simpl; [done | apply Hfg]. Qed.

Lemma startswith_app p s : PyStr.startswith p (p +:+ s) = true.
Proof. induction p as [|c p IH]; simpl; [done|]. by rewrite Ascii.eqb_refl. Qed.

Lemma after_prefix_app p s : PyStr.after_prefix p (p +:+ s) = Some s.
Proof. induction p as [|c p IH]; simpl; [done|]. by rewrite Ascii.eqb_refl. Qed.

Lemma after_prefix_startswith p s :
  PyStr.after_prefix p s = None <-> PyStr.startswith p s = false.
Proof.
  revert s. induction p as [|c p IH]; intros [|d s]; simpl; try done.
  destruct (Ascii.eqb c d); [apply IH | done].
Qed.

Lemma after_prefix_Some p s r : PyStr.after_prefix p s = Some r -> s = p +:+ r.
Proof.
  revert s. induction p as [|c p IH]; intros [|d s]; simpl; try done.
  - by intros [= ->].
  - by intros [= ->].
  - destruct (Ascii.eqb_spec c d) as [->|]; [|done]. intros H. by rewrite (IH _ H).
Qed.

(** [span_until] *)

Lemma span_until_app stop a b :
  all_chars (fun c => negb (stop c)) a = true ->
  head_or_empty stop b = true ->
  PyUrllib.span_until stop (a +:+ b) = (a, b).
Proof.
  intros Ha Hb. induction a as [|c a IH]; simpl in *.
  - destruct b as [|d b]; simpl in *; [done|]. by rewrite Hb.
  - apply andb_true_iff in Ha as [Hc Ha]. apply negb_true_iff in Hc.
    by rewrite Hc, (IH Ha).
Qed.

Lemma span_until_spec stop s a b :
  PyUrllib.span_until stop s = (a, b) ->
  s = a +:+ b /\ all_chars (fun c => negb (stop c)) a = true /\
  head_or_empty stop b = true.
Proof.
  revert a b. induction s as [|c s IH]; intros a b; simpl.
  - by intros [= <- <-].
  - destruct (stop c) eqn:Hc.
    + intros [= <- <-]. simpl. by rewrite Hc.
    + destruct (PyUrllib.span_until stop s) as [a' b'] eqn:E. intros [= <- <-].
      destruct (IH _ _ eq_refl) as (-> & Ha & Hb). simpl. by rewrite Hc, Ha.
Qed.

(** [split_once] *)

Lemma split_once_absent sep s :
  all_chars (is_not sep) s = true -> PyStr.split_once sep s = (s, None).
Proof.
  induction s as [|c s IH]; simpl; [done|]. unfold is_not at 1.
  intros [Hc Hs]%andb_true_iff. apply negb_true_iff in Hc. by rewrite Hc, (IH Hs).
Qed.

Lemma split_once_app sep a b :
  all_chars (is_not sep) a = true ->
  PyStr.split_once sep (a +:+ String sep b) = (a, Some b).
Proof.
  induction a as [|c a IH]; simpl.
  - by rewrite Ascii.eqb_refl.
  - unfold is_not at 1. intros [Hc Hs]%andb_true_iff. apply negb_true_iff in Hc.
    by rewrite Hc, (IH Hs).
Qed.

Lemma split_once_spec sep s a r :
  PyStr.split_once sep s = (a, r) ->
  all_chars (is_not sep) a = true /\
  match r with Some b => s = a +:+ String sep b | None => s = a end.
Proof.
  revert a r. induction s as [|c s IH]; intros a r; simpl.
  - by intros [= <- <-].
  - destruct (Ascii.eqb_spec c sep) as [->|Hne].
    + by intros [= <- <-].
    + destruct (PyStr.split_once sep s) as [a' r'] eqn:E. intros [= <- <-].
      destruct (IH _ _ eq_refl) as [Ha Hr]. simpl. unfold is_not at 1.
      apply Ascii.eqb_neq in Hne. rewrite Hne, Ha. split; [done|].
      destruct r'; by rewrite Hr at 1.
Qed.

Lemma contains_char_false sep s :
  PyStr.contains (String sep "") s = false <-> all_chars (is_not sep) s = true.
Proof.
  induction s as [|c s IH]; simpl; [done|]. unfold is_not at 1.
  rewrite (Ascii.eqb_sym c sep).
  destruct (Ascii.eqb sep c); simpl; [done | apply IH].
Qed.

Lemma contains_char_true sep s :
  PyStr.contains (String sep "") s = true <-> all_chars (is_not sep) s = false.
Proof.
  pose proof (contains_char_false sep s) as H.
  destruct (PyStr.contains _ s), (all_chars _ s); intuition congruence.
Qed.

(** [remove_chars] and [lstrip_by] *)

Lemma remove_chars_id f s :
  all_chars (fun c => negb (f c)) s = true -> PyUrllib.remove_chars f s = s.
Proof.
  induction s as [|c s IH]; simpl; [done|].
  intros [Hc Hs]%andb_true_iff. apply negb_true_iff in Hc. by rewrite Hc, (IH Hs).
Qed.

Lemma remove_chars_lacks f s :
  all_chars (fun c => negb (f c)) (PyUrllib.remove_chars f s) = true.
Proof.
  induction s as [|c s IH]; simpl; [done|].
  destruct (f c) eqn:Hc; simpl; [done|]. by rewrite Hc.
Qed.

Lemma lstrip_by_id f s :
  head_or_empty (fun c => negb (f c)) s = true -> PyStr.lstrip_by f s = s.
Proof. destruct s as [|c s]; simpl; [done|]. by intros ->%negb_true_iff. Qed.

Lemma lstrip_by_stops f s :
  head_or_empty (fun c => negb (f c)) (PyStr.lstrip_by f s) = true.
Proof.
  induction s as [|c s IH]; simpl; [done|].
  destruct (f c) eqn:Hc; simpl; [done|]. by rewrite Hc.
Qed.

End StringFacts.
(** ** The steps of [urlsplit] *)

Section SplitFacts.
Implicit Types (s a b rest : string) (c : ascii).

Lemma scheme_char_lower c :
  PyUrllib.is_scheme_char c = true ->
  PyUrllib.is_scheme_char (PyStr.lower_ascii c) = true /\
  PyStr.is_upper (PyStr.lower_ascii c) = false /\
  (PyStr.is_alpha c = true -> PyStr.is_alpha (PyStr.lower_ascii c) = true).
Proof. by destruct c as [[] [] [] [] [] [] [] []]; vm_compute. Qed.

Lemma scheme_char_plain c :
  PyUrllib.is_scheme_char c = true ->
  PyUrllib.is_char c ":" = false /\ is_safe c = true /\
  PyUrllib.is_c0_or_space c = false.
Proof. by destruct c as [[] [] [] [] [] [] [] []]; vm_compute. Qed.

Lemma alpha_scheme_char c :
  PyStr.is_alpha c = true ->
  PyUrllib.is_scheme_char c = true.
Proof. unfold PyUrllib.is_scheme_char. by intros ->. Qed.

Lemma lower_id s :
  all_chars (fun c => negb (PyStr.is_upper c)) s = true -> PyStr.lower s = s.
Proof.
  induction s as [|c s IH]; simpl; [done|].
  intros [Hc Hs]%andb_true_iff. apply negb_true_iff in Hc.
  unfold PyStr.lower_ascii. by rewrite Hc, (IH Hs).
Qed.

Lemma scheme_prefix_app a rest :
  all_chars PyUrllib.is_scheme_char a = true ->
  PyUrllib.scheme_prefix (a +:+ ":" +:+ rest) = Some (a, rest).
Proof.
  induction a as [|c a IH]; simpl in *; [done|].
  intros [Hc Ha]%andb_true_iff.
  destruct (scheme_char_plain c Hc) as (-> & _). by rewrite Hc, (IH Ha).
Qed.

Lemma scheme_prefix_spec s a rest :
  PyUrllib.scheme_prefix s = Some (a, rest) ->
  s = a +:+ ":" +:+ rest /\ all_chars PyUrllib.is_scheme_char a = true.
Proof.
  revert a. induction s as [|c s IH]; intros a; simpl; [done|].
  destruct (Ascii.eqb_spec c ":") as [->|Hne].
  - unfold PyUrllib.is_char. by intros [= <- <-].
  - unfold PyUrllib.is_char at 1. apply Ascii.eqb_neq in Hne. rewrite Hne.
    destruct (PyUrllib.is_scheme_char c) eqn:Hc; [|done].
    destruct (PyUrllib.scheme_prefix s) as [[a' r']|]; [|done].
    intros [= <- <-]. destruct (IH _ eq_refl) as [-> Ha]. simpl. by rewrite Hc, Ha.
Qed.

(** The test fails again when the text after a prefix is replaced by one
    that starts with no scheme character and no colon. *)
Lemma scheme_prefix_tail a t t' :
  PyUrllib.scheme_prefix (a +:+ t) = None ->
  head_or_empty (fun c => negb (PyUrllib.is_scheme_char c)
                          && negb (PyUrllib.is_char c ":")) t' = true ->
  PyUrllib.scheme_prefix (a +:+ t') = None.
Proof.
  intros Hnone Ht'. induction a as [|c a IH]; simpl in *.
  - destruct t' as [|d t']; simpl in *; [done|].
    apply andb_true_iff in Ht' as [Hs Hc]. apply negb_true_iff in Hs, Hc.
    by rewrite Hc, Hs.
  - destruct (PyUrllib.is_char c ":"); [done|].
    destruct (PyUrllib.is_scheme_char c); [|done].
    destruct (PyUrllib.scheme_prefix (a +:+ t)) as [[? ?]|]; [done|].
    by rewrite IH.
Qed.

Lemma is_scheme_spec sc :
  is_scheme sc = true ->
  sc <> "" /\ head_or_empty PyStr.is_alpha sc = true /\
  all_chars PyUrllib.is_scheme_char sc = true /\
  all_chars (fun c => negb (PyStr.is_upper c)) sc = true.
Proof.
  unfold is_scheme. intros [Hh Hall]%andb_true_iff.
  destruct sc as [|c sc]; [done|]. split; [done|]. split; [done|].
  split; (eapply all_chars_weaken; [|exact Hall]); by intros d [? ?]%andb_true_iff.
Qed.

Lemma split_scheme_scheme default sc rest :
  is_scheme sc = true ->
  PyUrllib.split_scheme default (sc +:+ ":" +:+ rest) = (sc, rest).
Proof.
  intros (Hne & Hh & Hall & Hlow)%is_scheme_spec.
  pose proof (scheme_prefix_app sc rest Hall) as E.
  destruct sc as [|c sc]; [done|].
  change (String c sc +:+ ":" +:+ rest) with (String c (sc +:+ ":" +:+ rest)) in *.
  unfold PyUrllib.split_scheme. cbv beta iota. simpl in Hh.
  by rewrite Hh, E, (lower_id _ Hlow).
Qed.

Lemma split_scheme_spec s sc rest :
  PyUrllib.split_scheme "" s = (sc, rest) ->
  (sc = "" /\ rest = s) \/
  (is_scheme sc = true /\ exists a, s = a +:+ ":" +:+ rest).
Proof.
  unfold PyUrllib.split_scheme. destruct s as [|c s]; [intros [= <- <-]; by left|].
  destruct (PyStr.is_alpha c) eqn:Hc; [|intros [= <- <-]; by left].
  destruct (PyUrllib.scheme_prefix (String c s)) as [[a r]|] eqn:E;
    [|intros [= <- <-]; by left].
  intros [= <- <-]. right. apply scheme_prefix_spec in E as [E Ha].
  split; [|by exists a].
  destruct a as [|d a]; [simpl in E; injection E as -> _; by vm_compute in Hc|].
  simpl in E. injection E as <- E.
  unfold is_scheme. simpl in Ha |- *. apply andb_true_iff in Ha as [Hd Ha].
  destruct (scheme_char_lower c Hd) as (H1 & H2 & H3). rewrite (H3 Hc), H1, H2. simpl.
  clear -Ha. induction a as [|c a IH]; simpl in *; [done|].
  apply andb_true_iff in Ha as [Hc Ha].
  destruct (scheme_char_lower c Hc) as (H1 & H2 & _). by rewrite H1, H2, (IH Ha).
Qed.

(** A text in which [urlsplit] finds no scheme has none either when what
    follows one of its prefixes is replaced by a query. *)
Lemma split_scheme_tail a t t' :
  PyUrllib.split_scheme "" (a +:+ t) = ("", a +:+ t) ->
  head_or_empty (fun c => negb (PyUrllib.is_scheme_char c)
                          && negb (PyUrllib.is_char c ":")) t' = true ->
  PyUrllib.split_scheme "" (a +:+ t') = ("", a +:+ t').
Proof.
  intros Hs Ht'. unfold PyUrllib.split_scheme in *.
  destruct a as [|c a].
  - simpl. destruct t' as [|d t']; [done|]. simpl in Ht'.
    apply andb_true_iff in Ht' as [Hd _]. apply negb_true_iff in Hd.
    destruct (PyStr.is_alpha d) eqn:Ha; [|done].
    by rewrite (alpha_scheme_char d Ha) in Hd.
  - change (String c a +:+ t) with (String c (a +:+ t)) in Hs.
    change (String c a +:+ t') with (String c (a +:+ t')).
    cbv beta iota in *. destruct (PyStr.is_alpha c) eqn:Hc; [|done].
    destruct (PyUrllib.scheme_prefix (String c (a +:+ t))) as [[x r]|] eqn:E.
    + injection Hs as Hl Hr. apply scheme_prefix_spec in E as [E _].
      destruct x; [|done]. simpl in E. injection E as -> _.
      by vm_compute in Hc.
    + change (String c (a +:+ t)) with (String c a +:+ t) in E.
      change (String c (a +:+ t')) with (String c a +:+ t') at 1.
      by rewrite (scheme_prefix_tail _ _ _ E Ht').
Qed.

(** [split_netloc] *)

Lemma split_netloc_slashes nl rest :
  all_chars is_netloc_char nl = true ->
  head_or_empty PyUrllib.is_netloc_delim rest = true ->
  PyUrllib.split_netloc ("//" +:+ nl +:+ rest) = (nl, rest).
Proof.
  intros Hnl Hrest. unfold PyUrllib.split_netloc.
  rewrite after_prefix_app. by apply span_until_app.
Qed.

Lemma split_netloc_none s :
  PyStr.startswith "//" s = false -> PyUrllib.split_netloc s = ("", s).
Proof.
  intros H. unfold PyUrllib.split_netloc.
  by apply after_prefix_startswith in H as ->.
Qed.

Lemma split_netloc_spec s nl rest :
  PyUrllib.split_netloc s = (nl, rest) ->
  all_chars is_netloc_char nl = true /\
  ((nl = "" /\ rest = s /\ PyStr.startswith "//" s = false) \/
   (s = "//" +:+ nl +:+ rest /\ head_or_empty PyUrllib.is_netloc_delim rest = true)).
Proof.
  unfold PyUrllib.split_netloc.
  destruct (PyStr.after_prefix "//" s) as [r|] eqn:E.
  - intros (-> & Hnl & Hrest)%span_until_spec. split; [done|]. right.
    split; [|done]. by apply after_prefix_Some in E.
  - intros [= <- <-]. split; [done|]. left. by apply after_prefix_startswith in E.
Qed.

(** [split_at] *)

Lemma split_at_absent sep s :
  all_chars (is_not sep) s = true -> PyUrllib.split_at sep s = (s, "").
Proof. intros H. unfold PyUrllib.split_at. by rewrite (split_once_absent _ _ H). Qed.

Lemma split_at_app sep a b :
  all_chars (is_not sep) a = true ->
  PyUrllib.split_at sep (a +:+ String sep b) = (a, b).
Proof. intros H. unfold PyUrllib.split_at. by rewrite (split_once_app _ _ _ H). Qed.

Lemma split_at_spec sep s a b :
  PyUrllib.split_at sep s = (a, b) ->
  all_chars (is_not sep) a = true /\ (s = a \/ s = a +:+ String sep b).
Proof.
  unfold PyUrllib.split_at. destruct (PyStr.split_once sep s) as [a' r] eqn:E.
  intros [= <- <-]. apply split_once_spec in E as [Ha Hr]. split; [done|].
  destruct r; [by right | by left].
Qed.

End SplitFacts.
(** [_splitparams] *)

Section ParamsFacts.
Implicit Types (s a b : string) (c : ascii).

Lemma contains_slash_app a b :
  all_chars (is_not "/") b = true ->
  PyStr.contains "/" (a +:+ b) = PyStr.contains "/" a.
Proof.
  intros Hb. destruct (PyStr.contains "/" a) eqn:Ha.
  - apply contains_char_true in Ha. apply contains_char_true.
    by rewrite all_chars_app, Ha.
  - apply contains_char_false in Ha. apply contains_char_false.
    by rewrite all_chars_app, Ha, Hb.
Qed.

Lemma split_last_segment_flat s :
  all_chars (is_not "/") s = true -> PyUrllib.split_last_segment s = ("", s).
Proof.
  destruct s as [|c s]; [done|]. intros H. cbn [PyUrllib.split_last_segment].
  simpl in H. apply andb_true_iff in H as [Hc Hs].
  apply contains_char_false in Hs as ->.
  unfold is_not in Hc. apply negb_true_iff in Hc. unfold PyUrllib.is_char. by rewrite Hc.
Qed.

Lemma split_last_segment_spec s d l :
  PyUrllib.split_last_segment s = (d, l) ->
  s = d +:+ l /\ all_chars (is_not "/") l = true /\
  PyUrllib.split_last_segment d = (d, "").
Proof.
  revert d l. induction s as [|c s IH]; intros d l.
  - by intros [= <- <-].
  - cbn [PyUrllib.split_last_segment].
    destruct (PyStr.contains "/" s) eqn:Hs.
    + destruct (PyUrllib.split_last_segment s) as [d' l'] eqn:E. intros [= <- <-].
      destruct (IH _ _ eq_refl) as (-> & Hl & Hd). split; [done|]. split; [done|].
      cbn [PyUrllib.split_last_segment].
      rewrite (contains_slash_app d' l' Hl) in Hs. by rewrite Hs, Hd.
    + apply contains_char_false in Hs.
      destruct (PyUrllib.is_char c "/") eqn:Hc.
      * intros [= <- <-]. apply Ascii.eqb_eq in Hc as ->. by vm_compute.
      * intros [= <- <-]. simpl. unfold is_not at 1.
        unfold PyUrllib.is_char in Hc. by rewrite Hc, Hs.
Qed.

Lemma split_last_segment_app a b :
  all_chars (is_not "/") b = true ->
  PyUrllib.split_last_segment (a +:+ b)
  = (fst (PyUrllib.split_last_segment a), snd (PyUrllib.split_last_segment a) +:+ b).
Proof.
  intros Hb. induction a as [|c a IH].
  - simpl. by rewrite (split_last_segment_flat _ Hb).
  - change (String c a +:+ b) with (String c (a +:+ b)).
    cbn [PyUrllib.split_last_segment]. rewrite (contains_slash_app a b Hb).
    destruct (PyStr.contains "/" a).
    + rewrite IH. by destruct (PyUrllib.split_last_segment a).
    + by destruct (PyUrllib.is_char c "/").
Qed.

Lemma split_last_segment_slash s :
  PyUrllib.split_last_segment (String "/" s)
  = (String "/" (fst (PyUrllib.split_last_segment s)),
     snd (PyUrllib.split_last_segment s)).
Proof.
  cbn [PyUrllib.split_last_segment]. destruct (PyStr.contains "/" s) eqn:Hs.
  - by destruct (PyUrllib.split_last_segment s).
  - apply contains_char_false in Hs. by rewrite (split_last_segment_flat _ Hs).
Qed.

(** A path and its parameters are found again in [path;params]. *)
Lemma split_params_joined pa pr :
  PyStr.contains ";" (snd (PyUrllib.split_last_segment pa)) = false ->
  all_chars (is_not "/") pr = true ->
  PyUrllib.split_params (pa +:+ ";" +:+ pr) = (pa, pr).
Proof.
  intros Hseg Hpr. unfold PyUrllib.split_params.
  rewrite split_last_segment_app by (by simpl; rewrite Hpr).
  destruct (PyUrllib.split_last_segment pa) as [d l] eqn:E. cbn [fst snd] in *.
  apply contains_char_false in Hseg.
  srewrite (split_once_app ";" l pr Hseg).
  by apply split_last_segment_spec in E as (-> & _).
Qed.

Lemma split_params_none pa :
  PyStr.contains ";" (snd (PyUrllib.split_last_segment pa)) = false ->
  PyUrllib.split_params pa = (pa, "").
Proof.
  intros Hseg. unfold PyUrllib.split_params.
  destruct (PyUrllib.split_last_segment pa) as [d l] eqn:E. cbn [fst snd] in *.
  apply contains_char_false in Hseg. by rewrite (split_once_absent _ _ Hseg).
Qed.

Lemma split_params_spec s pa pr :
  PyUrllib.split_params s = (pa, pr) ->
  PyStr.contains ";" (snd (PyUrllib.split_last_segment pa)) = false /\
  all_chars (is_not "/") pr = true /\
  ((s = pa /\ pr = "") \/ s = pa +:+ ";" +:+ pr).
Proof.
  unfold PyUrllib.split_params.
  destruct (PyUrllib.split_last_segment s) as [d l] eqn:E.
  destruct (PyStr.split_once ";" l) as [a r] eqn:E'.
  apply split_last_segment_spec in E as (-> & Hl & Hd).
  apply split_once_spec in E' as [Ha Hr]. destruct r as [b|].
  - intros [= <- <-]. subst l. rewrite all_chars_app in Hl.
    apply andb_true_iff in Hl as [Hla Hlb]. simpl in Hlb.
    split; [|split; [done|]].
    + rewrite (split_last_segment_app d a Hla), Hd. simpl.
      by apply contains_char_false.
    + right. by rewrite append_assoc.
  - intros [= <- <-]. subst l. split; [|split; [done|by left]].
    rewrite (split_last_segment_app d a Hl), Hd. simpl. by apply contains_char_false.
Qed.

End ParamsFacts.
(** ** What [urlparse] returns *)

Section ParseFacts.
Implicit Types (s a b : string) (c : ascii).

Lemma with_params_empty pa pr : with_params pa pr = "" -> pa = "" /\ pr = "".
Proof.
  unfold with_params. destruct pr as [|c pr]; simpl; [done|].
  by intros [_ ?]%append_empty.
Qed.

Lemma with_params_slash pa pr :
  String "/" (with_params pa pr) = with_params (String "/" pa) pr.
Proof. unfold with_params. by destruct (negb (PyStr.is_empty pr)). Qed.

Lemma with_params_head f pa pr :
  pa <> "" -> head_or_empty f (with_params pa pr) = head_or_empty f pa.
Proof. unfold with_params. destruct pa; [done|]. by destruct (negb _). Qed.

(** The last three steps of [urlparse], on the text [r1] that follows the
    netloc. *)
Lemma parse_tail sc r1 r2 r3 fr qu pa pr :
  PyUrllib.split_at "#" r1 = (r2, fr) ->
  PyUrllib.split_at "?" r2 = (r3, qu) ->
  (if mem sc PyUrllib.uses_params && PyStr.contains ";" r3
   then PyUrllib.split_params r3 else (r3, "")) = (pa, pr) ->
  (forall f, all_chars f r1 = true -> all_chars f pa = true /\ all_chars f pr = true) /\
  all_chars is_path_char pa = true /\ all_chars is_path_char pr = true /\
  all_chars (is_not "/") pr = true /\
  (if mem sc PyUrllib.uses_params
   then PyStr.contains ";" (snd (PyUrllib.split_last_segment pa)) = false
   else pr = "") /\
  (exists t, r1 = with_params pa pr +:+ t /\ head_or_empty is_tail_mark t = true).
Proof.
  intros [H2 Hr1]%split_at_spec [H3 Hr2]%split_at_spec Hp.
  assert (exists t, r1 = r3 +:+ t /\
            head_or_empty (fun c => PyUrllib.is_char c "?" || PyUrllib.is_char c "#") t
            = true) as (t0 & Ht0 & Hh0).
  { destruct Hr2 as [->| ->], Hr1 as [->| ->].
    - exists "". by rewrite append_empty_r.
    - by exists (String "#" fr).
    - by exists (String "?" qu).
    - exists (String "?" qu +:+ String "#" fr). by rewrite append_assoc. }
  assert (all_chars is_path_char r3 = true) as Hpath.
  { assert (all_chars (is_not "#") r3 = true) as H3'.
    { destruct Hr2 as [->| ->]; [done|].
      rewrite all_chars_app in H2. by apply andb_true_iff in H2 as [? _]. }
    clear -H3 H3'. induction r3 as [|c r3 IH]; simpl in *; [done|].
    apply andb_true_iff in H3 as [? ?], H3' as [? ?]. unfold is_path_char at 1.
    rewrite IH by done. by rewrite andb_true_r, andb_true_iff. }
  assert (all_chars (is_not "/") pr = true /\
          (if mem sc PyUrllib.uses_params
           then PyStr.contains ";" (snd (PyUrllib.split_last_segment pa)) = false
           else pr = "") /\
          ((r3 = pa /\ pr = "") \/ r3 = pa +:+ ";" +:+ pr)) as (Hflat & Hsplit & Hr3).
  { destruct (mem sc PyUrllib.uses_params) eqn:Hm; simpl in Hp.
    - destruct (PyStr.contains ";" r3) eqn:Hc.
      + by apply split_params_spec in Hp as (? & ? & ?).
      + injection Hp as <- <-. split; [done|]. split; [|by left].
        destruct (PyUrllib.split_last_segment r3) as [d l] eqn:E.
        apply split_last_segment_spec in E as (-> & _ & _). simpl.
        apply contains_char_false in Hc. apply contains_char_false.
        rewrite all_chars_app in Hc. by apply andb_true_iff in Hc as [_ ?].
    - injection Hp as <- <-. split; [done|]. split; [done|by left]. }
  assert (forall f, all_chars f r3 = true -> all_chars f pa = true /\ all_chars f pr = true)
    as Hparts.
  { intros f Hf. destruct Hr3 as [[-> ->]| ->]; [done|].
    rewrite all_chars_app in Hf. apply andb_true_iff in Hf as [? Hf].
    simpl in Hf. by apply andb_true_iff in Hf as [_ ?]. }
  split; [|split; [by apply Hparts|split; [by apply Hparts|split; [done|split; [done|]]]]].
  - intros f Hf. apply Hparts. rewrite Ht0, all_chars_app in Hf.
    by apply andb_true_iff in Hf as [? _].
  - unfold with_params. destruct Hr3 as [[-> ->]| ->].
    + exists t0. split; [done|]. eapply head_or_empty_weaken; [|exact Hh0].
      intros c. unfold is_tail_mark. intros [->| ->]%orb_true_iff; by rewrite ?orb_true_r.
    + destruct pr as [|c pr]; simpl.
      * exists (String ";" t0). by rewrite Ht0, append_assoc.
      * exists t0. rewrite Ht0. split; [by rewrite !append_assoc|].
        eapply head_or_empty_weaken; [|exact Hh0].
        intros d. unfold is_tail_mark.
        intros [->| ->]%orb_true_iff; by rewrite ?orb_true_r.
Qed.

(** A parsed path that follows a netloc slot is empty or starts with a
    slash. *)
Lemma rooted_tail r1 pa pr t :
  r1 = with_params pa pr +:+ t ->
  head_or_empty is_tail_mark t = true ->
  all_chars is_path_char pa = true ->
  head_or_empty PyUrllib.is_netloc_delim r1 = true ->
  head_or_empty (PyUrllib.is_char "/") pa = true /\ (pa = "" -> pr = "").
Proof.
  intros -> Ht Hpa Hr1. destruct pa as [|c pa].
  - split; [done|]. intros _. unfold with_params in Hr1.
    destruct pr as [|d pr]; [done|]. by vm_compute in Hr1.
  - split; [|done]. unfold with_params in Hr1.
    assert (PyUrllib.is_netloc_delim c = true) as Hc by (by destruct (negb _)).
    simpl in Hpa |- *. apply andb_true_iff in Hpa as [Hpc _]. clear -Hc Hpc.
    by destruct c as [[] [] [] [] [] [] [] []]; vm_compute in *.
Qed.

Lemma sanitize_safe u : all_chars is_safe (PyUrllib.sanitize u) = true.
Proof. apply remove_chars_lacks. Qed.

Lemma sanitize_head u :
  head_or_empty (fun c => negb (PyUrllib.is_c0_or_space c)) (PyUrllib.sanitize u) = true.
Proof.
  unfold PyUrllib.sanitize.
  pose proof (lstrip_by_stops PyUrllib.is_c0_or_space u) as H.
  destruct (PyStr.lstrip_by _ u) as [|c s]; [done|]. simpl in *.
  assert (PyUrllib.is_unsafe c = false) as ->; [|done].
  clear -H. by destruct c as [[] [] [] [] [] [] [] []]; vm_compute in *.
Qed.

Lemma sanitize_id s :
  all_chars is_safe s = true ->
  head_or_empty (fun c => negb (PyUrllib.is_c0_or_space c)) s = true ->
  PyUrllib.sanitize s = s.
Proof.
  intros Hs Hh. unfold PyUrllib.sanitize.
  rewrite (lstrip_by_id _ _ Hh). by apply remove_chars_id.
Qed.

Lemma head_or_empty_swap f a t t' :
  head_or_empty f (a +:+ t) = true -> head_or_empty f t' = true ->
  head_or_empty f (a +:+ t') = true.
Proof. by destruct a. Qed.

Lemma urlparse_ok u : ParsedOk (PyUrllib.urlparse u).
Proof.
  unfold PyUrllib.urlparse, PyUrllib.urlparse_with.
  pose proof (sanitize_safe u) as Hsafe. pose proof (sanitize_head u) as Hhead.
  destruct (PyUrllib.split_scheme "" (PyUrllib.sanitize u)) as [sc r0] eqn:E0.
  destruct (PyUrllib.split_netloc r0) as [nl r1] eqn:E1.
  destruct (PyUrllib.split_at "#" r1) as [r2 fr] eqn:E2.
  destruct (PyUrllib.split_at "?" r2) as [r3 qu] eqn:E3.
  destruct (if mem sc PyUrllib.uses_params && PyStr.contains ";" r3
            then PyUrllib.split_params r3 else (r3, "")) as [pa pr] eqn:E4.
  destruct (parse_tail sc r1 r2 r3 fr qu pa pr E2 E3 E4)
    as (Hparts & Hpa & Hpr & Hflat & Hsplit & t & Ht & Hth).
  apply split_scheme_spec in E0 as Hsc.
  apply split_netloc_spec in E1 as [Hnl Hnet].
  assert (all_chars is_safe r0 = true) as Hsafe0.
  { destruct Hsc as [[_ ->]|[_ [a Ha]]]; [done|]. rewrite Ha, all_chars_app in Hsafe.
    by apply andb_true_iff in Hsafe as [_ Hsafe]. }
  assert (all_chars is_safe nl = true /\ all_chars is_safe r1 = true) as [Hsafen Hsafe1].
  { destruct Hnet as [(-> & -> & _)|[Hr0 _]]; [done|].
    rewrite Hr0 in Hsafe0. simpl in Hsafe0. rewrite all_chars_app in Hsafe0.
    by apply andb_true_iff in Hsafe0. }
  destruct (Hparts _ Hsafe1) as [Hsafepa Hsafepr].
  split; simpl.
  - destruct Hsc as [[-> _]|[? _]]; [by left | by right].
  - done.
  - done.
  - done.
  - done.
  - done.
  - done.
  - done.
  - intros Hne. destruct Hnet as [(-> & _)|[_ Hr1]]; [done|].
    by apply (rooted_tail r1 pa pr t).
  - done.
  - intros -> -> t' Ht'.
    destruct Hsc as [[_ ->]|[Hs _]]; [|done].
    destruct Hnet as [(_ & -> & _)|[Hr0 Hr1]].
    + rewrite Ht in E0, Hhead. split.
      * apply (split_scheme_tail _ _ _ E0).
        eapply head_or_empty_weaken; [|exact Ht']. intros c Hc.
        apply Ascii.eqb_eq in Hc as <-. by vm_compute.
      * apply (head_or_empty_swap _ _ _ _ Hhead).
        eapply head_or_empty_weaken; [|exact Ht']. intros c Hc.
        apply Ascii.eqb_eq in Hc as <-. by vm_compute.
    + destruct (rooted_tail r1 pa pr t Ht Hth Hpa Hr1) as [Hroot Hemp].
      destruct pa as [|c pa].
      * rewrite (Hemp eq_refl). simpl. destruct t' as [|d t']; [done|].
        cbn [head_or_empty] in Ht'. apply Ascii.eqb_eq in Ht' as <-. by vm_compute.
      * cbn [head_or_empty] in Hroot. apply Ascii.eqb_eq in Hroot as <-.
        unfold with_params. by destruct (negb _).
Qed.

End ParseFacts.
(** ** Parsing what [urlunparse] builds *)

Section UnparseFacts.
Implicit Types (s a b sc nl pa pr q : string) (c : ascii).

Lemma urlunsplit_netloc sc nl url q :
  writes_netloc sc nl url = true ->
  PyUrllib.urlunsplit sc nl url q ""
  = scheme_colon sc +:+ "//" +:+ nl +:+ rooted url +:+ query_tail q.
Proof.
  intros H. unfold PyUrllib.urlunsplit. unfold writes_netloc in H. rewrite H.
  unfold scheme_colon, query_tail, rooted, needs_slash.
  destruct (negb (PyStr.is_empty sc)), (negb (PyStr.is_empty q));
    cbn [negb PyStr.is_empty]; rewrite ?append_assoc, ?append_empty_r; try done.
  all: simpl; by rewrite ?append_assoc.
Qed.

Lemma urlunsplit_plain sc nl url q :
  writes_netloc sc nl url = false ->
  PyUrllib.urlunsplit sc nl url q "" = scheme_colon sc +:+ url +:+ query_tail q.
Proof.
  intros H. unfold PyUrllib.urlunsplit. unfold writes_netloc in H. rewrite H.
  unfold scheme_colon, query_tail.
  destruct (negb (PyStr.is_empty sc)), (negb (PyStr.is_empty q));
    cbn [negb PyStr.is_empty]; rewrite ?append_assoc, ?append_empty_r; try done.
Qed.

Lemma rooted_head url : head_or_empty (PyUrllib.is_char "/") (rooted url) = true.
Proof.
  unfold rooted, needs_slash, PyUrllib.is_char. destruct url as [|c url]; [done|].
  cbn [PyStr.is_empty PyStr.startswith negb andb].
  destruct (Ascii.eqb "/" c) eqn:E; cbn [negb head_or_empty]; [done|].
  apply Ascii.eqb_refl.
Qed.

Lemma rooted_id url :
  head_or_empty (PyUrllib.is_char "/") url = true -> rooted url = url.
Proof.
  unfold rooted, needs_slash, PyUrllib.is_char. destruct url as [|c url]; [done|].
  cbn [PyStr.is_empty PyStr.startswith negb andb head_or_empty]. by intros ->.
Qed.

Lemma rooted_slashes url :
  PyStr.startswith "//" url = false -> PyStr.startswith "//" (rooted url) = false.
Proof.
  unfold rooted. destruct (needs_slash url) eqn:N; [|done]. intros _.
  unfold needs_slash in N. destruct url as [|c url]; [done|].
  cbn [PyStr.is_empty PyStr.startswith negb andb] in N.
  change ("/" +:+ String c url) with (String "/" (String c url)).
  cbn [PyStr.startswith]. rewrite Ascii.eqb_refl.
  by destruct (Ascii.eqb "/" c).
Qed.

Lemma rooted_with_params pa pr :
  rooted (with_params pa pr)
  = with_params (if needs_slash (with_params pa pr) then String "/" pa else pa) pr.
Proof.
  unfold rooted. destruct (needs_slash (with_params pa pr)); [|done].
  apply with_params_slash.
Qed.

Lemma startswith_slashes_params pa pr :
  PyStr.startswith "//" pa = false ->
  PyStr.startswith "//" (with_params pa pr) = false.
Proof.
  unfold with_params. destruct (negb (PyStr.is_empty pr)); [|done].
  destruct pa as [|c [|d pa]]; [done| |done].
  intros _. change (String c "" +:+ ";" +:+ pr) with (String c (String ";" pr)).
  cbn [PyStr.startswith]. destruct (Ascii.eqb "/" c); [|done]. by vm_compute.
Qed.

Lemma startswith_slashes_tail s t :
  PyStr.startswith "//" s = false ->
  head_or_empty (PyUrllib.is_char "?") t = true ->
  PyStr.startswith "//" (s +:+ t) = false.
Proof.
  intros Hs Ht.
  assert (forall t', head_or_empty (PyUrllib.is_char "?") t' = true ->
                     PyStr.startswith "/" t' = false) as Hq.
  { intros [|e t'] He; [done|]. cbn [head_or_empty] in He.
    apply Ascii.eqb_eq in He as <-. by vm_compute. }
  destruct s as [|c [|d s]]; [| |done].
  - change ("" +:+ t) with t. destruct t as [|e t]; [done|].
    cbn [head_or_empty] in Ht. apply Ascii.eqb_eq in Ht as <-. by vm_compute.
  - change (String c "" +:+ t) with (String c t).
    cbn [PyStr.startswith]. destruct (Ascii.eqb "/" c); [|done]. by apply Hq.
Qed.

Lemma query_char_plain c :
  is_query_char c = true ->
  is_not "#" c = true /\ is_not "?" c = true /\ is_safe c = true.
Proof. by destruct c as [[] [] [] [] [] [] [] []]; vm_compute. Qed.

Lemma query_tail_head q : head_or_empty (PyUrllib.is_char "?") (query_tail q) = true.
Proof. unfold query_tail. by destruct q. Qed.

(** The last three steps of [urlparse] on [path;params?query]. *)
Lemma parse_rest sc pa pr q :
  all_chars is_path_char pa = true ->
  all_chars is_path_char pr = true ->
  all_chars (is_not "/") pr = true ->
  (if mem sc PyUrllib.uses_params
   then PyStr.contains ";" (snd (PyUrllib.split_last_segment pa)) = false
   else pr = "") ->
  all_chars is_query_char q = true ->
  PyUrllib.split_at "#" (with_params pa pr +:+ query_tail q)
  = (with_params pa pr +:+ query_tail q, "") /\
  PyUrllib.split_at "?" (with_params pa pr +:+ query_tail q) = (with_params pa pr, q) /\
  (if mem sc PyUrllib.uses_params && PyStr.contains ";" (with_params pa pr)
   then PyUrllib.split_params (with_params pa pr) else (with_params pa pr, ""))
  = (pa, pr).
Proof.
  intros Hpa Hpr Hflat Hsplit Hq.
  assert (all_chars is_path_char (with_params pa pr) = true) as HP.
  { unfold with_params. destruct (negb _); [|done].
    rewrite all_chars_app, Hpa. simpl. by rewrite Hpr. }
  assert (all_chars (is_not "#") (with_params pa pr) = true /\
          all_chars (is_not "?") (with_params pa pr) = true) as [HP1 HP2].
  { split; (eapply all_chars_weaken; [|exact HP]); intros c;
      unfold is_path_char; by intros [? ?]%andb_true_iff. }
  split; [|split].
  - apply split_at_absent. rewrite all_chars_app, HP1. unfold query_tail.
    destruct (negb _); [|done]. simpl. eapply all_chars_weaken; [|exact Hq].
    intros c Hc. by apply query_char_plain in Hc as (? & _).
  - unfold query_tail. destruct q as [|c q]; simpl.
    + rewrite append_empty_r. by apply split_at_absent.
    + by srewrite (split_at_app "?" (with_params pa pr) (String c q) HP2).
  - unfold with_params in *. destruct (mem sc PyUrllib.uses_params).
    + destruct pr as [|c pr]; simpl.
      * destruct (PyStr.contains ";" pa); [|done]. by apply split_params_none.
      * assert (PyStr.contains ";" (pa +:+ String ";" (String c pr)) = true) as ->.
        { apply contains_char_true. rewrite all_chars_app. simpl.
          by rewrite andb_false_r. }
        by srewrite (split_params_joined pa (String c pr) Hsplit Hflat).
    + by subst pr.
Qed.

Lemma urlparse_steps s sc r0 nl r1 pa pr q :
  PyUrllib.sanitize s = s ->
  PyUrllib.split_scheme "" s = (sc, r0) ->
  PyUrllib.split_netloc r0 = (nl, r1) ->
  r1 = with_params pa pr +:+ query_tail q ->
  all_chars is_path_char pa = true ->
  all_chars is_path_char pr = true ->
  all_chars (is_not "/") pr = true ->
  (if mem sc PyUrllib.uses_params
   then PyStr.contains ";" (snd (PyUrllib.split_last_segment pa)) = false
   else pr = "") ->
  all_chars is_query_char q = true ->
  PyUrllib.urlparse s = Urllib.mkParseResult sc nl pa pr q "".
Proof.
  intros Hsan Hsc Hnl -> Hpa Hpr Hflat Hsplit Hq.
  destruct (parse_rest sc pa pr q Hpa Hpr Hflat Hsplit Hq) as (E2 & E3 & E4).
  unfold PyUrllib.urlparse, PyUrllib.urlparse_with.
  by rewrite Hsan, Hsc, Hnl, E2, E3, E4.
Qed.

End UnparseFacts.
Section Reparse.
Implicit Types (s a b sc nl pa pr q : string) (c : ascii).

Lemma is_scheme_safe sc :
  is_scheme sc = true ->
  all_chars is_safe sc = true /\
  head_or_empty (fun c => negb (PyUrllib.is_c0_or_space c)) sc = true.
Proof.
  intros (_ & _ & Hall & _)%is_scheme_spec. split.
  - eapply all_chars_weaken; [|exact Hall]. intros c Hc.
    by apply scheme_char_plain in Hc as (_ & ? & _).
  - apply all_chars_head. eapply all_chars_weaken; [|exact Hall]. intros c Hc.
    apply scheme_char_plain in Hc as (_ & _ & ->). done.
Qed.

Lemma scheme_colon_scheme sc rest :
  is_scheme sc = true -> scheme_colon sc +:+ rest = sc +:+ ":" +:+ rest.
Proof.
  intros (Hne & _)%is_scheme_spec. unfold scheme_colon.
  destruct sc; [done|]. cbn [PyStr.is_empty negb]. by rewrite append_assoc.
Qed.

Lemma with_params_chars f pa pr :
  f ";"%char = true ->
  all_chars f pa = true -> all_chars f pr = true ->
  all_chars f (with_params pa pr) = true.
Proof.
  intros Hf Hpa Hpr. unfold with_params. destruct (negb _); [|done].
  rewrite all_chars_app, Hpa. cbn [String.append all_chars]. by rewrite Hf, Hpr.
Qed.

Lemma query_tail_safe q :
  all_chars is_query_char q = true -> all_chars is_safe (query_tail q) = true.
Proof.
  intros Hq. unfold query_tail. destruct (negb _); [|done].
  change ("?" +:+ q) with (String "?" q). cbn [all_chars].
  apply andb_true_iff. split; [by vm_compute|].
  eapply all_chars_weaken; [|exact Hq]. intros c Hc.
  by apply query_char_plain in Hc as (_ & _ & ?).
Qed.

(** The url that [clean_url] builds from a parsed url and a query parses to
    the same scheme, netloc, parameters and query, and to a path from which
    [urlunparse] builds the same url again; the one exception is a parsed
    url with no netloc and a path that starts with two slashes. *)
Lemma reparse p q :
  ParsedOk p ->
  all_chars is_query_char q = true ->
  (Urllib.netloc p = "" -> PyStr.startswith "//" (Urllib.path p) = false) ->
  exists pa',
    PyUrllib.urlparse (PyUrllib.urlunparse (rebuild p q))
    = Urllib.mkParseResult (Urllib.scheme p) (Urllib.netloc p) pa' (Urllib.params p) q "" /\
    PyUrllib.urlunparse
      (Urllib.mkParseResult (Urllib.scheme p) (Urllib.netloc p) pa' (Urllib.params p) q "")
    = PyUrllib.urlunparse (rebuild p q).
Proof.
  destruct p as [sc nl pa pr qu fr].
  intros [Hsc Hnl Hpa Hpr Hflat Hsn Hsp Hsr Hroot Hsplit Hrel] Hq Hclass.
  cbn [Urllib.scheme Urllib.netloc Urllib.path Urllib.params] in *.
  unfold PyUrllib.urlunparse, rebuild.
  cbn [Urllib.scheme Urllib.netloc Urllib.path Urllib.params Urllib.query
       Urllib.fragment].
  fold (with_params pa pr).
  assert (all_chars is_safe (scheme_colon sc) = true) as Hsafe_sc.
  { destruct Hsc as [->|Hs]; [done|]. rewrite <- (append_empty_r (scheme_colon sc)).
    rewrite (scheme_colon_scheme sc "" Hs), all_chars_app.
    by apply is_scheme_safe in Hs as [-> _]. }
  destruct (writes_netloc sc nl (with_params pa pr)) eqn:W.
  - (* the netloc slot is written *)
    set (pa' := if needs_slash (with_params pa pr) then String "/" pa else pa).
    exists pa'. fold (with_params pa' pr).
    assert (rooted (with_params pa pr) = with_params pa' pr) as Hrooted
      by apply rooted_with_params.
    assert (writes_netloc sc nl (with_params pa' pr) = true) as W'.
    { unfold writes_netloc in *. apply orb_true_iff in W as [->|W]; [done|].
      apply andb_true_iff in W as [-> W]. apply negb_true_iff in W.
      rewrite <- Hrooted, (rooted_slashes _ W). by rewrite orb_true_r. }
    rewrite (urlunsplit_netloc _ _ _ _ W), (urlunsplit_netloc _ _ _ _ W').
    rewrite (rooted_id (with_params pa' pr))
      by (rewrite <- Hrooted; apply rooted_head).
    rewrite Hrooted. split; [|done].
    assert (all_chars is_path_char pa' = true) as Hpa'.
    { unfold pa'. destruct (needs_slash _); [|done]. cbn [all_chars].
      by rewrite Hpa. }
    assert (all_chars is_safe pa' = true) as Hsp'.
    { unfold pa'. destruct (needs_slash _); [|done]. cbn [all_chars].
      by rewrite Hsp. }
    assert (head_or_empty PyUrllib.is_netloc_delim
              (with_params pa' pr +:+ query_tail q) = true) as Hhead.
    { apply head_or_empty_app.
      - rewrite <- Hrooted. eapply head_or_empty_weaken; [|apply rooted_head].
        intros c Hc. apply Ascii.eqb_eq in Hc as <-. by vm_compute.
      - eapply head_or_empty_weaken; [|apply query_tail_head].
        intros c Hc. apply Ascii.eqb_eq in Hc as <-. by vm_compute. }
    apply (urlparse_steps _ sc ("//" +:+ nl +:+ with_params pa' pr +:+ query_tail q)
             nl (with_params pa' pr +:+ query_tail q)); try done.
    + apply sanitize_id.
      * rewrite all_chars_app, Hsafe_sc.
        change ("//" +:+ nl +:+ with_params pa' pr +:+ query_tail q)
          with (String "/" (String "/" (nl +:+ with_params pa' pr +:+ query_tail q))).
        cbn [all_chars andb]. rewrite !all_chars_app, Hsn.
        rewrite with_params_chars by done. by rewrite query_tail_safe.
      * destruct Hsc as [->|Hs]; [done|].
        apply head_or_empty_app; [|done].
        rewrite <- (append_empty_r (scheme_colon sc)), (scheme_colon_scheme sc "" Hs).
        apply is_scheme_safe in Hs as [_ Hs]. by destruct sc.
    + destruct Hsc as [->|Hs]; [done|]. rewrite (scheme_colon_scheme _ _ Hs).
      by apply split_scheme_scheme.
    + by apply split_netloc_slashes.
    + unfold pa'. destruct (mem sc PyUrllib.uses_params); [|done].
      destruct (needs_slash _); [|done]. by rewrite split_last_segment_slash.
  - (* the path follows the scheme *)
    exists pa. fold (with_params pa pr). split; [|done].
    rewrite (urlunsplit_plain _ _ _ _ W).
    assert (nl = "") as ->.
    { unfold writes_netloc in W. apply orb_false_iff in W as [W _].
      by destruct nl. }
    pose proof (query_tail_head q) as Hqt.
    apply (urlparse_steps _ sc (with_params pa pr +:+ query_tail q) ""
             (with_params pa pr +:+ query_tail q)); try done.
    + apply sanitize_id.
      * rewrite !all_chars_app, Hsafe_sc, with_params_chars by done.
        by rewrite query_tail_safe.
      * destruct Hsc as [->|Hs]; [exact (proj2 (Hrel eq_refl eq_refl _ Hqt))|].
        rewrite (scheme_colon_scheme _ _ Hs).
        apply is_scheme_safe in Hs as [_ Hs]. by destruct sc.
    + destruct Hsc as [->|Hs]; [exact (proj1 (Hrel eq_refl eq_refl _ Hqt))|].
      rewrite (scheme_colon_scheme _ _ Hs). by apply split_scheme_scheme.
    + apply split_netloc_none, startswith_slashes_tail; [|done].
      apply startswith_slashes_params. by apply Hclass.
Qed.

End Reparse.
(** ** Query strings *)

Section QueryFacts.
Implicit Types (s a b : string) (c : ascii) (d : list (string * list string)).

Lemma quote_plus_cons c s :
  PyUrllib.quote_plus (String c s)
  = PyUrllib.quote_plus (String c "") +:+ PyUrllib.quote_plus s.
Proof.
  cbn [PyUrllib.quote_plus].
  destruct (PyUrllib.is_always_safe c); [done|].
  by destruct (PyUrllib.is_char c " ").
Qed.

Lemma quote_plus_char c :
  all_chars is_quoted_char (PyUrllib.quote_plus (String c "")) = true /\
  PyUrllib.quote_plus (String c "") <> "" /\
  forall s, PyUrllib.unquote_plus (PyUrllib.quote_plus (String c "") +:+ s)
            = String c (PyUrllib.unquote_plus s).
Proof. by destruct c as [[] [] [] [] [] [] [] []]. Qed.

Lemma quote_plus_chars s : all_chars is_quoted_char (PyUrllib.quote_plus s) = true.
Proof.
  induction s as [|c s IH]; [done|]. rewrite quote_plus_cons, all_chars_app, IH.
  by destruct (quote_plus_char c) as [-> _].
Qed.

Lemma quote_plus_empty s : PyUrllib.quote_plus s = "" -> s = "".
Proof.
  destruct s as [|c s]; [done|]. rewrite quote_plus_cons.
  intros [H _]%append_empty. by destruct (quote_plus_char c) as (_ & ? & _).
Qed.

Lemma unquote_quote_plus s : PyUrllib.unquote_plus (PyUrllib.quote_plus s) = s.
Proof.
  induction s as [|c s IH]; [done|]. rewrite quote_plus_cons.
  destruct (quote_plus_char c) as (_ & _ & ->). by rewrite IH.
Qed.

Lemma quoted_char_plain c :
  is_quoted_char c = true ->
  is_query_char c = true /\ is_not "=" c = true /\ is_not "&" c = true.
Proof. by destruct c as [[] [] [] [] [] [] [] []]; vm_compute. Qed.

(** [split] and [join] *)

Lemma split_absent sep s :
  all_chars (is_not sep) s = true -> PyStr.split sep s = [s].
Proof.
  induction s as [|c s IH]; [done|]. cbn [all_chars PyStr.split]. unfold is_not at 1.
  intros [Hc Hs]%andb_true_iff. apply negb_true_iff in Hc. by rewrite Hc, (IH Hs).
Qed.

Lemma split_app sep a rest :
  all_chars (is_not sep) a = true ->
  PyStr.split sep (a +:+ String sep rest) = a :: PyStr.split sep rest.
Proof.
  induction a as [|c a IH].
  - intros _. change ("" +:+ String sep rest) with (String sep rest).
    cbn [PyStr.split]. by rewrite Ascii.eqb_refl.
  - cbn [all_chars]. unfold is_not at 1. intros [Hc Ha]%andb_true_iff.
    apply negb_true_iff in Hc.
    change (String c a +:+ String sep rest) with (String c (a +:+ String sep rest)).
    cbn [PyStr.split]. by rewrite Hc, (IH Ha).
Qed.

Lemma split_join sep l :
  l <> [] -> Forall (fun x => all_chars (is_not sep) x = true) l ->
  PyStr.split sep (PyStr.join (String sep "") l) = l.
Proof.
  induction l as [|x l IH]; [done|]. intros _ Hl.
  apply Forall_cons in Hl as [Hx Hl]. destruct l as [|y l].
  - by apply split_absent.
  - change (PyStr.join (String sep "") (x :: y :: l))
      with (x +:+ String sep "" +:+ PyStr.join (String sep "") (y :: l)).
    change (String sep "" +:+ ?r) with (String sep r).
    rewrite (split_app _ _ _ Hx). by rewrite IH.
Qed.

Lemma join_chars f sep l :
  all_chars f sep = true -> Forall (fun x => all_chars f x = true) l ->
  all_chars f (PyStr.join sep l) = true.
Proof.
  intros Hsep. induction l as [|x l IH]; [done|]. intros Hl.
  apply Forall_cons in Hl as [Hx Hl]. destruct l as [|y l]; [done|].
  change (PyStr.join sep (x :: y :: l)) with (x +:+ sep +:+ PyStr.join sep (y :: l)).
  by rewrite !all_chars_app, Hx, Hsep, IH.
Qed.

(** [urlencode] and [parse_qsl] *)

Lemma urlencode_pairs d :
  PyUrllib.urlencode d = PyStr.join "&" (map encode_pair (pairs_of d)).
Proof.
  unfold PyUrllib.urlencode, pairs_of. f_equal.
  induction d as [|[k vs] d IH]; [done|]. cbn [flat_map]. rewrite map_app, <- IH.
  f_equal. by rewrite map_map.
Qed.

Lemma encode_pair_chars nv : all_chars is_query_char (encode_pair nv) = true.
Proof.
  unfold encode_pair. rewrite all_chars_app.
  change ("=" +:+ ?r) with (String "=" r). cbn [all_chars].
  assert (forall s, all_chars is_query_char (PyUrllib.quote_plus s) = true) as H.
  { intros s. eapply all_chars_weaken; [|apply quote_plus_chars].
    intros c Hc. by apply quoted_char_plain in Hc as (? & _). }
  rewrite !H. by vm_compute.
Qed.

Lemma urlencode_chars d : all_chars is_query_char (PyUrllib.urlencode d) = true.
Proof.
  rewrite urlencode_pairs. apply join_chars; [by vm_compute|].
  apply List.Forall_map, Forall_forall. intros nv _. apply encode_pair_chars.
Qed.

Lemma parse_pair_encode nv :
  snd nv <> "" -> PyUrllib.parse_pair (encode_pair nv) = Some nv.
Proof.
  destruct nv as [k v]. cbn [snd]. intros Hv. unfold PyUrllib.parse_pair, encode_pair.
  cbn [fst snd]. change ("=" +:+ ?r) with (String "=" r).
  rewrite split_once_app.
  - destruct (PyUrllib.quote_plus v) eqn:E; [by apply quote_plus_empty in E|].
    cbn [PyStr.is_empty]. by rewrite <- E, !unquote_quote_plus.
  - eapply all_chars_weaken; [|apply quote_plus_chars].
    intros c Hc. by apply quoted_char_plain in Hc as (_ & ? & _).
Qed.

Lemma parse_qsl_urlencode d :
  Forall (fun nv => snd nv <> "") (pairs_of d) ->
  PyUrllib.parse_qsl (PyUrllib.urlencode d) = pairs_of d.
Proof.
  intros Hd. unfold PyUrllib.parse_qsl. rewrite urlencode_pairs.
  destruct (pairs_of d) as [|nv l]; [done|].
  assert (nv :: l <> []) as Hne by done. revert Hne Hd.
  generalize (nv :: l). clear nv l. intros l Hne Hd.
  rewrite split_join.
  - clear Hne. induction l as [|x xs IH]; [done|].
    apply Forall_cons in Hd as [Hx Hxs]. cbn [map omap list_omap].
    by rewrite (parse_pair_encode x Hx), (IH Hxs).
  - by destruct l.
  - apply List.Forall_map, Forall_forall. intros y _.
    unfold encode_pair. rewrite all_chars_app.
    change ("=" +:+ ?r) with (String "=" r). cbn [all_chars].
    assert (forall s, all_chars (is_not "&") (PyUrllib.quote_plus s) = true) as H.
    { intros s. eapply all_chars_weaken; [|apply quote_plus_chars].
      intros c Hc. by apply quoted_char_plain in Hc as (_ & _ & ?). }
    rewrite !H. by vm_compute.
Qed.

End QueryFacts.
Section QueryDictFacts.
Implicit Types (d acc : list (string * list string)) (k v : string) (vs : list string).

Lemma od_get_app_absent {V} (k : string) (acc d : list (string * V)) :
  k ∉ od_keys acc -> od_get k (acc ++ d) = od_get k d.
Proof.
  unfold od_keys. induction acc as [|[k' v'] acc IH]; [done|]. cbn [fmap list_fmap fst].
  intros [Hne Hk]%not_elem_of_cons. cbn [app od_get].
  destruct (String.eqb_spec k k'); [done | by apply IH].
Qed.

Lemma od_set_app_absent {V} (k : string) (v : V) (acc d : list (string * V)) :
  k ∉ od_keys acc -> od_set k v (acc ++ d) = acc ++ od_set k v d.
Proof.
  unfold od_keys. induction acc as [|[k' v'] acc IH]; [done|]. cbn [fmap list_fmap fst].
  intros [Hne Hk]%not_elem_of_cons. cbn [app od_set].
  destruct (String.eqb_spec k k'); [done | by rewrite IH].
Qed.

Lemma od_set_values {V} (Q : V -> Prop) (k : string) (v : V) (d : list (string * V)) :
  Forall (fun kv => Q (snd kv)) d -> Q v -> Forall (fun kv => Q (snd kv)) (od_set k v d).
Proof.
  intros Hd Hv. induction d as [|[k' v'] d IH]; cbn [od_set].
  - by apply Forall_cons.
  - apply Forall_cons in Hd as [Hh Hd]. destruct (String.eqb k k').
    + by apply Forall_cons.
    + apply Forall_cons. split; [done | by apply IH].
Qed.

Lemma add_value_dict d nv :
  QueryDict d -> snd nv <> "" -> QueryDict (PyUrllib.add_value d nv).
Proof.
  intros [Hnd Hd] Hv. unfold PyUrllib.add_value. split.
  - by apply od_set_keys_NoDup.
  - apply (od_set_values (fun vs => vs <> [] /\ Forall (fun v => v <> "") vs)); [done|].
    split; [by destruct (default [] _)|]. apply Forall_app. split; [|by apply Forall_singleton].
    destruct (od_get (fst nv) d) as [vs|] eqn:E; [|done].
    apply od_get_Some_elem in E. rewrite Forall_forall in Hd.
    by destruct (Hd _ E) as [_ ?].
Qed.

Lemma parse_pair_value s nv : PyUrllib.parse_pair s = Some nv -> snd nv <> "".
Proof.
  unfold PyUrllib.parse_pair. destruct (PyStr.split_once "=" s) as [name [value|]]; [|done].
  destruct value as [|c value]; [done|]. cbn [PyStr.is_empty]. intros [= <-]. cbn [snd].
  cbn [PyUrllib.unquote_plus].
  destruct (PyUrllib.is_char c "+"); [done|].
  destruct (PyUrllib.is_char c "%"); [|done].
  destruct value as [|h [|l value]]; try done.
  by destruct (PyUrllib.hex_value h), (PyUrllib.hex_value l).
Qed.

Lemma parse_qs_dict qs : QueryDict (PyUrllib.parse_qs qs).
Proof.
  unfold PyUrllib.parse_qs.
  assert (Forall (fun nv => snd nv <> "") (PyUrllib.parse_qsl qs)) as Hl.
  { unfold PyUrllib.parse_qsl. apply Forall_forall. intros nv Hnv.
    apply list_elem_of_omap in Hnv as (s & _ & Hs). by apply parse_pair_value in Hs. }
  assert (QueryDict []) as H0 by (split; [apply NoDup_nil_2 | done]).
  revert H0. generalize (@nil (string * list string)).
  induction Hl as [|nv l Hnv Hl IH]; intros acc Hacc; [done|].
  cbn [foldl]. by apply IH, add_value_dict.
Qed.

Lemma filter_keys_dict keep d : QueryDict d -> QueryDict (od_filter_keys keep d).
Proof.
  intros [Hnd Hd]. unfold od_filter_keys. split.
  - unfold od_keys in *. clear Hd. induction d as [|[k vs] d IH]; [done|].
    cbn [fmap list_fmap fst] in Hnd. apply NoDup_cons in Hnd as [Hk Hnd].
    cbn [List.filter fst]. destruct (keep k); [|by apply IH].
    cbn [fmap list_fmap fst]. apply NoDup_cons. split; [|by apply IH].
    intros Hin. apply Hk. apply list_elem_of_fmap in Hin as ([k' vs'] & -> & Hin).
    apply list_elem_of_In, filter_In in Hin as [Hin _].
    apply list_elem_of_fmap. exists (k', vs'). split; [done | by apply list_elem_of_In].
  - apply Forall_forall. intros kv Hkv. apply list_elem_of_In, filter_In in Hkv as [Hkv _].
    rewrite Forall_forall in Hd. by apply Hd, list_elem_of_In.
Qed.

Lemma filter_keys_idem {V} keep (d : list (string * V)) :
  od_filter_keys keep (od_filter_keys keep d) = od_filter_keys keep d.
Proof.
  unfold od_filter_keys. induction d as [|[k v] d IH]; [done|]. cbn [List.filter fst].
  destruct (keep k) eqn:E; [|done]. cbn [List.filter fst]. by rewrite E, IH.
Qed.

Lemma add_values_fresh acc k vs cur :
  k ∉ od_keys acc ->
  foldl PyUrllib.add_value (acc ++ [(k, cur)]) (map (fun v => (k, v)) vs)
  = acc ++ [(k, cur ++ vs)].
Proof.
  intros Hk. revert cur. induction vs as [|v vs IH]; intros cur.
  - by rewrite app_nil_r.
  - cbn [map foldl]. unfold PyUrllib.add_value at 2. cbn [fst snd].
    rewrite (od_get_app_absent _ _ _ Hk), (od_set_app_absent _ _ _ _ Hk).
    cbn [od_get od_set]. rewrite String.eqb_refl. cbn [default].
    rewrite IH. by rewrite <- app_assoc.
Qed.

Lemma parse_pairs_of acc d :
  NoDup (od_keys (acc ++ d)) ->
  Forall (fun kv => snd kv <> []) d ->
  foldl PyUrllib.add_value acc (pairs_of d) = acc ++ d.
Proof.
  revert acc. induction d as [|[k vs] d IH]; intros acc Hnd Hd.
  - by rewrite app_nil_r.
  - apply Forall_cons in Hd as [Hvs Hd]. cbn [snd] in Hvs.
    unfold pairs_of. cbn [flat_map fst snd]. fold (pairs_of d). rewrite foldl_app.
    assert (k ∉ od_keys acc) as Hk.
    { unfold od_keys in *. rewrite fmap_app in Hnd. apply NoDup_app in Hnd as (_ & Hdis & _).
      intros Hin. apply (Hdis _ Hin). cbn [fmap list_fmap fst]. apply list_elem_of_here. }
    destruct vs as [|v vs]; [done|]. cbn [map foldl].
    assert (PyUrllib.add_value acc (k, v) = acc ++ [(k, [v])]) as ->.
    { unfold PyUrllib.add_value. cbn [fst snd].
      assert (od_get k acc = None) as E by (by apply od_get_None).
      rewrite E. cbn [default app]. by apply od_set_absent. }
    rewrite (add_values_fresh _ _ _ _ Hk). cbn [app].
    rewrite IH; [by rewrite <- app_assoc | by rewrite <- app_assoc | done].
Qed.

Lemma parse_qs_urlencode d : QueryDict d -> PyUrllib.parse_qs (PyUrllib.urlencode d) = d.
Proof.
  intros [Hnd Hd]. unfold PyUrllib.parse_qs. rewrite parse_qsl_urlencode.
  - apply (parse_pairs_of [] d); [done|].
    eapply Forall_impl; [exact Hd|]. by intros kv [? _].
  - unfold pairs_of. clear Hnd. induction Hd as [|[k vs] d [_ Hvs] Hd IH]; [done|].
    cbn [flat_map]. apply Forall_app. split; [|done]. cbn [fst snd] in *.
    apply List.Forall_map. eapply Forall_impl; [exact Hvs|]. done.
Qed.

(** The query that [clean_url] writes is left as it is by a second
    [clean_url]. *)
Lemma clean_query keep qs :
  all_chars is_query_char
    (PyUrllib.urlencode (od_filter_keys keep (PyUrllib.parse_qs qs))) = true /\
  PyUrllib.urlencode
    (od_filter_keys keep
       (PyUrllib.parse_qs
          (PyUrllib.urlencode (od_filter_keys keep (PyUrllib.parse_qs qs)))))
  = PyUrllib.urlencode (od_filter_keys keep (PyUrllib.parse_qs qs)).
Proof.
  split; [apply urlencode_chars|].
  rewrite parse_qs_urlencode by apply filter_keys_dict, parse_qs_dict.
  by rewrite filter_keys_idem.
Qed.

End QueryDictFacts.
(** X1.  On the model of [urllib.parse], [clean_url] is idempotent on every
    url whose parse has a netloc or a path that does not start with two
    slashes: [clean_url(clean_url(u)) == clean_url(u)] under the override
    that strips the query, under the one that keeps [pg], and under the
    generic rule. *)
Theorem clean_url_idempotent (u : string) :
  path_reads_as_netloc (PyUrllib.urlparse u) = false ->
  clean_url (lib := PyUrllib.lib) (clean_url (lib := PyUrllib.lib) u)
  = clean_url (lib := PyUrllib.lib) u.
Proof.
  intros Hclass. pose proof (urlparse_ok u) as Hok.
  assert (Urllib.netloc (PyUrllib.urlparse u) = "" ->
          PyStr.startswith "//" (Urllib.path (PyUrllib.urlparse u)) = false) as Hpath.
  { intros Hnl. unfold path_reads_as_netloc in Hclass. by rewrite Hnl in Hclass. }
  clear Hclass.
  unfold clean_url at 2 3.
  cbn [Urllib.urlparse Urllib.urlunparse Urllib.parse_qs Urllib.urlencode PyUrllib.lib].
  set (p := PyUrllib.urlparse u) in *.
  assert (forall q,
            all_chars is_query_char q = true ->
            (String.eqb (Urllib.netloc p) "www.alz.org" = true -> q = "") ->
            (String.eqb (Urllib.netloc p) "www.alz.org" = false ->
             String.eqb (Urllib.netloc p) "www.webmd.com" = true ->
             PyUrllib.urlencode (od_filter_keys keep_pg (PyUrllib.parse_qs q)) = q) ->
            (String.eqb (Urllib.netloc p) "www.alz.org" = false ->
             String.eqb (Urllib.netloc p) "www.webmd.com" = false ->
             PyUrllib.urlencode (od_filter_keys keep_untracked (PyUrllib.parse_qs q)) = q) ->
            clean_url (lib := PyUrllib.lib) (PyUrllib.urlunparse (rebuild p q))
            = PyUrllib.urlunparse (rebuild p q)) as Hstep.
  { intros q Hq Halz Hwebmd Hany.
    destruct (reparse p q Hok Hq Hpath) as (pa' & Hparse & Hbuild).
    unfold clean_url.
    cbn [Urllib.urlparse Urllib.urlunparse Urllib.parse_qs Urllib.urlencode PyUrllib.lib].
    rewrite Hparse. unfold rebuild at 1 2 3.
    cbn [Urllib.scheme Urllib.netloc Urllib.path Urllib.params Urllib.query].
    destruct (String.eqb (Urllib.netloc p) "www.alz.org") eqn:E1.
    - by rewrite <- Hbuild, (Halz eq_refl).
    - destruct (String.eqb (Urllib.netloc p) "www.webmd.com") eqn:E2.
      + by rewrite (Hwebmd eq_refl eq_refl).
      + by rewrite (Hany eq_refl eq_refl). }
  destruct (String.eqb (Urllib.netloc p) "www.alz.org") eqn:E1.
  - by apply Hstep.
  - destruct (String.eqb (Urllib.netloc p) "www.webmd.com") eqn:E2.
    + apply Hstep; try done; [apply urlencode_chars|]. intros _ _. apply clean_query.
    + apply Hstep; try done; [apply urlencode_chars|]. intros _ _. apply clean_query.
Qed.

(** A relative url under the generic rule, with a tracking parameter, a
    repeated key and an escaped value. *)
Lemma clean_url_idempotent_witness :
  path_reads_as_netloc
    (PyUrllib.urlparse "/a;b/c;d?utm_source=x&b=1&a=%7e+y&b=2&ref=z#top") = false /\
  clean_url (lib := PyUrllib.lib) "/a;b/c;d?utm_source=x&b=1&a=%7e+y&b=2&ref=z#top"
  = "/a;b/c;d?b=1&b=2&a=~+y" /\
  clean_url (lib := PyUrllib.lib)
    (clean_url (lib := PyUrllib.lib) "/a;b/c;d?utm_source=x&b=1&a=%7e+y&b=2&ref=z#top")
  = clean_url (lib := PyUrllib.lib) "/a;b/c;d?utm_source=x&b=1&a=%7e+y&b=2&ref=z#top".
Proof.
  split; [vm_compute; reflexivity|]. split; [vm_compute; reflexivity|].
  apply (clean_url_idempotent "/a;b/c;d?utm_source=x&b=1&a=%7e+y&b=2&ref=z#top").
  vm_compute. reflexivity.
Defined.

(** The two overrides and the generic rule on absolute urls. *)
Example clean_url_overrides :
  clean_url (lib := PyUrllib.lib) "https://www.alz.org/help?pg=2&x=1#top"
  = "https://www.alz.org/help" /\
  clean_url (lib := PyUrllib.lib) "https://www.webmd.com/a/b?x=1&pg=2&utm_source=y"
  = "https://www.webmd.com/a/b?pg=2" /\
  clean_url (lib := PyUrllib.lib) "HTTPS://Example.org/a?utm_source=x&pg=2&Ref=z"
  = "https://Example.org/a?pg=2".
Proof. repeat split; vm_compute; reflexivity. Qed.

(** With no netloc and a path that starts with two slashes, [urlunparse]
    writes the path where a netloc is read: the first [clean_url] turns the
    path into the netloc [www.alz.org], and the second one strips the query
    that the first one kept. *)
Lemma clean_url_not_idempotent :
  clean_url (lib := PyUrllib.lib) "http:////www.alz.org/x?a=1"
  = "http://www.alz.org/x?a=1" /\
  clean_url (lib := PyUrllib.lib)
    (clean_url (lib := PyUrllib.lib) "http:////www.alz.org/x?a=1")
  = "http://www.alz.org/x".
Proof. split; vm_compute; reflexivity. Qed.

(** ** What [clean_url] keeps and what it removes *)

Lemma clean_url_unfold u :
  clean_url (lib := PyUrllib.lib) u
  = PyUrllib.urlunparse (rebuild (PyUrllib.urlparse u) (cleaned_query (PyUrllib.urlparse u))).
Proof.
  unfold clean_url, cleaned_query.
  cbn [Urllib.urlparse Urllib.urlunparse Urllib.parse_qs Urllib.urlencode PyUrllib.lib].
  destruct (String.eqb _ "www.alz.org"); [done|].
  by destruct (String.eqb _ "www.webmd.com").
Qed.

Lemma cleaned_query_chars p : all_chars is_query_char (cleaned_query p) = true.
Proof.
  unfold cleaned_query. destruct (String.eqb _ "www.alz.org"); [done|].
  destruct (String.eqb _ "www.webmd.com"); apply urlencode_chars.
Qed.



(** The components of the url that [clean_url] builds. *)
Lemma reparse_exact p q :
  ParsedOk p ->
  all_chars is_query_char q = true ->
  path_reads_as_netloc p = false ->
  PyUrllib.urlparse (PyUrllib.urlunparse (rebuild p q))
  = Urllib.mkParseResult (Urllib.scheme p) (Urllib.netloc p) (cleaned_path p)
      (Urllib.params p) q "".
Proof.
  destruct p as [sc nl pa pr qu fr].
  intros [Hsc Hnl Hpa Hpr Hflat Hsn Hsp Hsr Hroot Hsplit Hrel] Hq Hclass.
  unfold path_reads_as_netloc, cleaned_path in *.
  cbn [Urllib.scheme Urllib.netloc Urllib.path Urllib.params] in *.
  unfold PyUrllib.urlunparse, rebuild.
  cbn [Urllib.scheme Urllib.netloc Urllib.path Urllib.params Urllib.query
       Urllib.fragment].
  fold (with_params pa pr).
  assert (all_chars is_safe (scheme_colon sc) = true) as Hsafe_sc.
  { destruct Hsc as [->|Hs]; [done|]. rewrite <- (append_empty_r (scheme_colon sc)).
    rewrite (scheme_colon_scheme sc "" Hs), all_chars_app.
    by apply is_scheme_safe in Hs as [-> _]. }
  destruct (writes_netloc sc nl (with_params pa pr)) eqn:W; cbn [andb].
  - (* the netloc slot is written *)
    set (pa' := if needs_slash (with_params pa pr) then String "/" pa else pa).
    assert (rooted (with_params pa pr) = with_params pa' pr) as Hrooted
      by apply rooted_with_params.
    rewrite (urlunsplit_netloc _ _ _ _ W), Hrooted.
    assert (all_chars is_path_char pa' = true) as Hpa'.
    { unfold pa'. destruct (needs_slash _); [|done]. cbn [all_chars].
      by rewrite Hpa. }
    assert (all_chars is_safe pa' = true) as Hsp'.
    { unfold pa'. destruct (needs_slash _); [|done]. cbn [all_chars].
      by rewrite Hsp. }
    assert (head_or_empty PyUrllib.is_netloc_delim
              (with_params pa' pr +:+ query_tail q) = true) as Hhead.
    { apply head_or_empty_app.
      - rewrite <- Hrooted. eapply head_or_empty_weaken; [|apply rooted_head].
        intros c Hc. apply Ascii.eqb_eq in Hc as <-. by vm_compute.
      - eapply head_or_empty_weaken; [|apply query_tail_head].
        intros c Hc. apply Ascii.eqb_eq in Hc as <-. by vm_compute. }
    apply (urlparse_steps _ sc ("//" +:+ nl +:+ with_params pa' pr +:+ query_tail q)
             nl (with_params pa' pr +:+ query_tail q)); try done.
    + apply sanitize_id.
      * rewrite all_chars_app, Hsafe_sc.
        change ("//" +:+ nl +:+ with_params pa' pr +:+ query_tail q)
          with (String "/" (String "/" (nl +:+ with_params pa' pr +:+ query_tail q))).
        cbn [all_chars andb]. rewrite !all_chars_app, Hsn.
        rewrite with_params_chars by done. by rewrite query_tail_safe.
      * destruct Hsc as [->|Hs]; [done|].
        rewrite (scheme_colon_scheme _ _ Hs).
        apply is_scheme_safe in Hs as [_ Hs]. by destruct sc.
    + destruct Hsc as [->|Hs]; [done|]. rewrite (scheme_colon_scheme _ _ Hs).
      by apply split_scheme_scheme.
    + by apply split_netloc_slashes.
    + unfold pa'. destruct (mem sc PyUrllib.uses_params); [|done].
      destruct (needs_slash _); [|done]. by rewrite split_last_segment_slash.
  - (* the path follows the scheme *)
    rewrite (urlunsplit_plain _ _ _ _ W).
    assert (nl = "") as ->.
    { unfold writes_netloc in W. apply orb_false_iff in W as [W _].
      by destruct nl. }
    cbn [PyStr.is_empty andb] in Hclass.
    pose proof (query_tail_head q) as Hqt.
    apply (urlparse_steps _ sc (with_params pa pr +:+ query_tail q) ""
             (with_params pa pr +:+ query_tail q)); try done.
    + apply sanitize_id.
      * rewrite !all_chars_app, Hsafe_sc, with_params_chars by done.
        by rewrite query_tail_safe.
      * destruct Hsc as [->|Hs]; [exact (proj2 (Hrel eq_refl eq_refl _ Hqt))|].
        rewrite (scheme_colon_scheme _ _ Hs).
        apply is_scheme_safe in Hs as [_ Hs]. by destruct sc.
    + destruct Hsc as [->|Hs]; [exact (proj1 (Hrel eq_refl eq_refl _ Hqt))|].
      rewrite (scheme_colon_scheme _ _ Hs). by apply split_scheme_scheme.
    + apply split_netloc_none, startswith_slashes_tail; [|done].
      by apply startswith_slashes_params.
Qed.

Lemma clean_url_parse u :
  path_reads_as_netloc (PyUrllib.urlparse u) = false ->
  PyUrllib.urlparse (clean_url (lib := PyUrllib.lib) u)
  = Urllib.mkParseResult (Urllib.scheme (PyUrllib.urlparse u))
      (Urllib.netloc (PyUrllib.urlparse u)) (cleaned_path (PyUrllib.urlparse u))
      (Urllib.params (PyUrllib.urlparse u)) (cleaned_query (PyUrllib.urlparse u)) "".
Proof.
  intros Hclass. rewrite clean_url_unfold.
  apply reparse_exact; [apply urlparse_ok | apply cleaned_query_chars | done].
Qed.

(** X2.  On the model of [urllib.parse], for every url whose parse has a
    netloc or a path that does not start with two slashes, [clean_url] keeps
    the scheme, the netloc (so [get_domain]), the parameters and the path (up
    to the leading slash that a path after a netloc slot gets), and the url
    it returns has no fragment. *)
Theorem clean_url_keeps_origin (u : string) :
  path_reads_as_netloc (PyUrllib.urlparse u) = false ->
  get_domain (lib := PyUrllib.lib) (clean_url (lib := PyUrllib.lib) u)
  = get_domain (lib := PyUrllib.lib) u /\
  Urllib.scheme (PyUrllib.urlparse (clean_url (lib := PyUrllib.lib) u))
  = Urllib.scheme (PyUrllib.urlparse u) /\
  Urllib.params (PyUrllib.urlparse (clean_url (lib := PyUrllib.lib) u))
  = Urllib.params (PyUrllib.urlparse u) /\
  Urllib.fragment (PyUrllib.urlparse (clean_url (lib := PyUrllib.lib) u)) = "" /\
  (Urllib.path (PyUrllib.urlparse (clean_url (lib := PyUrllib.lib) u))
   = Urllib.path (PyUrllib.urlparse u) \/
   Urllib.path (PyUrllib.urlparse (clean_url (lib := PyUrllib.lib) u))
   = String "/" (Urllib.path (PyUrllib.urlparse u))).
Proof.
  intros Hclass. unfold get_domain. cbn [Urllib.urlparse PyUrllib.lib].
  rewrite (clean_url_parse u Hclass).
  cbn [Urllib.scheme Urllib.netloc Urllib.path Urllib.params Urllib.fragment].
  repeat split; try done. unfold cleaned_path. destruct (_ && _); [by right | by left].
Qed.

Lemma clean_url_keeps_origin_witness :
  path_reads_as_netloc (PyUrllib.urlparse "HTTP://Example.org/a?x=1#top") = false /\
  get_domain (lib := PyUrllib.lib)
    (clean_url (lib := PyUrllib.lib) "HTTP://Example.org/a?x=1#top") = "Example.org" /\
  get_domain (lib := PyUrllib.lib) "HTTP://Example.org/a?x=1#top" = "Example.org".
Proof.
  split; [vm_compute; reflexivity|].
  split; [|vm_compute; reflexivity].
  rewrite (proj1 (clean_url_keeps_origin "HTTP://Example.org/a?x=1#top" eq_refl)).
  vm_compute. reflexivity.
Defined.



(** ** [normalize_url] and [is_internal_link] *)

Section Links.
Context {lib : Urllib.UrlLib}.

Lemma before_absent sep s :
  all_chars (is_not sep) s = true -> PyStr.before sep s = s.
Proof. intros H. unfold PyStr.before. by rewrite (split_once_absent _ _ H). Qed.

Lemma before_lacks sep s : all_chars (is_not sep) (PyStr.before sep s) = true.
Proof.
  unfold PyStr.before. destruct (PyStr.split_once sep s) as [a r] eqn:E.
  by apply split_once_spec in E as [? _].
Qed.

(** X4.  For a url that is absolute once its fragment is cut off (it starts
    with [http://] or [https://]), [normalize_url] returns the url up to its
    first [#], whatever the base url is; the result has no [#], and
    normalizing it again changes nothing. *)
Theorem normalize_url_absolute (url base base' : string) :
  PyStr.startswith "http://" (PyStr.before "#" url)
  || PyStr.startswith "https://" (PyStr.before "#" url) = true ->
  normalize_url url base = PyStr.before "#" url /\
  PyStr.contains "#" (normalize_url url base) = false /\
  normalize_url (normalize_url url base) base' = normalize_url url base.
Proof.
  intros Habs.
  assert (forall b, normalize_url url b = PyStr.before "#" url) as Hn.
  { intros b. unfold normalize_url. by rewrite Habs. }
  rewrite !Hn. split; [done|]. split.
  - apply contains_char_false, before_lacks.
  - unfold normalize_url. rewrite (before_absent "#" _ (before_lacks "#" url)).
    by rewrite Habs.
Qed.

(** X5.  Two urls are internal to each other in both directions or in
    neither: [is_internal_link] compares the two netlocs up to one leading
    [www.], and every url is internal to its own netloc. *)
Theorem is_internal_link_symmetric (u v : string) :
  is_internal_link u (get_domain v) = is_internal_link v (get_domain u) /\
  is_internal_link u (get_domain u) = true /\
  is_internal_link u ("www." +:+ get_domain u) = true /\
  (forall d, get_domain u = "www." +:+ d -> is_internal_link u d = true).
Proof.
  unfold is_internal_link. split; [|split; [|split]].
  - rewrite (String.eqb_sym (get_domain u) (get_domain v)).
    rewrite (String.eqb_sym (get_domain u) ("www." +:+ get_domain v)).
    rewrite (String.eqb_sym ("www." +:+ get_domain u) (get_domain v)).
    by destruct (String.eqb (get_domain v) (get_domain u)),
               (String.eqb ("www." +:+ get_domain v) (get_domain u)),
               (String.eqb (get_domain v) ("www." +:+ get_domain u)).
  - by rewrite String.eqb_refl.
  - by rewrite (String.eqb_refl ("www." +:+ get_domain u)), !orb_true_r.
  - intros d ->. by rewrite (String.eqb_refl ("www." +:+ d)), orb_true_r.
Qed.

End Links.

Lemma normalize_url_absolute_witness :
  normalize_url (lib := PyUrllib.lib) "https://example.org/a?x=1#part" "https://other.org/"
  = "https://example.org/a?x=1" /\
  normalize_url (lib := PyUrllib.lib)
    (normalize_url (lib := PyUrllib.lib) "https://example.org/a?x=1#part"
       "https://other.org/") "ftp://third.org/"
  = normalize_url (lib := PyUrllib.lib) "https://example.org/a?x=1#part"
      "https://other.org/".
Proof.
  split; [vm_compute; reflexivity|].
  apply (normalize_url_absolute (lib := PyUrllib.lib) "https://example.org/a?x=1#part"
           "https://other.org/" "ftp://third.org/").
  vm_compute. reflexivity.
Defined.

(** ** The links that are followed *)

Lemma foldl_pointwise {A B} (f g : A -> B -> A) (l : list B) (a : A) :
  (forall a x, f a x = g a x) -> foldl f a l = foldl g a l.
Proof.
  intros H. revert a. induction l as [|x l IH]; intros a; [done|].
  cbn [foldl]. by rewrite H, IH.
Qed.

Lemma place_links_order base_domain (cand : string -> option string) xs :
  forall content_links other_links,
    foldl (fun acc x => match cand x with
                        | Some y => place_link base_domain y acc
                        | None => acc
                        end) (content_links, other_links) xs
    = (reverse (List.filter (has_class Front base_domain) (omap cand xs))
       ++ content_links ++ List.filter (has_class Priority base_domain) (omap cand xs),
       other_links ++ List.filter (has_class Other base_domain) (omap cand xs)).
Proof.
  induction xs as [|x xs IH]; intros cl ol.
  - cbn [foldl omap list_omap List.filter reverse]. by rewrite !app_nil_r.
  - cbn [foldl omap list_omap]. destruct (cand x) as [y|]; [|apply IH].
    unfold place_link at 2. cbn [List.filter].
    assert (forall c, has_class c base_domain y
                      = match link_class base_domain (PyStr.lower y), c with
                        | Front, Front | Priority, Priority | Other, Other => true
                        | _, _ => false
                        end) as Hc by done.
    rewrite !Hc.
    destruct (link_class base_domain (PyStr.lower y)); cbn [fst snd]; rewrite IH.
    + rewrite reverse_cons. by rewrite <- !app_assoc.
    + by rewrite <- !app_assoc.
    + by rewrite <- !app_assoc.
Qed.

Lemma kept_href_spec href link :
  kept_href href = Some link ->
  link = PyStr.strip href /\ link <> "" /\
  PyStr.startswith "javascript:" link = false /\
  PyStr.startswith "mailto:" link = false /\
  PyStr.startswith "tel:" link = false.
Proof.
  unfold kept_href.
  destruct (PyStr.is_empty (PyStr.strip href)) eqn:E1; [done|].
  destruct (PyStr.startswith "javascript:" (PyStr.strip href)) eqn:E2; [done|].
  destruct (PyStr.startswith "mailto:" (PyStr.strip href)) eqn:E3; [done|].
  destruct (PyStr.startswith "tel:" (PyStr.strip href)) eqn:E4; [done|].
  intros [= <-]. by apply is_empty_false in E1.
Qed.

Lemma filter_step_place base_domain acc href :
  filter_step base_domain acc href
  = match kept_href href with
    | Some link => place_link base_domain link acc
    | None => acc
    end.
Proof.
  unfold filter_step, kept_href, place_link. destruct acc as [cl ol].
  destruct (_ || _); [done|]. by destruct (link_class _ _).
Qed.

Lemma filter_class_partition base_domain links :
  List.filter (has_class Front base_domain) links
  ++ List.filter (has_class Priority base_domain) links
  ++ List.filter (has_class Other base_domain) links ≡ₚ links.
Proof.
  induction links as [|x links IH]; [done|]. cbn [List.filter].
  assert (forall c, has_class c base_domain x
                    = match link_class base_domain (PyStr.lower x), c with
                      | Front, Front | Priority, Priority | Other, Other => true
                      | _, _ => false
                      end) as Hc by done.
  rewrite !Hc.
  destruct (link_class base_domain (PyStr.lower x)); cbn [app].
  - by rewrite IH.
  - rewrite <- Permutation_middle. by rewrite IH.
  - rewrite app_assoc, <- Permutation_middle, <- app_assoc. by rewrite IH.
Qed.

Lemma link_order_partition base_domain links :
  fst (link_order base_domain links) ++ snd (link_order base_domain links) ≡ₚ links.
Proof.
  unfold link_order. cbn [fst snd]. rewrite reverse_Permutation, <- app_assoc.
  apply filter_class_partition.
Qed.

(** X6.  [site_specific_link_filtering] keeps the stripped href of every
    link that is not empty and starts with none of [javascript:], [mailto:]
    and [tel:], each once: [content_links] holds the links of the first rank
    (the toolbox links of [www.caregiveraction.org]) in the reverse of their
    order on the page, followed by the priority links in their order, and
    [other_links] the remaining ones in their order. *)
Theorem link_filtering_order (links : list string) (base_domain : string) :
  site_specific_link_filtering links base_domain
  = link_order base_domain (omap kept_href links) /\
  fst (site_specific_link_filtering links base_domain)
  ++ snd (site_specific_link_filtering links base_domain) ≡ₚ omap kept_href links /\
  Forall (fun link =>
            link <> "" /\ PyStr.strip link = link /\
            PyStr.startswith "javascript:" link = false /\
            PyStr.startswith "mailto:" link = false /\
            PyStr.startswith "tel:" link = false)
         (omap kept_href links).
Proof.
  assert (site_specific_link_filtering links base_domain
          = link_order base_domain (omap kept_href links)) as Heq.
  { unfold site_specific_link_filtering, link_order.
    rewrite (foldl_pointwise _ (fun acc x => match kept_href x with
                                       | Some y => place_link base_domain y acc
                                       | None => acc
                                       end))
      by (intros; apply filter_step_place).
    rewrite place_links_order. cbn [app]. done. }
  split; [done|]. split; [rewrite Heq; apply link_order_partition|].
  apply Forall_forall. intros link (href & _ & Hk)%list_elem_of_omap.
  apply kept_href_spec in Hk as (-> & ? & ? & ? & ?).
  split; [done|]. split; [apply strip_by_idem | done].
Qed.

Section FollowedLinks.
Context {lib : Urllib.UrlLib} (cfg : Config) (W : World).

Lemma link_step_place url base_domain visited acc href :
  link_step url base_domain visited acc href
  = match link_candidate url base_domain visited href with
    | Some link => place_link base_domain link acc
    | None => acc
    end.
Proof.
  unfold link_step, link_candidate, kept_href, place_link. destruct acc as [cl ol].
  destruct (_ || _); [done|]. case_bool_decide; [done|].
  destruct (is_internal_link _ _); [|done]. by destruct (link_class _ _).
Qed.

Lemma link_candidate_spec url base_domain visited href link :
  link_candidate url base_domain visited href = Some link ->
  is_internal_link link base_domain = true /\ (link ∉ visited) /\
  exists h, kept_href href = Some h /\ link = normalize_url h url.
Proof.
  unfold link_candidate. destruct (kept_href href) as [h|]; [|done].
  case_bool_decide as Hv; [done|].
  destruct (is_internal_link _ _) eqn:Hi; [|done]. intros [= <-]. eauto.
Qed.

Lemma partition_links_order url base_domain visited hrefs :
  partition_links url base_domain visited hrefs
  = link_order base_domain (omap (link_candidate url base_domain visited) hrefs).
Proof.
  unfold partition_links, link_order.
  rewrite (foldl_pointwise _ (fun acc x => match link_candidate url base_domain visited x with
                                     | Some y => place_link base_domain y acc
                                     | None => acc
                                     end))
    by (intros; apply link_step_place).
  rewrite place_links_order. by cbn [app].
Qed.

(** X7.  The loop of [crawl_page] over the links of a page keeps, for every
    href that is kept as in [site_specific_link_filtering], the url it
    resolves to against the page, when that url is not visited and is
    internal to the base domain; it arranges these urls in the same order:
    first rank reversed, then priority links, then (apart) the others. *)
Theorem followed_links_order (url base_domain : string) (visited : gset string)
    (hrefs : list string) :
  partition_links url base_domain visited hrefs
  = link_order base_domain (omap (link_candidate url base_domain visited) hrefs) /\
  fst (partition_links url base_domain visited hrefs)
  ++ snd (partition_links url base_domain visited hrefs)
  ≡ₚ omap (link_candidate url base_domain visited) hrefs /\
  Forall (fun link =>
            is_internal_link link base_domain = true /\ (link ∉ visited) /\
            exists href h, href ∈ hrefs /\ kept_href href = Some h /\
                           link = normalize_url h url)
         (omap (link_candidate url base_domain visited) hrefs).
Proof.
  split; [apply partition_links_order|].
  split; [rewrite partition_links_order; apply link_order_partition|].
  apply Forall_forall. intros link (href & Hin & Hc)%list_elem_of_omap.
  apply link_candidate_spec in Hc as (? & ? & h & ? & ?). eauto 10.
Qed.

Lemma handle_document_followed url base_url base_domain depth now soup g g1 cl ol :
  handle_document cfg W url base_url base_domain depth now soup g = (g1, Some (cl, ol)) ->
  exists hrefs, anchors soup = Links hrefs /\
    (cl, ol) = partition_links url base_domain (visited_urls g1) hrefs.
Proof.
  unfold handle_document.
  destruct (content_only cfg && _ && _); [done|].
  destruct (should_crawl_domain cfg _ _); [|done]. cbn [negb].
  destruct (should_crawl_domain cfg _ _); [|done]. cbn [negb].
  destruct (anchors soup) as [e|hrefs]; [done|]. intros [= <- <-]. by exists hrefs.
Qed.

(** X8.  A call of [crawl_page] recurses only into urls that are internal
    to the base domain and that are not visited when the page has been
    stored; in particular never into the page itself. *)
Theorem followed_links_internal url base_url base_domain depth g g1 cl ol :
  visit_page cfg W url base_url base_domain depth g = (g1, Some (cl, ol)) ->
  forall link, link ∈ cl ++ ol ->
    is_internal_link link base_domain = true /\ (link ∉ visited_urls g1) /\
    link <> clean_url url.
Proof.
  unfold visit_page. case_bool_decide as Hseen; [done|].
  destruct (should_crawl_domain cfg _ g); [|done]. cbn [negb].
  destruct (fst (is_allowed_by_robots cfg W _ g)); [|done]. cbn [negb].
  unfold handle_response.
  destruct (http_get W _ _) as [e|response]; [done|].
  destruct (negb (status_code response =? 200)%Z); [done|].
  destruct (negb (PyStr.contains _ _)); [done|].
  destruct (body response) as [e|soup]; [done|].
  intros Hdoc link Hin.
  assert (clean_url url ∈ visited_urls g1) as Hself.
  { assert (clean_url url ∈ visited_urls (requested cfg W (clean_url url) g)) as H0.
    { unfold requested. cbn [visited_urls log_request mark_visited].
      apply elem_of_union_l. by apply elem_of_singleton. }
    pose proof (handle_document_keeps cfg W
                  (fun g0 => clean_url url ∈ visited_urls g0)
                  (fun _ g0 => clean_url url ∈ visited_urls g0)) as Hk.
    change g1 with (fst (g1, Some (cl, ol))). rewrite <- Hdoc. apply Hk; try done.
    - intros u d b g0. unfold ensure_domain. by destruct (od_mem _ _).
    - intros u d page r g0 H Hr _. unfold store_page. by rewrite Hr. }
  destruct (handle_document_followed _ _ _ _ _ _ _ _ _ _ Hdoc) as (hrefs & _ & Hp).
  pose proof (link_order_partition base_domain
                (omap (link_candidate (clean_url url) base_domain (visited_urls g1))
                      hrefs)) as Hperm.
  rewrite <- partition_links_order, <- Hp in Hperm. cbn [fst snd] in Hperm.
  rewrite Hperm in Hin. apply list_elem_of_omap in Hin as (href & _ & Hc).
  apply link_candidate_spec in Hc as (Hint & Hnv & _).
  split; [done|]. split; [done|]. intros ->. done.
Qed.

End FollowedLinks.

(** The seed page of the small site links to [/toolbox/a] and [/about]. *)
Lemma followed_links_internal_witness :
  visit_page (lib := PyUrllib.lib) Scenario.cfg Scenario.quiet Scenario.seed
    "https://example.org" "example.org" 0 new_generator
  = (fst (visit_page (lib := PyUrllib.lib) Scenario.cfg Scenario.quiet Scenario.seed
            "https://example.org" "example.org" 0 new_generator),
     Some ([], [Scenario.toolbox_a; Scenario.about])) /\
  is_internal_link (lib := PyUrllib.lib) Scenario.about "example.org" = true.
Proof.
  assert (visit_page (lib := PyUrllib.lib) Scenario.cfg Scenario.quiet Scenario.seed
            "https://example.org" "example.org" 0 new_generator
          = (fst (visit_page (lib := PyUrllib.lib) Scenario.cfg Scenario.quiet Scenario.seed
                    "https://example.org" "example.org" 0 new_generator),
             Some ([], [Scenario.toolbox_a; Scenario.about]))) as Hv
    by (vm_compute; reflexivity).
  split; [exact Hv|].
  refine (proj1 (followed_links_internal (lib := PyUrllib.lib) Scenario.cfg Scenario.quiet
                   Scenario.seed "https://example.org" "example.org" 0 new_generator
                   _ [] [Scenario.toolbox_a; Scenario.about] Hv Scenario.about _)).
  apply list_elem_of_further, list_elem_of_here.
Defined.

(** ** The categorical view *)

Lemma category_add d t d' t' url ti (categorical : Categories) :
  category d t (add_category d' t' url ti categorical)
  = category d t categorical
    ++ (if String.eqb d' d && String.eqb t' t then [(url, ti)] else []).
Proof.
  unfold category, add_category.
  destruct (String.eqb_spec d' d) as [->|Hd]; cbn [andb].
  - rewrite od_get_set_eq. cbn [default from_option id].
    destruct (String.eqb_spec t' t) as [->|Ht].
    + by rewrite od_get_set_eq.
    + rewrite od_get_set_ne by done. by rewrite app_nil_r.
  - rewrite od_get_set_ne by done. by rewrite app_nil_r.
Qed.

Lemma category_pages d t d' ps (categorical : Categories) :
  category d t (foldl (categorize_page d') categorical ps)
  = category d t categorical
    ++ (if String.eqb d' d then entries_of_type t ps else []).
Proof.
  revert categorical. induction ps as [|[url page] ps IH]; intros categorical.
  - cbn [foldl]. unfold entries_of_type. cbn [List.filter map].
    destruct (String.eqb d' d); by rewrite app_nil_r.
  - cbn [foldl]. rewrite IH. unfold categorize_page. cbn [fst snd].
    rewrite category_add, <- app_assoc. f_equal.
    unfold entries_of_type. cbn [List.filter snd].
    destruct (String.eqb d' d); cbn [andb]; [|done].
    by destruct (String.eqb (page_type page) t).
Qed.

(** X9.  In the categorical view that [generate_categories] writes, the
    entry of a domain and a page type lists the url and the title of exactly
    the pages of that type stored under that domain, in the order of the
    store; the key ["_metadata"] gives no entry, and a domain or a type
    without a page has none. *)
Theorem categories_list_pages (g : Generator) (d t : string) :
  category d t (generate_categories g)
  = knowledge_base g ≫=
      (fun kv => if String.eqb (fst kv) d && negb (String.eqb d "_metadata")
                 then entries_of_type t (pages (snd kv)) else []).
Proof.
  unfold generate_categories.
  assert (forall kb (categorical : Categories),
            category d t (foldl categorize_domain categorical kb)
            = category d t categorical
              ++ (kb ≫= (fun kv =>
                           if String.eqb (fst kv) d && negb (String.eqb d "_metadata")
                           then entries_of_type t (pages (snd kv)) else []))) as H.
  { induction kb as [|[d' r] kb IH]; intros categorical.
    - cbn [foldl]. by rewrite app_nil_r.
    - cbn [foldl]. rewrite IH, bind_cons, app_assoc. f_equal.
      unfold categorize_domain. cbn [fst snd].
      destruct (String.eqb_spec d' "_metadata") as [->|Hm].
      + destruct (String.eqb_spec "_metadata" d) as [<-|]; cbn [andb negb];
          by rewrite app_nil_r.
      + rewrite category_pages. destruct (String.eqb_spec d' d) as [->|]; [|done].
        apply String.eqb_neq in Hm. by rewrite Hm. }
  by rewrite H.
Qed.

(** ** Whole runs *)

Section RunFacts.
Context {lib : Urllib.UrlLib} (cfg : Config) (W : World).

(** What every call of [crawl_page] keeps, and the reset of the counters
    too, holds after the loop over the seeds. *)
Lemma crawl_seeds_keeps (P : Generator -> Prop) urls g g' :
  (forall fuel url base_url base_domain depth g g',
     P g -> crawl_page cfg W fuel url base_url base_domain depth g = Some g' -> P g') ->
  (forall base_domain g, P g -> P (reset_domain_stats base_domain g)) ->
  P g -> crawl_seeds cfg W urls g = Some g' -> P g'.
Proof.
  intros Hpage Hreset. revert g. induction urls as [|url urls IH]; intros g HP.
  - by intros [= <-].
  - cbn [crawl_seeds]. destruct (crawl_website cfg W url g) as [g1|] eqn:E; [|done].
    apply IH. unfold crawl_website in E. eapply Hpage; [|exact E]. by apply Hreset.
Qed.



(** *** A domain at its quota *)

Lemma should_crawl_domain_pages d g1 g2 :
  od_mem d (knowledge_base g1) = od_mem d (knowledge_base g2) ->
  pages_of d g1 = pages_of d g2 ->
  should_crawl_domain cfg d g1 = should_crawl_domain cfg d g2.
Proof.
  unfold should_crawl_domain, pages_of, od_mem, content_pages_count.
  destruct (od_get d (knowledge_base g1)), (od_get d (knowledge_base g2)); try done.
  by intros _ ->.
Qed.

Lemma closed_domain_crawl_page d fuel url base_url base_domain depth g g' :
  should_crawl_domain cfg d g = false ->
  crawl_page cfg W fuel url base_url base_domain depth g = Some g' ->
  od_mem d (knowledge_base g') = od_mem d (knowledge_base g) /\
  pages_of d g' = pages_of d g.
Proof.
  intros Hfull.
  assert (od_mem d (knowledge_base g) = true) as Hmem.
  { unfold should_crawl_domain in Hfull. unfold od_mem.
    by destruct (od_get d (knowledge_base g)). }
  apply (crawl_page_keeps cfg W
           (fun g1 => od_mem d (knowledge_base g1) = od_mem d (knowledge_base g) /\
                      pages_of d g1 = pages_of d g)
           (fun _ g1 => od_mem d (knowledge_base g1) = od_mem d (knowledge_base g) /\
                        pages_of d g1 = pages_of d g)); try done.
  - intros u g1. unfold pages_of. by rewrite knowledge_base_robots.
  - intros u d' b g1 [Hm Hp]. unfold ensure_domain.
    destruct (od_mem d' (knowledge_base g1)) eqn:E; [done|].
    assert (d' <> d) as Hne by (intros ->; congruence).
    unfold pages_of, od_mem in *. cbn [knowledge_base set_knowledge_base].
    by rewrite od_get_set_ne.
  - intros u d' page r g1 [Hm Hp] Hr Hgo.
    assert (d' <> d) as Hne.
    { intros ->. rewrite (should_crawl_domain_pages d g1 g Hm Hp) in Hgo. congruence. }
    unfold store_page. rewrite Hr. unfold pages_of, od_mem in *.
    cbn [knowledge_base set_knowledge_base set_stats]. by rewrite od_get_set_ne.
Qed.

Lemma closed_domain_reset d base_domain g :
  od_mem d (knowledge_base (reset_domain_stats base_domain g)) = od_mem d (knowledge_base g) /\
  pages_of d (reset_domain_stats base_domain g) = pages_of d g.
Proof.
  unfold reset_domain_stats, pages_of, od_mem.
  destruct (od_get base_domain (knowledge_base g)) as [r|] eqn:Hr; [|done].
  cbn [knowledge_base set_knowledge_base].
  destruct (decide (base_domain = d)) as [->|Hne].
  - by rewrite od_get_set_eq, Hr.
  - by rewrite od_get_set_ne.
Qed.

(** X11.  A domain for which [should_crawl_domain] says no (it holds
    [max_pages_per_domain] content pages, or three times as many pages)
    gets no page any more: after any further seeds its pages are the same,
    and [should_crawl_domain] still says no. *)
Theorem domain_closed_at_quota d urls g g' :
  should_crawl_domain cfg d g = false ->
  crawl_seeds cfg W urls g = Some g' ->
  pages_of d g' = pages_of d g /\ should_crawl_domain cfg d g' = false.
Proof.
  intros Hfull Hrun.
  assert (od_mem d (knowledge_base g') = od_mem d (knowledge_base g) /\
          pages_of d g' = pages_of d g) as [Hm Hp].
  { apply (crawl_seeds_keeps
             (fun g1 => (od_mem d (knowledge_base g1) = od_mem d (knowledge_base g) /\
                         pages_of d g1 = pages_of d g)) urls g g'); try done.
    - intros fuel url b bd depth g1 g2 [Hm Hp] Hc.
      assert (should_crawl_domain cfg d g1 = false) as Hfull1
        by (by rewrite (should_crawl_domain_pages d g1 g Hm Hp)).
      destruct (closed_domain_crawl_page d _ _ _ _ _ _ _ Hfull1 Hc) as [Hm2 Hp2].
      split; congruence.
    - intros bd g1 [Hm Hp]. destruct (closed_domain_reset d bd g1) as [Hm2 Hp2].
      split; congruence. }
  split; [done|]. by rewrite (should_crawl_domain_pages d g' g Hm Hp).
Qed.

(** *** Pages are only appended *)

Lemma pages_of_store d domain url page r g :
  od_get domain (knowledge_base g) = Some r ->
  od_get url (pages r) = None ->
  pages_of d (store_page domain url page g)
  = pages_of d g ++ (if String.eqb domain d then [(url, page)] else []).
Proof.
  intros Hr Hfresh. unfold store_page. rewrite Hr. unfold pages_of.
  cbn [knowledge_base set_knowledge_base set_stats].
  destruct (String.eqb_spec domain d) as [->|Hne].
  - rewrite od_get_set_eq, Hr. cbn [pages store_record]. by apply od_set_absent.
  - rewrite od_get_set_ne by done. by rewrite app_nil_r.
Qed.

Lemma pages_of_ensure d domain base_url g :
  pages_of d (ensure_domain domain base_url g) = pages_of d g.
Proof.
  unfold ensure_domain, pages_of.
  destruct (od_mem domain (knowledge_base g)) eqn:Hmem; [done|].
  cbn [knowledge_base set_knowledge_base].
  destruct (decide (domain = d)) as [->|Hne].
  - rewrite od_get_set_eq. unfold od_mem in Hmem.
    by destruct (od_get d (knowledge_base g)).
  - by rewrite od_get_set_ne.
Qed.

Lemma InvAt_fresh url domain r g :
  InvAt cfg url g -> od_get domain (knowledge_base g) = Some r ->
  od_get url (pages r) = None.
Proof.
  intros (_ & _ & Hns) Hr. apply od_get_None. intros Hin. apply Hns, stored_urls_elem.
  exists domain, r. split; [by apply od_get_Some_elem | done].
Qed.

(** X12.  A crawl only appends: for every domain, the pages it holds before
    a run are, in the same order and with the same records, the first pages
    it holds after it.  No stored page is overwritten, removed or moved. *)
Theorem pages_only_appended urls g g' :
  reachable cfg W g ->
  crawl_seeds cfg W urls g = Some g' ->
  forall d, pages_of d g `prefix_of` pages_of d g'.
Proof.
  intros Hg Hrun. apply Inv_reachable in Hg.
  assert (Inv cfg g' /\ forall d, pages_of d g `prefix_of` pages_of d g') as [_ H];
    [|exact H].
  apply (crawl_seeds_keeps
           (fun g1 => Inv cfg g1 /\ forall d, pages_of d g `prefix_of` pages_of d g1)
           urls g g'); try done.
  - intros fuel url b bd depth g1 g2 HP.
    apply (crawl_page_keeps cfg W
             (fun g1 => Inv cfg g1 /\ forall d, pages_of d g `prefix_of` pages_of d g1)
             (fun u g1 => InvAt cfg u g1 /\
                          forall d, pages_of d g `prefix_of` pages_of d g1)); try done.
    + intros g0 [HI Hp]. split; [by apply Inv_skip | done].
    + intros u g0 [HI Hp]. split; [by apply Inv_robots|].
      intros d. unfold pages_of. rewrite knowledge_base_robots. apply Hp.
    + intros u g0 [HI Hp] Hnew. split; [by apply Inv_request | done].
    + intros u e g0 [[HI _] Hp]. split; [by apply Inv_record_error | done].
    + intros u g0 [[HI _] Hp]. split; [by apply Inv_skip | done].
    + intros u d' b' g0 [HI Hp]. split; [by apply Inv_ensure|].
      intros d. rewrite pages_of_ensure. apply Hp.
    + intros u d' page r g0 [HI Hp] Hr Hgo. split; [by eapply Inv_store|].
      intros d. rewrite (pages_of_store d d' u page r g0 Hr (InvAt_fresh _ _ _ _ HI Hr)).
      etrans; [apply Hp|]. by apply prefix_app_r.
    + intros e g0 [HI Hp]. split; [by apply Inv_record_error | done].
  - intros bd g1 [HI Hp]. split; [by apply Inv_reset_domain_stats|].
    intros d. destruct (closed_domain_reset d bd g1) as [_ ->]. apply Hp.
Qed.

End RunFacts.

(** The two articles of the small site fill the quota of two; the seed
    [/blog/] then adds nothing. *)
Lemma domain_closed_at_quota_witness :
  should_crawl_domain Scenario.cfg "example.org"
    (Scenario.run Scenario.quiet [Scenario.seed]) = false /\
  pages_of "example.org" (Scenario.run Scenario.quiet [Scenario.seed; Scenario.blog])
  = pages_of "example.org" (Scenario.run Scenario.quiet [Scenario.seed]).
Proof.
  split; [vm_compute; reflexivity|].
  refine (proj1 (domain_closed_at_quota (lib := PyUrllib.lib) Scenario.cfg Scenario.quiet
                   "example.org" [Scenario.blog]
                   (Scenario.run Scenario.quiet [Scenario.seed])
                   (Scenario.run Scenario.quiet [Scenario.seed; Scenario.blog]) _ _));
    vm_compute; reflexivity.
Defined.

(** A second seed of the same domain adds its page after the first one. *)
Lemma pages_only_appended_witness :
  Scenario.stored "example.org" (Scenario.run Scenario.two_sections [Scenario.seed])
  = [(Scenario.seed, 0, "article")] /\
  Scenario.stored "example.org"
    (Scenario.run Scenario.two_sections [Scenario.seed; Scenario.blog])
  = [(Scenario.seed, 0, "article"); (Scenario.blog, 0, "article")] /\
  pages_of "example.org" (Scenario.run Scenario.two_sections [Scenario.seed])
  `prefix_of`
  pages_of "example.org" (Scenario.run Scenario.two_sections [Scenario.seed; Scenario.blog]).
Proof.
  split; [vm_compute; reflexivity|]. split; [vm_compute; reflexivity|].
  refine (pages_only_appended (lib := PyUrllib.lib) Scenario.cfg Scenario.two_sections
            [Scenario.blog]
            (Scenario.run Scenario.two_sections [Scenario.seed])
            (Scenario.run Scenario.two_sections [Scenario.seed; Scenario.blog]) _ _
            "example.org").
  - apply run_reachable. vm_compute; reflexivity.
  - vm_compute; reflexivity.
Defined.

(** ** The counters and the trace of requests *)

Section Reachable.
Context {lib : Urllib.UrlLib} (cfg : Config) (W : World).
Context (P : Generator -> Prop) (P' : string -> Generator -> Prop).

(** What a new generator has and every update of a crawl keeps holds of
    every generator that a run can reach. *)
Lemma reachable_keeps :
  P new_generator ->
  (forall g, P g -> P (skip_page g)) ->
  (forall url g, P g -> P (snd (is_allowed_by_robots cfg W url g))) ->
  (forall url g, P g -> url ∉ visited_urls g -> P' url (log_request url (mark_visited url g))) ->
  (forall url e g, P' url g -> P (record_error e g)) ->
  (forall url g, P' url g -> P (skip_page g)) ->
  (forall url domain base_url g, P' url g -> P' url (ensure_domain domain base_url g)) ->
  (forall url domain page r g,
     P' url g -> od_get domain (knowledge_base g) = Some r ->
     should_crawl_domain cfg domain g = true -> P (store_page domain url page g)) ->
  (forall e g, P g -> P (record_error e g)) ->
  (forall base_domain g, P g -> P (reset_domain_stats base_domain g)) ->
  forall g, reachable cfg W g -> P g.
Proof.
  intros Hnew H1 H2 H3 H4 H5 H6 H7 H8 Hreset g Hg.
  induction Hg as [|u bu bd d g Hg IH|bd g Hg IH|fuel u bu bd d g g' Hg IH E
                  |u g g' Hg IH E].
  - done.
  - by apply (visit_page_keeps cfg W P P' H1 H2 H3 H4 H5 H6 H7 H8).
  - by apply Hreset.
  - by apply (crawl_page_keeps cfg W P P' H1 H2 H3 H4 H5 H6 H7 H8 fuel u bu bd d g g').
  - unfold crawl_website in E.
    eapply (crawl_page_keeps cfg W P P' H1 H2 H3 H4 H5 H6 H7 H8); [|exact E].
    by apply Hreset.
Qed.

End Reachable.

Lemma total_pages_stored (kb : list (string * DomainRecord)) :
  foldr (fun kv n => length (pages (snd kv)) + n) 0 kb
  = length (kb ≫= (fun kv => od_keys (pages (snd kv)))).
Proof.
  induction kb as [|[d r] kb IH]; [done|].
  rewrite bind_cons, length_app. cbn [foldr snd]. unfold od_keys at 1.
  by rewrite length_fmap, IH.
Qed.

Lemma stored_urls_ensure domain base_url g :
  stored_urls (ensure_domain domain base_url g) = stored_urls g.
Proof.
  unfold ensure_domain. destruct (od_mem domain (knowledge_base g)) eqn:Hmem; [done|].
  assert (od_get domain (knowledge_base g) = None) as Hnone
    by (unfold od_mem in Hmem; by destruct (od_get domain (knowledge_base g))).
  unfold stored_urls. cbn [knowledge_base set_knowledge_base].
  rewrite od_set_absent by done. rewrite bind_app. simpl. by rewrite !app_nil_r.
Qed.

Lemma stored_urls_reset base_domain g :
  stored_urls (reset_domain_stats base_domain g) = stored_urls g.
Proof.
  unfold reset_domain_stats.
  destruct (od_get base_domain (knowledge_base g)) as [r|] eqn:Hr; [|done].
  destruct (stored_urls_around g base_domain r Hr) as (a & b & Hold & Hnew).
  by rewrite Hnew, Hold.
Qed.

Lemma stored_urls_store domain url page r g :
  od_get domain (knowledge_base g) = Some r ->
  (forall u, u ∈ stored_urls (store_page domain url page g) ->
             u ∈ stored_urls g \/ u = url) /\
  (od_get url (pages r) = None ->
   length (stored_urls (store_page domain url page g)) = S (length (stored_urls g))).
Proof.
  intros Hr. unfold store_page. rewrite Hr.
  destruct (stored_urls_around g domain r Hr) as (a & b & Hold & Hnew).
  change (stored_urls (set_stats _ ?g0)) with (stored_urls g0).
  rewrite Hnew, Hold. cbn [pages store_record]. split.
  - intros u. rewrite !elem_of_app.
    destruct (od_get url (pages r)) as [p|] eqn:E.
    + rewrite od_keys_set_present by (unfold od_mem; by rewrite E). tauto.
    + rewrite od_keys_set_absent by done. rewrite elem_of_app, list_elem_of_singleton.
      tauto.
  - intros E. rewrite od_keys_set_absent by done. rewrite !length_app. cbn [length]. lia.
Qed.

Section Counters.
Context {lib : Urllib.UrlLib} (cfg : Config) (W : World).

Lemma counters_robots url g :
  pages_crawled (stats (snd (is_allowed_by_robots cfg W url g))) = pages_crawled (stats g) /\
  errors (stats (snd (is_allowed_by_robots cfg W url g))) = errors (stats g) /\
  pages_skipped (stats g) <= pages_skipped (stats (snd (is_allowed_by_robots cfg W url g))).
Proof.
  unfold is_allowed_by_robots. destruct (respect_robots cfg); cbn [negb]; [|done].
  destruct (od_get _ (robot_parsers g)) as [parser|].
  - destruct (parser url); cbn; repeat split; lia.
  - destruct (robots_read W _ _) as [parser|]; [|done].
    destruct (parser url); cbn; repeat split; lia.
Qed.

Lemma stored_urls_robots url g :
  stored_urls (snd (is_allowed_by_robots cfg W url g)) = stored_urls g.
Proof. unfold stored_urls. by rewrite knowledge_base_robots. Qed.

Lemma pages_crawled_stored g :
  reachable cfg W g -> pages_crawled (stats g) = length (stored_urls g).
Proof.
  intros Hg.
  assert (Inv cfg g /\ pages_crawled (stats g) = length (stored_urls g)) as [_ H];
    [|done].
  revert g Hg.
  apply (reachable_keeps cfg W
           (fun g => Inv cfg g /\ pages_crawled (stats g) = length (stored_urls g))
           (fun u g => InvAt cfg u g /\ pages_crawled (stats g) = length (stored_urls g))).
  - split; [apply Inv_new | done].
  - intros g [HI H]. split; [by apply Inv_skip | done].
  - intros u g [HI H]. split; [by apply Inv_robots|].
    rewrite stored_urls_robots. by destruct (counters_robots u g) as [-> _].
  - intros u g [HI H] Hnew. split; [by apply Inv_request | done].
  - intros u e g [[HI _] H]. split; [by apply Inv_record_error | done].
  - intros u g [[HI _] H]. split; [by apply Inv_skip | done].
  - intros u d b g [HI H]. split; [by apply Inv_ensure|].
    rewrite stored_urls_ensure. destruct (stats_ensure d b g) as [-> _]. done.
  - intros u d page r g [HI H] Hr Hgo. split; [by eapply Inv_store|].
    destruct (stored_urls_store d u page r g Hr) as [_ ->];
      [|by eapply InvAt_fresh].
    unfold store_page. rewrite Hr. cbn. by rewrite H.
  - intros e g [HI H]. split; [by apply Inv_record_error | done].
  - intros d g [HI H]. split; [by apply Inv_reset_domain_stats|].
    rewrite stored_urls_reset. unfold reset_domain_stats.
    by destruct (od_get d (knowledge_base g)).
Qed.

(** X13.  In every generator that a run can reach, [stats["pages_crawled"]]
    is the number of pages in the knowledge base, so the [total_pages] that
    [add_metadata] computes equals the [pages_crawled] it reports. *)
Theorem pages_crawled_counts_store g :
  reachable cfg W g ->
  pages_crawled (stats g) = length (stored_urls g) /\
  total_pages ∘ statistics <$> metadata (add_metadata W g) = Some (pages_crawled (stats g)) /\
  meta_pages_crawled ∘ statistics <$> metadata (add_metadata W g)
  = Some (pages_crawled (stats g)).
Proof.
  intros Hg. pose proof (pages_crawled_stored g Hg) as H.
  split; [done|]. cbn. rewrite total_pages_stored. fold (stored_urls g). by rewrite H.
Qed.

(** X14.  In every generator that a run can reach, every stored page was
    requested, and every request is accounted for: the number of requests is
    at most the sum of the three counters of [stats]. *)
Theorem requests_are_accounted g :
  reachable cfg W g ->
  (forall url, url ∈ stored_urls g -> url ∈ fetched g) /\
  length (stored_urls g) <= length (fetched g) /\
  length (fetched g)
  <= pages_crawled (stats g) + pages_skipped (stats g) + errors (stats g).
Proof.
  intros Hg.
  assert ((forall url, url ∈ stored_urls g -> url ∈ fetched g) /\
          length (fetched g)
          <= pages_crawled (stats g) + pages_skipped (stats g) + errors (stats g))
    as [Hsub Hlen].
  { revert g Hg.
    apply (reachable_keeps cfg W
             (fun g => (forall url, url ∈ stored_urls g -> url ∈ fetched g) /\
                       length (fetched g)
                       <= pages_crawled (stats g) + pages_skipped (stats g)
                          + errors (stats g))
             (fun u g => (forall url, url ∈ stored_urls g -> url ∈ fetched g) /\
                         u ∈ fetched g /\
                         length (fetched g)
                         <= S (pages_crawled (stats g) + pages_skipped (stats g)
                               + errors (stats g)))).
    - split; [|done]. intros url H. by apply elem_of_nil in H.
    - intros g [Hs Hl]. split; [done|]. cbn. lia.
    - intros u g [Hs Hl]. rewrite stored_urls_robots, fetched_robots.
      split; [done|]. destruct (counters_robots u g) as (-> & -> & ?). lia.
    - intros u g [Hs Hl] _. cbn. split; [|split].
      + intros url Hin. apply elem_of_app. left. by apply Hs.
      + apply elem_of_app. right. apply list_elem_of_here.
      + rewrite length_app. cbn. lia.
    - intros u e g (Hs & _ & Hl). split; [done|]. cbn. lia.
    - intros u g (Hs & _ & Hl). split; [done|]. cbn. lia.
    - intros u d b g (Hs & Hu & Hl). rewrite stored_urls_ensure.
      destruct (visited_ensure d b g) as [_ ->].
      destruct (stats_ensure d b g) as [-> _]. done.
    - intros u d page r g (Hs & Hu & Hl) Hr _.
      destruct (visited_store d u page g) as [_ Hf]. rewrite Hf. split.
      + intros url Hin.
        destruct (proj1 (stored_urls_store d u page r g Hr) url Hin) as [?| ->];
          [by apply Hs | done].
      + unfold store_page. rewrite Hr. cbn. lia.
    - intros e g [Hs Hl]. split; [done|]. cbn. lia.
    - intros d g [Hs Hl]. rewrite stored_urls_reset.
      unfold reset_domain_stats. by destruct (od_get d (knowledge_base g)). }
  split; [done|]. split; [|done].
  apply Inv_reachable in Hg.
  apply submseteq_length, NoDup_submseteq; [apply (inv_stored_once cfg g Hg)|].
  intros url. apply Hsub.
Qed.

End Counters.

(** The run of the small site stores two pages. *)
Lemma pages_crawled_counts_store_witness :
  pages_crawled (stats (Scenario.run Scenario.quiet [Scenario.seed])) = 2 /\
  length (stored_urls (Scenario.run Scenario.quiet [Scenario.seed])) = 2 /\
  pages_crawled (stats (Scenario.run Scenario.quiet [Scenario.seed]))
  = length (stored_urls (Scenario.run Scenario.quiet [Scenario.seed])).
Proof.
  split; [vm_compute; reflexivity|]. split; [vm_compute; reflexivity|].
  refine (proj1 (pages_crawled_counts_store (lib := PyUrllib.lib) Scenario.cfg
                   Scenario.quiet (Scenario.run Scenario.quiet [Scenario.seed]) _)).
  apply run_reachable. vm_compute; reflexivity.
Defined.

(** The seed page with three links that answer 404 and five that answer
    with a PDF: nine requests, one page, five skips, three errors. *)
Lemma requests_are_accounted_witness :
  length (fetched (Scenario.run Scenario.faulty [Scenario.seed])) = 9 /\
  stats (Scenario.run Scenario.faulty [Scenario.seed])
  = {| pages_crawled := 1; pages_skipped := 5; errors := 3 |} /\
  length (fetched (Scenario.run Scenario.faulty [Scenario.seed]))
  <= pages_crawled (stats (Scenario.run Scenario.faulty [Scenario.seed]))
     + pages_skipped (stats (Scenario.run Scenario.faulty [Scenario.seed]))
     + errors (stats (Scenario.run Scenario.faulty [Scenario.seed])).
Proof.
  split; [vm_compute; reflexivity|]. split; [vm_compute; reflexivity|].
  refine (proj2 (proj2 (requests_are_accounted (lib := PyUrllib.lib) Scenario.cfg
                          Scenario.faulty (Scenario.run Scenario.faulty [Scenario.seed]) _))).
  apply run_reachable. vm_compute; reflexivity.
Defined.

(** ** The pages of the knowledge base *)

Lemma od_set_Forall {V} (Q : string * V -> Prop) (k : string) (v : V)
    (d : list (string * V)) :
  Forall Q d -> Q (k, v) -> Forall Q (od_set k v d).
Proof.
  intros Hd Hv. induction d as [|[k' v'] d IH]; cbn [od_set].
  - by apply Forall_cons.
  - apply Forall_cons in Hd as [Hh Hd]. destruct (String.eqb k k').
    + by apply Forall_cons.
    + apply Forall_cons. split; [done | by apply IH].
Qed.

Section StoredPages.
Context {lib : Urllib.UrlLib} (cfg : Config) (W : World).

Lemma shape_ensure base_url g :
  well_stored cfg W g -> well_stored cfg W (ensure_domain (get_domain base_url) base_url g).
Proof.
  intros H. unfold ensure_domain. destruct (od_mem _ _); [done|].
  unfold well_stored in *.
  cbn [knowledge_base set_knowledge_base]. apply od_set_Forall; [done|].
  split; [done|]. apply Forall_nil_2.
Qed.

Lemma shape_store url base_url depth now soup r g :
  well_stored cfg W g ->
  od_get (get_domain base_url) (knowledge_base g) = Some r ->
  (content_only cfg = true ->
   is_content_rich_page (classify_page (avoid_iteration cfg) url base_url (Some soup))
     (Some soup) = true \/
   classify_page (avoid_iteration cfg) url base_url (Some soup) = "homepage") ->
  well_stored cfg W (store_page (get_domain base_url) url
           (page_record cfg W url base_url depth now soup) g).
Proof.
  intros H Hr Hrich. unfold store_page. rewrite Hr. unfold well_stored in *.
  cbn [knowledge_base set_knowledge_base set_stats]. apply od_set_Forall; [done|].
  apply od_get_Some_elem in Hr. rewrite Forall_forall in H.
  destruct (H _ Hr) as [Hd Hp]. split; [done|].
  cbn [snd pages store_record]. apply od_set_Forall; [done|].
  exists base_url, depth, now, soup. by split.
Qed.

Lemma shape_reset base_domain g : well_stored cfg W g -> well_stored cfg W (reset_domain_stats base_domain g).
Proof.
  intros H. unfold reset_domain_stats.
  destruct (od_get base_domain (knowledge_base g)) as [r|] eqn:Hr; [|done].
  unfold well_stored in *.
  cbn [knowledge_base set_knowledge_base]. apply od_set_Forall; [done|].
  apply od_get_Some_elem in Hr. rewrite Forall_forall in H. by destruct (H _ Hr).
Qed.

Lemma shape_handle_document url base_url base_domain depth now soup g :
  well_stored cfg W g -> well_stored cfg W (fst (handle_document cfg W url base_url base_domain depth now soup g)).
Proof.
  intros H. unfold handle_document.
  destruct (content_only cfg
            && negb (is_content_rich_page
                       (classify_page (avoid_iteration cfg) url base_url (Some soup))
                       (Some soup))
            && negb (String.eqb (classify_page (avoid_iteration cfg) url base_url (Some soup))
                       "homepage")) eqn:Hfilter; [done|].
  pose proof (shape_ensure base_url g H) as H3.
  pose proof (ensure_domain_present (get_domain base_url) base_url g) as Hmem.
  set (g3 := ensure_domain _ _ g) in *. clearbody g3.
  destruct (should_crawl_domain cfg (get_domain base_url) g3); cbn [negb]; [|done].
  unfold od_mem in Hmem.
  destruct (od_get (get_domain base_url) (knowledge_base g3)) as [r|] eqn:Hr; [|done].
  assert (well_stored cfg W (store_page (get_domain base_url) url
                   (page_record cfg W url base_url depth now soup) g3)) as H4.
  { apply (shape_store _ _ _ _ _ r); [done | done |]. intros Hco.
    rewrite Hco in Hfilter. cbn [andb] in Hfilter.
    destruct (is_content_rich_page _ _); [by left|]. cbn [negb andb] in Hfilter.
    apply negb_false_iff, String.eqb_eq in Hfilter. by right. }
  set (g4 := store_page _ _ _ g3) in *. clearbody g4.
  destruct (should_crawl_domain cfg (get_domain base_url) g4); cbn [negb]; [|done].
  by destruct (anchors soup).
Qed.

Lemma shape_visit_page url base_url base_domain depth g :
  well_stored cfg W g -> well_stored cfg W (fst (visit_page cfg W url base_url base_domain depth g)).
Proof.
  intros H. unfold visit_page. case_bool_decide; [done|].
  destruct (should_crawl_domain cfg _ g); cbn [negb]; [|done].
  destruct (fst (is_allowed_by_robots cfg W _ g)); cbn [negb fst];
    [|unfold well_stored; by rewrite knowledge_base_robots].
  assert (well_stored cfg W (requested cfg W (clean_url url) g)) as H2.
  { unfold requested, well_stored. cbn [knowledge_base log_request mark_visited].
    by rewrite knowledge_base_robots. }
  unfold handle_response.
  destruct (http_get W _ _) as [e|response]; [done|].
  destruct (negb (status_code response =? 200)%Z); [done|].
  destruct (negb (PyStr.contains _ _)); [done|].
  destruct (body response) as [e|soup]; [done|].
  by apply shape_handle_document.
Qed.

Lemma shape_crawl_page fuel url base_url base_domain depth g g' :
  well_stored cfg W g -> crawl_page cfg W fuel url base_url base_domain depth g = Some g' -> well_stored cfg W g'.
Proof.
  revert url depth g g'. induction fuel as [|fuel IH]; intros url depth g g' H; [done|].
  cbn [crawl_page].
  pose proof (shape_visit_page url base_url base_domain depth g H) as H1.
  destruct (visit_page cfg W url base_url base_domain depth g) as [g1 [[cl ol]|]];
    cbn [fst] in H1; [|by intros [= <-]].
  destruct (for_each _ _ cl g1) as [g2|] eqn:E; [|done].
  intros E'.
  assert (forall xs ga gb,
            well_stored cfg W ga ->
            for_each (should_crawl_domain cfg (get_domain base_url))
              (fun next_url => crawl_page cfg W fuel next_url base_url base_domain (depth + 1))
              xs ga = Some gb -> well_stored cfg W gb) as Hloop.
  { intros xs ga gb. apply (for_each_keeps (well_stored cfg W)). intros x g0 g0'. apply IH. }
  eapply Hloop; [|exact E']. by eapply Hloop; [|exact E].
Qed.

Lemma shape_reachable g : reachable cfg W g -> well_stored cfg W g.
Proof.
  induction 1.
  - apply Forall_nil_2.
  - by apply shape_visit_page.
  - by apply shape_reset.
  - by eapply shape_crawl_page.
  - match goal with E : crawl_website _ _ _ _ = Some _ |- _ => unfold crawl_website in E end.
    eapply shape_crawl_page; [|eassumption]. by apply shape_reset.
Qed.

Lemma avoid_type_poor page_type soup :
  is_content_rich_page page_type soup = true \/ page_type = "homepage" ->
  mem (PyStr.lower page_type) avoid_page_types = false.
Proof.
  intros [H| ->]; [|by vm_compute].
  destruct (mem (PyStr.lower page_type) avoid_page_types) eqn:E; [|done].
  destruct (avoid_type_not_rich page_type soup E) as [H' _]. congruence.
Qed.

(** X15.  In every generator that a run can reach, every domain is stored
    under the netloc of its base url, and every page is the record built
    from the url it is stored under: its content carries that url, its
    type is the one [classify_page] gives that url, and its title, headings,
    paragraphs and lists are those that [extract_text_with_structure]
    returns for some document. *)
Theorem stored_pages_are_records g d r url page :
  reachable cfg W g ->
  od_get d (knowledge_base g) = Some r ->
  od_get url (pages r) = Some page ->
  d = get_domain (base_url r) /\
  content_url (content page) = (if PyStr.is_empty url then None else Some url) /\
  exists base_url soup,
    page_type page = classify_page (avoid_iteration cfg) url base_url (Some soup) /\
    content page = extract_text_with_structure soup url.
Proof.
  intros Hg Hr Hp. apply shape_reachable in Hg. unfold well_stored in Hg.
  rewrite Forall_forall in Hg.
  destruct (Hg _ (od_get_Some_elem _ _ _ Hr)) as [Hd Hpages]. cbn [fst snd] in *.
  split; [done|]. rewrite Forall_forall in Hpages.
  destruct (Hpages _ (od_get_Some_elem _ _ _ Hp)) as (b & depth & now & soup & E & _).
  cbn [fst snd] in E. subst page. cbn. split; [done|]. by exists b, soup.
Qed.

(** X16.  In content-only mode no page whose type is a term of the
    deny-list is stored: in every generator that a run can reach, every
    stored page is content rich by [is_content_rich_page] or has the type
    ["homepage"]. *)
Theorem content_only_stores_no_avoided_type g d r url page :
  reachable cfg W g ->
  content_only cfg = true ->
  od_get d (knowledge_base g) = Some r ->
  od_get url (pages r) = Some page ->
  mem (PyStr.lower (page_type page)) avoid_page_types = false /\
  exists soup,
    is_content_rich_page (page_type page) (Some soup) = true \/
    page_type page = "homepage".
Proof.
  intros Hg Hco Hr Hp. apply shape_reachable in Hg. unfold well_stored in Hg.
  rewrite Forall_forall in Hg.
  destruct (Hg _ (od_get_Some_elem _ _ _ Hr)) as [_ Hpages]. cbn [snd] in *.
  rewrite Forall_forall in Hpages.
  destruct (Hpages _ (od_get_Some_elem _ _ _ Hp)) as (b & depth & now & soup & _ & Hrich).
  cbn [snd] in Hrich. split; [|by exists soup; apply Hrich].
  by apply (avoid_type_poor _ (Some soup)), Hrich.
Qed.

End StoredPages.

(** The seed page of the small site. *)
Lemma stored_pages_are_records_witness :
  "example.org"
  = get_domain (lib := PyUrllib.lib)
      (base_url (Scenario.record_of "example.org"
                   (Scenario.run Scenario.quiet [Scenario.seed]))) /\
  content_url (content (stored_page "example.org" Scenario.seed
                          (Scenario.run Scenario.quiet [Scenario.seed])))
  = (if PyStr.is_empty Scenario.seed then None else Some Scenario.seed).
Proof.
  pose proof (stored_pages_are_records (lib := PyUrllib.lib) Scenario.cfg Scenario.quiet
                (Scenario.run Scenario.quiet [Scenario.seed]) "example.org"
                (Scenario.record_of "example.org"
                   (Scenario.run Scenario.quiet [Scenario.seed]))
                Scenario.seed
                (stored_page "example.org" Scenario.seed
                   (Scenario.run Scenario.quiet [Scenario.seed]))) as H.
  destruct H as (H1 & H2 & _).
  - apply run_reachable. vm_compute; reflexivity.
  - vm_compute; reflexivity.
  - vm_compute; reflexivity.
  - exact (conj H1 H2).
Defined.

(** On the site where [/about] is a page of its own, [/about] is requested
    and not stored; the page [/toolbox/a], of the type ["toolbox"], is. *)
Lemma content_only_stores_no_avoided_type_witness :
  Scenario.stored "example.org" (Scenario.run Scenario.sparse [Scenario.seed])
  = [(Scenario.seed, 0, "article"); (Scenario.toolbox_a, 1, "toolbox")] /\
  mem (PyStr.lower
         (page_type (stored_page "example.org" Scenario.toolbox_a
                       (Scenario.run Scenario.sparse [Scenario.seed]))))
      avoid_page_types = false.
Proof.
  split; [vm_compute; reflexivity|].
  refine (proj1 (content_only_stores_no_avoided_type (lib := PyUrllib.lib) Scenario.cfg
                   Scenario.sparse (Scenario.run Scenario.sparse [Scenario.seed])
                   "example.org"
                   (Scenario.record_of "example.org"
                      (Scenario.run Scenario.sparse [Scenario.seed]))
                   Scenario.toolbox_a
                   (stored_page "example.org" Scenario.toolbox_a
                      (Scenario.run Scenario.sparse [Scenario.seed])) _ _ _ _)).
  - apply run_reachable. vm_compute; reflexivity.
  - reflexivity.
  - vm_compute; reflexivity.
  - vm_compute; reflexivity.
Defined.

(** ** Headings and lists *)






(** ** More on the deduplication pass *)

Section DedupMore.
Context (md5 : string -> string).

Lemma dedup_paragraphs_count url ps :
  forall hashes n acc,
    snd (fst (foldl (dedup_paragraph md5 url) ((hashes, n), acc) ps))
    + length (snd (foldl (dedup_paragraph md5 url) ((hashes, n), acc) ps))
    = n + length acc + length ps.
Proof.
  induction ps as [|p ps IH]; intros hashes n acc; [cbn; lia|].
  cbn [foldl]. unfold dedup_paragraph at 2 4.
  destruct (od_get (text_hash md5 p) hashes) as [o|].
  - destruct (negb (String.eqb o url)); rewrite IH; rewrite ?length_app; cbn [length]; lia.
  - rewrite IH, length_app. cbn [length]. lia.
Qed.

Lemma dedup_pages_count ps :
  forall hashes n,
    snd (fst (dedup_pages md5 (hashes, n) ps))
    + foldr (fun page m => length (paragraphs (content (snd page))) + m) 0
            (snd (dedup_pages md5 (hashes, n) ps))
    = n + foldr (fun page m => length (paragraphs (content (snd page))) + m) 0 ps.
Proof.
  induction ps as [|[url page] ps IH]; intros hashes n; [cbn; lia|].
  cbn [dedup_pages]. unfold dedup_paragraphs.
  pose proof (dedup_paragraphs_count url (paragraphs (content page)) hashes n []) as Hc.
  unfold DedupState in *. revert Hc.
  destruct (foldl _ _ _) as [[h1 n1] kept]. cbn [fst snd length]. intros Hc.
  specialize (IH h1 n1). revert IH.
  destruct (dedup_pages md5 _ ps) as [[h2 n2] ps']. cbn [fst snd]. intros IH.
  cbn [foldr snd set_paragraphs content paragraphs]. lia.
Qed.

Lemma dedup_domains_count kb :
  forall hashes n,
    snd (fst (dedup_domains md5 (hashes, n) kb))
    + total_paragraphs (snd (dedup_domains md5 (hashes, n) kb))
    = n + total_paragraphs kb.
Proof.
  induction kb as [|[domain r] kb IH]; intros hashes n; [cbn; lia|].
  cbn [dedup_domains].
  destruct (String.eqb domain "_metadata").
  - specialize (IH hashes n). unfold DedupState in *. revert IH.
    destruct (dedup_domains md5 _ kb) as [[h1 n1] kb']. cbn [fst snd]. intros IH.
    unfold total_paragraphs in *. cbn [foldr snd]. lia.
  - pose proof (dedup_pages_count (pages r) hashes n) as Hp. unfold DedupState in *.
    revert Hp.
    destruct (dedup_pages md5 _ (pages r)) as [[h1 n1] ps']. cbn [fst snd]. intros Hp.
    specialize (IH h1 n1). revert IH.
    destruct (dedup_domains md5 _ kb) as [[h2 n2] kb']. cbn [fst snd]. intros IH.
    unfold total_paragraphs in *. cbn [foldr snd set_pages pages]. lia.
Qed.

(** X18.  The number that [remove_duplicate_content] prints is the number
    of paragraphs that the pass drops: the paragraphs that are left and the
    count add up to the paragraphs there were.  Every paragraph of the key
    ["_metadata"] is left. *)
Theorem duplicates_removed_is_the_loss (g : Generator) :
  duplicates_removed md5 g
  + total_paragraphs (knowledge_base (remove_duplicate_content md5 g))
  = total_paragraphs (knowledge_base g).
Proof.
  unfold duplicates_removed, remove_duplicate_content.
  cbn [knowledge_base set_knowledge_base].
  apply (dedup_domains_count (knowledge_base g) [] 0).
Qed.

(** *** What the pass leaves of a page *)

Lemma retained_sublist all url ps :
  forall earlier, retained md5 all url earlier ps `sublist_of` ps.
Proof.
  induction ps as [|p ps IH]; intros earlier; [done|]. cbn [retained].
  destruct (_ && _); [by apply sublist_cons | by apply sublist_skip].
Qed.

Lemma retained_head all url ps :
  head (retained md5 all url [] ps) = head ps.
Proof.
  destruct ps as [|p ps]; [done|]. cbn [retained].
  replace (has_hash md5 (text_hash md5 p) []) with false by done.
  by rewrite andb_false_r.
Qed.

Lemma od_get_map {V} (F : string -> V -> V) (k : string) (d : list (string * V)) :
  od_get k (map (fun kv => (fst kv, F (fst kv) (snd kv))) d) = F k <$> od_get k d.
Proof.
  induction d as [|[k' v] d IH]; [done|]. cbn [map od_get fst snd].
  destruct (String.eqb_spec k k') as [->|]; [done | apply IH].
Qed.

Lemma retained_knowledge_base_map kb all :
  map (fun kv => if String.eqb (fst kv) "_metadata" then kv
                 else (fst kv, set_pages (retained_pages md5 all (pages (snd kv))) (snd kv)))
      kb
  = map (fun kv => (fst kv,
                    (fun d r => if String.eqb d "_metadata" then r
                                else set_pages (retained_pages md5 all (pages r)) r)
                      (fst kv) (snd kv))) kb.
Proof.
  apply map_ext. intros [d r]. cbn [fst snd]. by destruct (String.eqb d "_metadata").
Qed.

Lemma remove_duplicate_content_retained g :
  NoDup (visited_pages (knowledge_base g)).*1 ->
  knowledge_base (remove_duplicate_content md5 g)
  = retained_knowledge_base md5 (knowledge_base g).
Proof.
  intros Hnd. unfold remove_duplicate_content. cbn [knowledge_base set_knowledge_base].
  destruct (dedup_domains_retained md5 (visited_pages (knowledge_base g)) (knowledge_base g)
              [] [] [] 0) as (H' & n' & Hrun & _); [by rewrite app_nil_r | done | done |].
  by rewrite Hrun.
Qed.

(** X19.  When no url is the key of two pages, the pass keeps every domain
    and every page under its key, with its type, depth, time, title,
    description, headings and lists; the paragraphs it leaves on a page are
    some of the paragraphs of the page in their order, and the first
    paragraph of a page is always left: no page loses all its paragraphs. *)
Theorem dedup_keeps_pages (g : Generator) (d url : string) (r : DomainRecord)
    (page : PageRecord) :
  NoDup (visited_pages (knowledge_base g)).*1 ->
  od_get d (knowledge_base g) = Some r ->
  od_get url (pages r) = Some page ->
  exists r' page',
    od_get d (knowledge_base (remove_duplicate_content md5 g)) = Some r' /\
    od_get url (pages r') = Some page' /\
    base_url r' = base_url r /\ domain_stats r' = domain_stats r /\
    od_keys (pages r') = od_keys (pages r) /\
    page' = set_paragraphs (paragraphs (content page')) page /\
    paragraphs (content page') `sublist_of` paragraphs (content page) /\
    head (paragraphs (content page')) = head (paragraphs (content page)).
Proof.
  intros Hnd Hr Hp. rewrite (remove_duplicate_content_retained g Hnd).
  unfold retained_knowledge_base. rewrite retained_knowledge_base_map.
  rewrite (od_get_map
             (fun d r => if String.eqb d "_metadata" then r
                         else set_pages
                                (retained_pages md5 (visited_pages (knowledge_base g))
                                   (pages r)) r) d (knowledge_base g)), Hr.
  cbn [fmap option_fmap option_map].
  destruct (String.eqb d "_metadata").
  - exists r, page. repeat split; try done. by destruct page as [? []].
  - eexists _, _. split; [done|]. cbn [pages set_pages base_url domain_stats].
    unfold retained_pages.
    rewrite (od_get_map (fun u pg =>
               set_paragraphs
                 (retained md5 (visited_pages (knowledge_base g)) u []
                    (paragraphs (content pg))) pg) url (pages r)), Hp.
    cbn [fmap option_fmap option_map]. split; [done|]. split; [done|]. split; [done|].
    split.
    { unfold od_keys. rewrite <- list_fmap_compose. apply list_fmap_ext.
      by intros i [u pg] _. }
    cbn [set_paragraphs content paragraphs]. split; [done|].
    split; [apply retained_sublist | apply retained_head].
Qed.

End DedupMore.

(** On the two pages with a shared paragraph, page B keeps both of its
    paragraphs and page A loses its third one. *)
Lemma dedup_keeps_pages_witness :
  NoDup (visited_pages (knowledge_base Shared.before)).*1 /\
  exists r' page',
    od_get "example.org"
      (knowledge_base (remove_duplicate_content (fun s => s) Shared.before)) = Some r' /\
    od_get "https://example.org/a" (pages r') = Some page' /\
    paragraphs (content page')
    `sublist_of` ["Caregiving is hard"; "An introduction"; "caregiving  IS hard"] /\
    head (paragraphs (content page')) = Some "Caregiving is hard".
Proof.
  assert (NoDup (visited_pages (knowledge_base Shared.before)).*1) as Hnd.
  { vm_compute. repeat constructor; rewrite ?list_elem_of_singleton; set_solver. }
  split; [exact Hnd|].
  destruct (dedup_keeps_pages (fun s => s) Shared.before "example.org"
              "https://example.org/a"
              (Shared.domain
                 [("https://example.org/a",
                   Shared.page ["Caregiving is hard"; "An introduction";
                                "caregiving  IS hard"]);
                  ("https://example.org/b",
                   Shared.page ["caregiving is hard"; "Caregiving is hard"])])
              (Shared.page ["Caregiving is hard"; "An introduction"; "caregiving  IS hard"])
              Hnd eq_refl eq_refl)
    as (r' & page' & H1 & H2 & _ & _ & _ & _ & H3 & H4).
  exists r', page'. exact (conj H1 (conj H2 (conj H3 H4))).
Defined.

(** *** The pass run twice *)

Section DedupTwice.
Context (md5 : string -> string).

(** The hashes of a page are the hashes of what the pass leaves of it. *)
Lemma retained_has_hash all url h ps :
  forall earlier,
    has_hash md5 h (earlier ++ retained md5 all url earlier ps)
    = has_hash md5 h (earlier ++ ps).
Proof.
  induction ps as [|p ps IH]; intros earlier; [done|]. cbn [retained].
  destruct (bool_decide _ && has_hash md5 (text_hash md5 p) earlier) eqn:Hdrop.
  - apply andb_true_iff in Hdrop as [_ Hin].
    replace (earlier ++ p :: ps) with ((earlier ++ [p]) ++ ps) by by rewrite <- app_assoc.
    rewrite <- IH. unfold has_hash in *. rewrite !existsb_app. cbn [existsb].
    destruct (String.eqb_spec (text_hash md5 p) h) as [<-|]; [by rewrite Hin|].
    by rewrite orb_false_r.
  - replace (earlier ++ p :: ps) with ((earlier ++ [p]) ++ ps) by by rewrite <- app_assoc.
    rewrite <- IH. by rewrite <- app_assoc.
Qed.

Lemma owner_left all l h :
  owner md5 (left_of md5 all <$> l) h = owner md5 l h.
Proof.
  induction l as [|[u ps] l IH]; [done|]. rewrite fmap_cons. unfold left_of at 1.
  cbn [fst snd]. rewrite !(owner_cons md5), IH.
  pose proof (retained_has_hash all u h ps []) as E. cbn [app] in E. by rewrite E.
Qed.

Lemma visited_pages_left all kb :
  visited_pages
    (map (fun kv => if String.eqb (fst kv) "_metadata" then kv
                    else (fst kv, set_pages (retained_pages md5 all (pages (snd kv)))
                                            (snd kv))) kb)
  = left_of md5 all <$> visited_pages kb.
Proof.
  induction kb as [|[d r] kb IH]; [done|]. cbn [map fst snd].
  unfold visited_pages in *. destruct (String.eqb d "_metadata") eqn:Hd.
  - rewrite !bind_cons. cbn [fst snd]. rewrite Hd, IH. done.
  - rewrite !bind_cons. cbn [fst snd pages set_pages]. rewrite Hd, IH, fmap_app.
    f_equal. unfold retained_pages. rewrite <- !list_fmap_compose.
    apply list_fmap_ext. by intros i [u pg] _.
Qed.

Lemma retained_again all all' url ps :
  (forall h, owner md5 all' h = owner md5 all h) ->
  forall earlier earlier',
    (forall h, has_hash md5 h earlier' = true -> has_hash md5 h earlier = true) ->
    retained md5 all' url earlier' (retained md5 all url earlier ps)
    = retained md5 all url earlier ps.
Proof.
  intros Hown. induction ps as [|p ps IH]; intros earlier earlier' Hsub; [done|].
  assert (forall q h, has_hash md5 h (earlier' ++ [q]) = true ->
                      has_hash md5 h (earlier ++ [q]) = true) as Hsnoc.
  { intros q h. rewrite !(has_hash_snoc md5), !orb_true_iff. intros [H|H]; auto. }
  cbn [retained].
  destruct (bool_decide _ && has_hash md5 (text_hash md5 p) earlier) eqn:Hdrop.
  - apply IH. intros h Hh. rewrite (has_hash_snoc md5). apply orb_true_iff. auto.
  - cbn [retained]. rewrite Hown.
    destruct (bool_decide _ && has_hash md5 (text_hash md5 p) earlier') eqn:Hdrop'.
    + apply andb_true_iff in Hdrop' as [Ho Hin]. apply Hsub in Hin.
      by rewrite Ho, Hin in Hdrop.
    + f_equal. apply IH, Hsnoc.
Qed.

Lemma retained_pages_again all all' ps :
  (forall h, owner md5 all' h = owner md5 all h) ->
  retained_pages md5 all' (retained_pages md5 all ps) = retained_pages md5 all ps.
Proof.
  intros Hown. unfold retained_pages. rewrite map_map. apply map_ext.
  intros [u pg]. cbn [fst snd set_paragraphs content paragraphs].
  rewrite (retained_again all all' u _ Hown [] []); done.
Qed.

Lemma retained_knowledge_base_again kb :
  retained_knowledge_base md5 (retained_knowledge_base md5 kb)
  = retained_knowledge_base md5 kb.
Proof.
  unfold retained_knowledge_base at 1. unfold retained_knowledge_base at 1.
  rewrite visited_pages_left. unfold retained_knowledge_base. rewrite map_map.
  apply map_ext. intros [d r]. cbn [fst snd].
  destruct (String.eqb d "_metadata") eqn:Hd; cbn [fst snd]; rewrite Hd; [done|].
  cbn [pages set_pages base_url domain_stats].
  rewrite retained_pages_again; [done|]. intros h. apply owner_left.
Qed.

Lemma visited_pages_urls_left kb :
  (visited_pages (retained_knowledge_base md5 kb)).*1 = (visited_pages kb).*1.
Proof.
  unfold retained_knowledge_base. rewrite visited_pages_left, <- list_fmap_compose.
  apply list_fmap_ext. by intros i [u ps] _.
Qed.

(** X20.  When no url is the key of two pages, a second run of
    [remove_duplicate_content] changes nothing: it drops no paragraph of
    what the first run left. *)
Theorem dedup_twice_is_dedup_once (g : Generator) :
  NoDup (visited_pages (knowledge_base g)).*1 ->
  remove_duplicate_content md5 (remove_duplicate_content md5 g)
  = remove_duplicate_content md5 g.
Proof.
  intros Hnd.
  pose proof (remove_duplicate_content_retained md5 g Hnd) as Hk.
  assert (NoDup (visited_pages
                   (knowledge_base (remove_duplicate_content md5 g))).*1) as Hnd'.
  { by rewrite Hk, visited_pages_urls_left. }
  pose proof (remove_duplicate_content_retained md5 _ Hnd') as Hk'.
  rewrite Hk, retained_knowledge_base_again, <- Hk in Hk'.
  revert Hk'. generalize (remove_duplicate_content md5 g). intros g' Hk'.
  unfold remove_duplicate_content in *. cbn [knowledge_base set_knowledge_base] in Hk'.
  rewrite Hk'. by destruct g'.
Qed.

End DedupTwice.

Lemma dedup_twice_is_dedup_once_witness :
  NoDup (visited_pages (knowledge_base Shared.before)).*1 /\
  remove_duplicate_content (fun s => s)
    (remove_duplicate_content (fun s => s) Shared.before)
  = remove_duplicate_content (fun s => s) Shared.before.
Proof.
  assert (NoDup (visited_pages (knowledge_base Shared.before)).*1) as Hnd.
  { vm_compute. repeat constructor; rewrite ?list_elem_of_singleton; set_solver. }
  exact (conj Hnd (dedup_twice_is_dedup_once (fun s => s) Shared.before Hnd)).
Defined.

(** ** [main] *)

Section RobotsOff.
Context {lib : Urllib.UrlLib} (cfg : Config) (W W' : World).
Hypothesis Hoff : respect_robots cfg = false.
Hypothesis Hget : forall n url, http_get W' n url = http_get W n url.
Hypothesis Hclock : forall n, clock W' n = clock W n.









End RobotsOff.


Section MainReport.
Context {lib : Urllib.UrlLib} (order : list string) (W : World) (md5 : string -> string).





End MainReport.


(** ** The [robots.txt] gate *)

Section RobotsOn.
Context {lib : Urllib.UrlLib} (cfg : Config) (W : World).
Hypothesis Hon : respect_robots cfg = true.
Hypothesis Hsame : forall n m url, robots_read W n url = robots_read W m url.

Lemma polite_same g g' :
  fetched g' = fetched g -> robot_parsers g' = robot_parsers g ->
  polite W g -> polite W g'.
Proof.
  intros Hf Hr [H1 H2]. split; [by rewrite Hf|]. unfold cache_sound. by rewrite Hr.
Qed.

Lemma cache_sound_set domain parser n g :
  robots_read W n (domain +:+ "/robots.txt") = Some parser ->
  cache_sound W g ->
  forall d p, od_get d (od_set domain parser (robot_parsers g)) = Some p ->
              robots_read W 0 (d +:+ "/robots.txt") = Some p.
Proof.
  intros Hread Hc d p. destruct (decide (domain = d)) as [<-|Hne].
  - rewrite od_get_set_eq. intros [= <-]. by rewrite (Hsame 0 n).
  - rewrite od_get_set_ne by done. apply Hc.
Qed.

(** The gate when it answers no: the cache may have grown. *)
Lemma polite_robots url g :
  polite W g -> polite W (snd (is_allowed_by_robots cfg W url g)).
Proof.
  intros [Hf Hc]. unfold is_allowed_by_robots. rewrite Hon. cbn [negb].
  destruct (od_get _ (robot_parsers g)) as [parser|] eqn:Hcache.
  - by destruct (parser url).
  - destruct (robots_read W _ _) as [parser|] eqn:Hread; [|done].
    destruct (parser url); (split; [exact Hf|]); intros d p; cbn;
      by apply (cache_sound_set _ _ _ _ Hread).
Qed.

(** The gate when it answers yes, and the request that follows. *)
Lemma polite_request url g :
  polite W g ->
  fst (is_allowed_by_robots cfg W url g) = true ->
  polite W (requested cfg W url g).
Proof.
  intros HP Hyes. pose proof (polite_robots url g HP) as [Hf Hc].
  split; [|exact Hc].
  change (Forall (permitted W)
            (fetched (snd (is_allowed_by_robots cfg W url g)) ++ [url])).
  apply Forall_app. split; [exact Hf|]. apply Forall_singleton.
  intros parser Hread. destruct HP as [_ Hc0].
  revert Hyes. unfold is_allowed_by_robots. rewrite Hon. cbn [negb].
  unfold robots_txt_of in Hread. cbv zeta in Hread.
  destruct (od_get _ (robot_parsers g)) as [cached|] eqn:Hcache.
  - apply Hc0 in Hcache. rewrite Hcache in Hread. injection Hread as <-.
    by destruct (cached url).
  - rewrite (Hsame _ 0), Hread. by destruct (parser url).
Qed.

Lemma visit_page_polite url base_url base_domain depth g :
  polite W g -> polite W (fst (visit_page cfg W url base_url base_domain depth g)).
Proof.
  intros HP. unfold visit_page.
  destruct (bool_decide _); [done|].
  destruct (negb (should_crawl_domain _ _ _)); [by apply (polite_same g)|].
  destruct (fst (is_allowed_by_robots cfg W (clean_url url) g)) eqn:Hyes; cbn [negb fst];
    [|by apply polite_robots].
  apply (handle_response_keeps cfg W (polite W) (fun _ => polite W)).
  - intros _ e g1. by apply polite_same.
  - intros _ g1. by apply polite_same.
  - intros _ d b g1. apply polite_same; unfold ensure_domain;
      by destruct (od_mem d (knowledge_base g1)).
  - intros u d page r g1 HP1 Hr _. revert HP1. apply polite_same;
      unfold store_page; by rewrite Hr.
  - intros e g1. by apply polite_same.
  - by apply polite_request.
Qed.

Lemma crawl_page_polite fuel :
  forall url base_url base_domain depth g g',
    polite W g -> crawl_page cfg W fuel url base_url base_domain depth g = Some g' ->
    polite W g'.
Proof.
  induction fuel as [|fuel IH]; intros url base_url base_domain depth g g' HP; [done|].
  cbn [crawl_page].
  pose proof (visit_page_polite url base_url base_domain depth g HP) as HP1.
  destruct (visit_page cfg W url base_url base_domain depth g) as [g1 [[cl ol]|]];
    cbn [fst] in HP1; [|by intros [= <-]].
  destruct (for_each _ _ cl g1) as [g2|] eqn:E; [|done]. intros H.
  eapply (for_each_keeps (polite W)); [| |exact H].
  - intros x g0 g0' HP0. by apply IH.
  - eapply (for_each_keeps (polite W)); [| exact HP1 |exact E].
    intros x g0 g0' HP0. by apply IH.
Qed.

Lemma reset_polite base_domain g :
  polite W g -> polite W (reset_domain_stats base_domain g).
Proof.
  apply polite_same; unfold reset_domain_stats;
    by destruct (od_get base_domain (knowledge_base g)).
Qed.

(** X23.  When [respect_robots] is on and the [robots.txt] files do not
    change during the run, no url that the [robots.txt] of its site forbids
    is ever requested: every url on the trace of requests is one that the
    parser of its site lets the crawler fetch. *)
Theorem forbidden_urls_are_not_requested (g : Generator) (url : string)
    (parser : string -> bool) :
  reachable cfg W g ->
  url ∈ fetched g ->
  robots_read W 0 (robots_txt_of url) = Some parser ->
  parser url = true.
Proof.
  intros Hg Hin Hread.
  assert (polite W g) as [Hf _].
  { clear Hin Hread.
    induction Hg as [|u bu bd d g Hg IH|bd g Hg IH|fuel u bu bd d g g' Hg IH E
                    |u g g' Hg IH E].
    - split; [constructor | by intros d p].
    - by apply visit_page_polite.
    - by apply reset_polite.
    - by apply (crawl_page_polite fuel u bu bd d g g').
    - unfold crawl_website in E.
      eapply crawl_page_polite; [|exact E]. by apply reset_polite. }
  rewrite Forall_forall in Hf. by apply (Hf url Hin).
Qed.

End RobotsOn.

(** The run on the small site whose [robots.txt] forbids [/toolbox/a]: the
    seed and [/about] are requested, [/toolbox/a] is skipped. *)
Lemma forbidden_urls_are_not_requested_witness :
  fetched Polite.run = [Scenario.seed; Scenario.about] /\
  Polite.robots Scenario.toolbox_a = false /\
  Polite.robots Scenario.about = true.
Proof.
  assert (crawl_seeds (lib := PyUrllib.lib) Polite.cfg Polite.world [Scenario.seed]
            new_generator = Some Polite.run) as Hrun by (vm_compute; reflexivity).
  assert (fetched Polite.run = [Scenario.seed; Scenario.about]) as Hf
    by (vm_compute; reflexivity).
  split; [exact Hf|]. split; [vm_compute; reflexivity|].
  refine (forbidden_urls_are_not_requested (lib := PyUrllib.lib) Polite.cfg Polite.world
            eq_refl (fun _ _ _ => eq_refl) Polite.run Scenario.about Polite.robots
            _ _ eq_refl).
  - exact (reachable_crawl_seeds Polite.cfg Polite.world [Scenario.seed] new_generator
             Polite.run (reach_new _ _) Hrun).
  - rewrite Hf. apply list_elem_of_further, list_elem_of_here.
Defined.

(** ** The counters of a domain *)

Lemma bump_type_total t (bt : list (string * nat)) :
  foldr (fun kv n => snd kv + n) 0 (bump_type t bt)
  = S (foldr (fun kv n => snd kv + n) 0 bt).
Proof.
  unfold bump_type. induction bt as [|[t' c] bt IH]; [done|].
  cbn [od_get od_set]. destruct (String.eqb t t'); [done|].
  cbn [foldr snd]. rewrite IH. lia.
Qed.

Section DomainCounters.
Context {lib : Urllib.UrlLib} (cfg : Config) (W : World).

Lemma counters_same g g' :
  knowledge_base g' = knowledge_base g -> counters_add_up g -> counters_add_up g'.
Proof. unfold counters_add_up. by intros ->. Qed.

Lemma counters_set domain r' g :
  domain_pages_crawled (domain_stats r') = by_type_total r' ->
  domain_pages_crawled (domain_stats r') <= length (pages r') ->
  counters_add_up g ->
  counters_add_up (set_knowledge_base (od_set domain r' (knowledge_base g)) g).
Proof.
  intros H1 H2 HJ d r. cbn [knowledge_base set_knowledge_base].
  destruct (decide (domain = d)) as [<-|Hne].
  - rewrite od_get_set_eq. by intros [= <-].
  - rewrite od_get_set_ne by done. apply HJ.
Qed.

(** X24.  In every generator that a run can reach and for every domain,
    [stats["pages_crawled"]] of the domain is the sum of the counters of
    [stats["by_type"]], and the domain holds at least that many pages (more
    when the counters were reset by a later seed of the domain). *)
Theorem domain_counters_add_up (g : Generator) (domain : string) (r : DomainRecord) :
  reachable cfg W g ->
  od_get domain (knowledge_base g) = Some r ->
  domain_pages_crawled (domain_stats r) = by_type_total r /\
  domain_pages_crawled (domain_stats r) <= length (pages r).
Proof.
  intros Hg. revert domain r.
  assert (Inv cfg g /\ counters_add_up g) as [_ H]; [|exact H].
  revert g Hg.
  apply (reachable_keeps cfg W
           (fun g => Inv cfg g /\ counters_add_up g)
           (fun u g => InvAt cfg u g /\ counters_add_up g)).
  - split; [apply Inv_new | by intros d r].
  - intros g [HI H]. split; [by apply Inv_skip | by apply (counters_same g)].
  - intros u g [HI H]. split; [by apply Inv_robots|].
    apply (counters_same g); [apply knowledge_base_robots | done].
  - intros u g [HI H] Hnew. split; [by apply Inv_request | by apply (counters_same g)].
  - intros u e g [[HI _] H]. split; [by apply Inv_record_error | by apply (counters_same g)].
  - intros u g [[HI _] H]. split; [by apply Inv_skip | by apply (counters_same g)].
  - intros u d b g [HI H]. split; [by apply Inv_ensure|].
    unfold ensure_domain. destruct (od_mem d (knowledge_base g)); [done|].
    by apply counters_set.
  - intros u d page r g [HI H] Hr Hgo. split; [by eapply Inv_store|].
    pose proof (InvAt_fresh cfg u d r g HI Hr) as Hfresh.
    destruct (H d r Hr) as [H1 H2].
    unfold store_page. rewrite Hr.
    apply (counters_same (set_knowledge_base
                            (od_set d (store_record u page r) (knowledge_base g)) g));
      [done|].
    apply counters_set; [| |done].
    + unfold by_type_total. cbn [store_record domain_stats domain_pages_crawled by_type].
      rewrite bump_type_total. by rewrite H1.
    + cbn [store_record domain_stats domain_pages_crawled pages].
      rewrite od_set_length_absent by done. lia.
  - intros e g [HI H]. split; [by apply Inv_record_error | by apply (counters_same g)].
  - intros d g [HI H]. split; [by apply Inv_reset_domain_stats|].
    unfold reset_domain_stats. destruct (od_get d (knowledge_base g)) as [r|]; [|done].
    apply counters_set; [done | cbn; lia | done].
Qed.

End DomainCounters.

(** The run on the small site: two pages, both articles. *)
Lemma domain_counters_add_up_witness :
  domain_stats (Scenario.record_of "example.org" (Scenario.run Scenario.quiet [Scenario.seed]))
  = {| domain_pages_crawled := 2; by_type := [("article", 2)] |} /\
  domain_pages_crawled
    (domain_stats
       (Scenario.record_of "example.org" (Scenario.run Scenario.quiet [Scenario.seed])))
  = by_type_total
      (Scenario.record_of "example.org" (Scenario.run Scenario.quiet [Scenario.seed])).
Proof.
  split; [vm_compute; reflexivity|].
  refine (proj1 (domain_counters_add_up (lib := PyUrllib.lib) Scenario.cfg Scenario.quiet
                   (Scenario.run Scenario.quiet [Scenario.seed]) "example.org"
                   (Scenario.record_of "example.org"
                      (Scenario.run Scenario.quiet [Scenario.seed])) _ _)).
  - apply run_reachable. vm_compute; reflexivity.
  - vm_compute; reflexivity.
Defined.

(** ** The title of a page *)

Section TitleFacts.
Implicit Types (x s t : string).












End TitleFacts.

(** ** The urls that a crawl requests and stores *)

Section ByVisit.
Context {lib : Urllib.UrlLib} (cfg : Config) (W : World) (P : Generator -> Prop).
Hypothesis Hvisit : forall url base_url base_domain depth g,
  P g -> P (fst (visit_page cfg W url base_url base_domain depth g)).
Hypothesis Hreset : forall base_domain g, P g -> P (reset_domain_stats base_domain g).

Lemma crawl_page_by_visit fuel :
  forall url base_url base_domain depth g g',
    P g -> crawl_page cfg W fuel url base_url base_domain depth g = Some g' -> P g'.
Proof.
  induction fuel as [|fuel IH]; intros url base_url base_domain depth g g' HP; [done|].
  cbn [crawl_page].
  pose proof (Hvisit url base_url base_domain depth g HP) as HP1.
  destruct (visit_page cfg W url base_url base_domain depth g) as [g1 [[cl ol]|]];
    cbn [fst] in HP1; [|by intros [= <-]].
  destruct (for_each _ _ cl g1) as [g2|] eqn:E; [|done]. intros H.
  eapply (for_each_keeps P); [| |exact H].
  - intros x g0 g0' HP0. by apply IH.
  - eapply (for_each_keeps P); [| exact HP1 |exact E].
    intros x g0 g0' HP0. by apply IH.
Qed.

(** What a new generator has, and a page visit and the reset of the
    counters keep, holds of every generator that a run can reach. *)
Lemma reachable_by_visit g : P new_generator -> reachable cfg W g -> P g.
Proof.
  intros Hnew Hg.
  induction Hg as [|u bu bd d g Hg IH|bd g Hg IH|fuel u bu bd d g g' Hg IH E
                  |u g g' Hg IH E].
  - done.
  - by apply Hvisit.
  - by apply Hreset.
  - by apply (crawl_page_by_visit fuel u bu bd d g g').
  - unfold crawl_website in E.
    eapply crawl_page_by_visit; [|exact E]. by apply Hreset.
Qed.

End ByVisit.

Section CleanedUrls.
Context {lib : Urllib.UrlLib} (cfg : Config) (W : World).

Lemma visit_page_visited url base_url base_domain depth g :
  let g' := fst (visit_page cfg W url base_url base_domain depth g) in
  visited_urls g' = visited_urls g \/
  visited_urls g' = {[clean_url url]} ∪ visited_urls g.
Proof.
  unfold visit_page.
  destruct (bool_decide _); [by left|].
  destruct (should_crawl_domain cfg (get_domain (clean_url url)) g); cbn [negb fst];
    [|by left].
  destruct (fst (is_allowed_by_robots cfg W (clean_url url) g)); cbn [negb fst].
  - right.
    destruct (fetched_handle_response cfg W (clean_url url) base_url base_domain depth
                (length (fetched g)) (http_get W (length (fetched g)) (clean_url url))
                (requested cfg W (clean_url url) g)) as [_ ->].
    unfold requested. cbn [visited_urls log_request mark_visited].
    by rewrite robots_visited.
  - left. apply robots_visited.
Qed.

(** Every url of the visited set is the result of [clean_url]. *)
Lemma visited_are_cleaned g url :
  reachable cfg W g -> url ∈ visited_urls g -> exists u, url = clean_url u.
Proof.
  intros Hg. revert url.
  apply (reachable_by_visit cfg W
           (fun g => forall url, url ∈ visited_urls g -> exists u, url = clean_url u));
    [| |by intros url H; apply elem_of_empty in H|exact Hg].
  - intros u bu bd depth g0 H0 url.
    destruct (visit_page_visited u bu bd depth g0) as [->| ->]; [apply H0|].
    intros [->%elem_of_singleton|Hin]%elem_of_union; [by exists u | by apply H0].
  - intros d g0 H0. unfold reset_domain_stats.
    by destruct (od_get d (knowledge_base g0)).
Qed.

End CleanedUrls.

Lemma all_chars_urlunsplit f sc nl url q :
  f "/"%char = true -> f ":"%char = true -> f "?"%char = true ->
  all_chars f sc = true -> all_chars f nl = true -> all_chars f url = true ->
  all_chars f q = true ->
  all_chars f (PyUrllib.urlunsplit sc nl url q "") = true.
Proof.
  intros Hslash Hcolon Hmark Hsc Hnl Hurl Hq. unfold PyUrllib.urlunsplit.
  cbn [PyStr.is_empty negb].
  repeat match goal with
         | |- context [if ?b then _ else _] => destruct b
         end;
    rewrite ?all_chars_app; cbn [all_chars String.append];
    rewrite ?all_chars_app; cbn [all_chars String.append];
    by rewrite ?Hslash, ?Hcolon, ?Hmark, ?Hsc, ?Hnl, ?Hurl, ?Hq.
Qed.

Lemma scheme_char_no_hash c :
  PyUrllib.is_scheme_char c && negb (PyStr.is_upper c) = true -> is_not "#" c = true.
Proof. destruct c as [[] [] [] [] [] [] [] []]; vm_compute; done. Qed.

Lemma query_char_no_hash c : is_query_char c = true -> is_not "#" c = true.
Proof. destruct c as [[] [] [] [] [] [] [] []]; vm_compute; done. Qed.

Lemma netloc_char_no_hash c : is_netloc_char c = true -> is_not "#" c = true.
Proof. destruct c as [[] [] [] [] [] [] [] []]; vm_compute; done. Qed.

Lemma path_char_no_hash c : is_path_char c = true -> is_not "#" c = true.
Proof. unfold is_path_char. by intros [_ ?]%andb_true_iff. Qed.

(** The url that [clean_url] builds has no [#]. *)
Lemma clean_url_no_hash u :
  PyStr.contains "#" (clean_url (lib := PyUrllib.lib) u) = false.
Proof.
  apply contains_char_false. rewrite clean_url_unfold.
  destruct (urlparse_ok u) as [Hsc Hnl Hpa Hpr _ _ _ _ _ _ _].
  unfold PyUrllib.urlunparse, rebuild.
  cbn [Urllib.scheme Urllib.netloc Urllib.path Urllib.params Urllib.query Urllib.fragment].
  apply all_chars_urlunsplit; try done.
  - destruct Hsc as [->|Hsc]; [done|]. unfold is_scheme in Hsc.
    apply andb_true_iff in Hsc as [_ Hsc].
    revert Hsc. apply all_chars_weaken, scheme_char_no_hash.
  - revert Hnl. apply all_chars_weaken, netloc_char_no_hash.
  - fold (with_params (Urllib.path (PyUrllib.urlparse u))
            (Urllib.params (PyUrllib.urlparse u))).
    apply with_params_chars; [done| |].
    + revert Hpa. apply all_chars_weaken, path_char_no_hash.
    + revert Hpr. apply all_chars_weaken, path_char_no_hash.
  - generalize (cleaned_query_chars (PyUrllib.urlparse u)).
    apply all_chars_weaken, query_char_no_hash.
Qed.

Lemma remove_chars_all f g s :
  all_chars g s = true -> all_chars g (PyUrllib.remove_chars f s) = true.
Proof.
  induction s as [|c s IH]; cbn [PyUrllib.remove_chars all_chars]; [done|].
  intros [Hc Hs]%andb_true_iff. destruct (f c); [by apply IH|].
  cbn [all_chars]. by rewrite Hc, IH.
Qed.

Lemma lstrip_by_all f g s :
  all_chars g s = true -> all_chars g (PyStr.lstrip_by f s) = true.
Proof.
  induction s as [|c s IH]; cbn [PyStr.lstrip_by all_chars]; [done|].
  intros H. destruct (f c); [|done]. apply andb_true_iff in H as [_ H]. by apply IH.
Qed.

(** A url without [#] has no fragment. *)
Lemma urlparse_no_hash s :
  PyStr.contains "#" s = false -> Urllib.fragment (PyUrllib.urlparse s) = "".
Proof.
  intros H%contains_char_false.
  assert (all_chars (is_not "#") (PyUrllib.sanitize s) = true) as Hs
    by by apply remove_chars_all, lstrip_by_all.
  unfold PyUrllib.urlparse, PyUrllib.urlparse_with.
  destruct (PyUrllib.split_scheme "" (PyUrllib.sanitize s)) as [sc r0] eqn:E0.
  assert (all_chars (is_not "#") r0 = true) as H0.
  { destruct (split_scheme_spec _ _ _ E0) as [[_ ->]|[_ [a Ha]]]; [done|].
    rewrite Ha, all_chars_app in Hs. apply andb_true_iff in Hs as [_ Hs].
    cbn [String.append all_chars] in Hs. by apply andb_true_iff in Hs as [_ Hs]. }
  destruct (PyUrllib.split_netloc r0) as [nl r1] eqn:E1.
  assert (all_chars (is_not "#") r1 = true) as H1.
  { destruct (split_netloc_spec _ _ _ E1) as [_ [(_ & -> & _)|[Hr _]]]; [done|].
    rewrite Hr in H0. cbn [String.append all_chars] in H0.
    apply andb_true_iff in H0 as [_ H0]. apply andb_true_iff in H0 as [_ H0].
    rewrite all_chars_app in H0. by apply andb_true_iff in H0 as [_ H0]. }
  rewrite (split_at_absent "#" r1 H1).
  destruct (PyUrllib.split_at "?" r1) as [r2 qu].
  by match goal with
     | |- context [if ?b then ?x else ?y] => destruct (if b then x else y) as [pa pr]
     end.
Qed.

(** X26.  On the model of [urllib.parse], no url that a crawl marks as
    visited, requests or stores as the key of a page has a fragment: each of
    them is a result of [clean_url], which holds no [#]. *)
Theorem crawled_urls_have_no_fragment (cfg : Config) (W : World) (g : Generator)
    (url : string) :
  reachable (lib := PyUrllib.lib) cfg W g ->
  url ∈ visited_urls g \/ url ∈ fetched g \/ url ∈ stored_urls g ->
  (exists u, url = clean_url (lib := PyUrllib.lib) u) /\
  PyStr.contains "#" url = false /\
  Urllib.fragment (PyUrllib.urlparse url) = "".
Proof.
  intros Hg Hin.
  assert (url ∈ visited_urls g) as Hv.
  { pose proof (Inv_reachable cfg W g Hg) as HI.
    destruct Hin as [?|[?|?]];
      [done | by apply (inv_fetched_visited cfg g HI)
            | by apply (inv_stored_visited cfg g HI)]. }
  destruct (visited_are_cleaned cfg W g url Hg Hv) as [u ->].
  split; [by exists u|]. split; [apply clean_url_no_hash|].
  apply urlparse_no_hash, clean_url_no_hash.
Qed.

(** The small site when the seed page links to [/toolbox/a#top]. *)
Lemma crawled_urls_have_no_fragment_witness :
  fetched (Scenario.run Fragment.world [Scenario.seed])
  = [Scenario.seed; Scenario.toolbox_a] /\
  PyStr.contains "#" Scenario.toolbox_a = false.
Proof.
  assert (fetched (Scenario.run Fragment.world [Scenario.seed])
          = [Scenario.seed; Scenario.toolbox_a]) as Hf by (vm_compute; reflexivity).
  split; [exact Hf|].
  refine (proj1 (proj2 (crawled_urls_have_no_fragment Scenario.cfg Fragment.world
                          (Scenario.run Fragment.world [Scenario.seed])
                          Scenario.toolbox_a _ (or_intror (or_introl _))))).
  - apply run_reachable. vm_compute; reflexivity.
  - rewrite Hf. apply list_elem_of_further, list_elem_of_here.
Defined.
